(** * wynd-mcp-server: the request-dispatch and resource-routing layer

    A shallow embedding of the TypeScript sources
    - [src/api/client.ts] (the Backend Client and its response interceptor),
    - [src/api/endpoints/index.ts] (the REST endpoint wrappers),
    - [src/server/resources/*.ts] (the resource handlers),
    - [src/server/tools/index.ts] (the tool handlers),
    - [src/server/transport/http.ts] (the HTTP transport),
    and the properties of the specification that concern them.

    JavaScript values are a small inductive type; objects used as argument
    bags are finite maps from property names to values.  Asynchronous
    handlers are computations in a monad that reads the backend (a fixed
    function from requests to axios outcomes), records every request that
    reaches the Backend Client, and either returns or throws.  Logging
    ([console.error], [logger.*]) has no effect on any result and is left
    out. *)

From stdpp Require Import gmap strings list fin_maps pretty.
From Stdlib Require Import ZArith Ascii String.
Open Scope string_scope.
Open Scope Z_scope.

Set Warnings "-register-all".

(** ** JavaScript values *)

Module Js.

(** Numbers are integers: the code only tests them for truthiness, prints
    them and passes them on. *)
Inductive value : Type :=
| VUndefined
| VNull
| VBool (b : bool)
| VNum (n : Z)
| VStr (s : string)
| VArr (l : list value)
| VObj (o : gmap string value).

(** [ToBoolean]: what [if (x)], [!x] and [x || y] test. *)
Definition truthy (v : value) : bool :=
  match v with
  | VUndefined | VNull => false
  | VBool b => b
  | VNum n => negb (n =? 0)
  | VStr s => negb (String.eqb s "")
  | VArr _ | VObj _ => true
  end.

(** [a || b] *)
Definition or (a b : value) : value := if truthy a then a else b.

(** [o.k] on an argument bag: an absent key reads as [undefined]. *)
Definition get (o : gmap string value) (k : string) : value :=
  default VUndefined (o !! k).

(** [o?.k] where [o] may be [undefined]. *)
Definition get_opt (o : option (gmap string value)) (k : string) : value :=
  match o with
  | Some m => get m k
  | None => VUndefined
  end.

(** [String(v)] and the conversion of template literals. *)
Fixpoint String (v : value) : string :=
  match v with
  | VUndefined => "undefined"
  | VNull => "null"
  | VBool true => "true"
  | VBool false => "false"
  | VNum n => pretty n
  | VStr s => s
  | VArr l =>
      String.concat ","
        (List.map (fun x => match x with
                            | VUndefined | VNull => ""
                            | _ => String x
                            end) l)
  | VObj _ => "[object Object]"
  end.

(** The one-character string holding a double quote. *)
Definition dquote : string := String.String (ascii_of_nat 34) EmptyString.

(** The line feed ['\n']. *)
Definition newline : string := String.String (ascii_of_nat 10) EmptyString.

(** [x === y] on the values the code compares with string literals. *)
Definition is_str (v : value) (s : string) : bool :=
  match v with
  | VStr s' => String.eqb s' s
  | _ => false
  end.

(** An object literal [{ k1: v1, ..., kn: vn }] with distinct keys. *)
Definition obj (kvs : list (string * value)) : gmap string value :=
  list_to_map kvs.

(** [uri.split('/').pop()]: the text after the last ['/'] (the whole
    string when there is none). *)
Fixpoint last_segment_aux (acc : string) (s : string) : string :=
  match s with
  | EmptyString => acc
  | String.String c rest =>
      if Ascii.eqb c "/"%char then last_segment_aux "" rest
      else last_segment_aux (acc ++ String.String c "") rest
  end.

Definition split_pop (uri : string) : string := last_segment_aux "" uri.

(** [s.endsWith(suffix)] *)
Definition endsWith (s suffix : string) : bool :=
  let n := String.length s in
  let m := String.length suffix in
  (m <=? n)%nat && String.eqb (String.substring (n - m) m s) suffix.

(** Text is modelled as ASCII: a string stands for the JavaScript string
    of the same characters when each of them is below 128.  The two
    string operations below that look into characters, [toLowerCase] and
    the class [\s], are modelled on such text only; on other text they
    follow Unicode, which is not modelled, and every statement that
    depends on them is restricted to ASCII text by [ascii_text]. *)
Definition ascii_char (c : ascii) : bool := (nat_of_ascii c <? 128)%nat.

Fixpoint ascii_text (s : string) : bool :=
  match s with
  | EmptyString => true
  | String.String c rest => ascii_char c && ascii_text rest
  end.

(** [s.toLowerCase()] on ASCII text: the letters [A]-[Z] become [a]-[z],
    every other character below 128 is kept. *)
Definition lower_char (c : ascii) : ascii :=
  let n := nat_of_ascii c in
  if ((65 <=? n) && (n <=? 90))%nat then ascii_of_nat (n + 32) else c.

Fixpoint toLowerCase (s : string) : string :=
  match s with
  | EmptyString => EmptyString
  | String.String c rest => String.String (lower_char c) (toLowerCase rest)
  end.

(** The class [\s] on ASCII text: the space and the characters 9 to 13
    (tab, line feed, vertical tab, form feed, carriage return). *)
Definition is_space (c : ascii) : bool :=
  let n := nat_of_ascii c in
  ((n =? 32) || ((9 <=? n) && (n <=? 13)))%nat.

(** [s.replace(/\s+/g, '-')]: every maximal run of white space becomes
    one dash.  [in_run] says that the previous character was white space. *)
Fixpoint dash_spaces (in_run : bool) (s : string) : string :=
  match s with
  | EmptyString => EmptyString
  | String.String c rest =>
      if is_space c then
        if in_run then dash_spaces true rest
        else String.String "-"%char (dash_spaces true rest)
      else String.String c (dash_spaces false rest)
  end.

End Js.

Import Js.

(** ** Configuration ([src/config/index.ts]) *)

Record Config := mkConfig {
  env : string;
  api_url : string;
  api_token : string;
  api_timeout : Z;
  server_port : Z;
  server_logLevel : string;
  project_defaultProjectId : string
}.

(** ** Errors, requests and the handler monad *)

(** The exceptions that occur: [ApiError] is the class of
    [src/api/client.ts]; [AxiosError] is the library's own error, which the
    client passes through when the request could not be set up;
    [TypeError] and [RangeError] are raised by the runtime. *)
Inductive JsError : Type :=
| ApiError (message : string) (status : Z) (data : value)
| Error (message : string)
| AxiosError (message : string)
| TypeError (message : string)
| RangeError (message : string).

(** [error.message]; every exception above is an instance of [Error]. *)
Definition error_message (e : JsError) : string :=
  match e with
  | ApiError m _ _ | Error m | AxiosError m | TypeError m | RangeError m => m
  end.

Inductive Res (A : Type) : Type :=
| Ok (a : A)
| Throw (e : JsError).
Arguments Ok {A} a.
Arguments Throw {A} e.

Inductive Method := GET | POST | PUT | DELETE.

(** One call of the Backend Client: [params] is the query object of a
    [get], [body] the payload of a [post] or [put]. *)
Record Request := mkRequest {
  method : Method;
  url : string;
  params : value;
  body : value
}.

Record AxiosResponse := mkResponse {
  status : Z;
  data : value
}.

(** What axios hands to the rejection interceptor: [response] is present
    when the server answered outside 2xx, [request] when the request was
    sent at all. *)
Record AxiosFailure := mkFailure {
  message : string;
  response : option AxiosResponse;
  request : bool
}.

Inductive AxiosOutcome :=
| Fulfilled (r : AxiosResponse)
| Rejected (e : AxiosFailure).

(** The world a handler runs in: the backend as a fixed function from
    requests to outcomes, and the clock reading of [new Date()]. *)
Record World := mkWorld {
  backend : Request -> AxiosOutcome;
  now : string
}.

(** A handler returns the requests it issued, in order, and its result. *)
Definition M (A : Type) : Type := World -> list Request * Res A.

Definition ret {A} (a : A) : M A := fun _ => ([], Ok a).

Definition throw {A} (e : JsError) : M A := fun _ => ([], Throw e).

Definition bind {A B} (m : M A) (k : A -> M B) : M B :=
  fun w =>
    match m w with
    | (l, Ok a) => let '(l', r) := k a w in ((l ++ l')%list, r)
    | (l, Throw e) => (l, Throw e)
    end.

(** [try { m } catch (error) { h error }] *)
Definition try_catch {A} (m : M A) (h : JsError -> M A) : M A :=
  fun w =>
    match m w with
    | (l, Ok a) => (l, Ok a)
    | (l, Throw e) => let '(l', r) := h e w in ((l ++ l')%list, r)
    end.

Definition lift {A} (r : Res A) : M A := fun _ => ([], r).

Definition clock : M string := fun w => ([], Ok (now w)).

#[global] Instance M_ret : MRet M := @ret.
#[global] Instance M_bind : MBind M := fun A B k m => bind m k.

Definition calls {A} (r : list Request * Res A) : list Request := fst r.
Definition result {A} (r : list Request * Res A) : Res A := snd r.

(** [v.k] on a value that came back from the backend: reading a property
    of [undefined] or [null] raises a [TypeError]. *)
Definition prop (v : value) (k : string) : Res value :=
  match v with
  | VUndefined =>
      Throw (TypeError ("Cannot read properties of undefined (reading '" ++ k ++ "')"))
  | VNull =>
      Throw (TypeError ("Cannot read properties of null (reading '" ++ k ++ "')"))
  | VObj o => Ok (get o k)
  | VArr l => Ok (if String.eqb k "length" then VNum (Z.of_nat (List.length l)) else VUndefined)
  | VStr s => Ok (if String.eqb k "length" then VNum (Z.of_nat (String.length s)) else VUndefined)
  | VBool _ | VNum _ => Ok VUndefined
  end.

(** [v?.k] *)
Definition prop_opt (v : value) (k : string) : value :=
  match prop v k with
  | Ok x => x
  | Throw _ => VUndefined
  end.

(** ** The Backend Client ([src/api/client.ts]) *)

Module Client.

(** The fulfilment interceptor unwraps the body. *)
Definition onFulfilled (r : AxiosResponse) : Res value := Ok (data r).

(** The rejection interceptor. *)
Definition onRejected (error : AxiosFailure) : Res value :=
  match response error with
  | Some resp =>
      let responseData := data resp in
      let errorMessage :=
        match responseData with
        | VObj o =>
            match o !! "message" with
            | Some m => Js.String m
            | None => message error
            end
        | _ => message error
        end in
      Throw (ApiError errorMessage (status resp) responseData)
  | None =>
      if request error then Throw (Error "No response received from server")
      else Throw (AxiosError (message error))
  end.

Definition intercept (o : AxiosOutcome) : Res value :=
  match o with
  | Fulfilled r => onFulfilled r
  | Rejected e => onRejected e
  end.

Definition send (r : Request) : M value :=
  fun w => ([r], intercept (backend w r)).

(** [wyndApi.get(url, { params })], [wyndApi.post(url, data)], ... *)
Definition get (u : string) (p : value) : M value := send (mkRequest GET u p VUndefined).
Definition post (u : string) (d : value) : M value := send (mkRequest POST u VUndefined d).
Definition put (u : string) (d : value) : M value := send (mkRequest PUT u VUndefined d).
Definition delete (u : string) : M value := send (mkRequest DELETE u VUndefined VUndefined).

End Client.

(** An optional argument bag as a value: [undefined] or the object. *)
Definition of_params (p : option (gmap string value)) : value :=
  match p with
  | Some o => VObj o
  | None => VUndefined
  end.

(** [{ ...params }] *)
Definition spread (p : option (gmap string value)) : gmap string value :=
  default ∅ p.

(** ** The REST endpoints ([src/api/endpoints/index.ts]) *)

Module Api.
Section Endpoints.

Variable config : Config.

Definition defaultProjectId : value := VStr (project_defaultProjectId config).

(** *** workspaces *)

Definition workspaces_list (p : option (gmap string value)) : M value :=
  Client.get "/api/workspaces" (of_params p).

Definition workspaces_get (id : value) : M value :=
  Client.get ("/api/workspaces/" ++ Js.String id) VUndefined.

Definition workspaces_create (d : gmap string value) : M value :=
  Client.post "/api/workspaces" (VObj d).

Definition workspaces_update (id : value) (d : gmap string value) : M value :=
  Client.put ("/api/workspaces/" ++ Js.String id) (VObj d).

Definition workspaces_delete (id : value) : M value :=
  Client.delete ("/api/workspaces/" ++ Js.String id).

(** *** projects *)

Definition projects_list (p : option (gmap string value)) : M value :=
  Client.get "/api/projects" (of_params p).

Definition projects_get (id : value) : M value :=
  Client.get ("/api/projects/" ++ Js.String id) VUndefined.

Definition projects_create (d : gmap string value) : M value :=
  Client.post "/api/projects" (VObj d).

Definition projects_update (id : value) (d : gmap string value) : M value :=
  Client.put ("/api/projects/" ++ Js.String id) (VObj d).

Definition projects_delete (id : value) : M value :=
  Client.delete ("/api/projects/" ++ Js.String id).

Definition projects_getStats (projectId : value) : M value :=
  Client.get ("/api/projects/" ++ Js.String projectId ++ "/stats") VUndefined.

(** *** tasks *)

(** [{ ...params, project_id: params?.project_id || config.project.defaultProjectId }] *)
Definition with_default_project (p : option (gmap string value)) : gmap string value :=
  <["project_id" := Js.or (get_opt p "project_id") defaultProjectId]> (spread p).

Definition tasks_list (p : option (gmap string value)) : M value :=
  let filteredParams := with_default_project p in
  Client.get "/api/tasks" (VObj filteredParams).

Definition tasks_get (id : value) : M value :=
  Client.get ("/api/tasks/" ++ Js.String id) VUndefined.

Definition tasks_create (d : gmap string value) : M value :=
  let taskData := with_default_project (Some d) in
  Client.post "/api/tasks" (VObj taskData).

Definition tasks_update (id : value) (d : gmap string value) : M value :=
  Client.put ("/api/tasks/" ++ Js.String id) (VObj d).

Definition tasks_delete (id : value) : M value :=
  Client.delete ("/api/tasks/" ++ Js.String id).

(** *** documents *)

Definition documents_list (p : option (gmap string value)) : M value :=
  let filteredParams := with_default_project p in
  Client.get "/api/documents" (VObj filteredParams).

Definition documents_get (id : value) : M value :=
  Client.get ("/api/documents/" ++ Js.String id) VUndefined.

Definition documents_create (d : gmap string value) : M value :=
  let documentData := with_default_project (Some d) in
  Client.post "/api/documents" (VObj documentData).

Definition documents_update (id : value) (d : gmap string value) : M value :=
  Client.put ("/api/documents/" ++ Js.String id) (VObj d).

Definition documents_delete (id : value) : M value :=
  Client.delete ("/api/documents/" ++ Js.String id).

(** *** errors *)

Definition errors_list (p : option (gmap string value)) : M value :=
  Client.get "/api/errors" (of_params p).

Definition errors_get (id : value) : M value :=
  Client.get ("/api/errors/" ++ Js.String id) VUndefined.

Definition errors_track (d : gmap string value) : M value :=
  Client.post "/api/errors" (VObj (<["status" := VStr "open"]> d)).

Definition errors_updateStatus (id : value) (st : value) : M value :=
  Client.put ("/api/errors/" ++ Js.String id ++ "/status") (VObj (Js.obj [("status", st)])).

Definition errors_delete (id : value) : M value :=
  Client.delete ("/api/errors/" ++ Js.String id).

(** *** prompts *)

Definition prompts_list (p : option (gmap string value)) : M value :=
  Client.get "/api/prompts" (of_params p).

Definition prompts_get (id : value) : M value :=
  Client.get ("/api/prompts/" ++ Js.String id) VUndefined.

Definition prompts_create (d : gmap string value) : M value :=
  Client.post "/api/prompts" (VObj d).

Definition prompts_update (id : value) (d : gmap string value) : M value :=
  Client.put ("/api/prompts/" ++ Js.String id) (VObj d).

Definition prompts_delete (id : value) : M value :=
  Client.delete ("/api/prompts/" ++ Js.String id).

(** *** phases *)

(** [api.phases]: the exported [api] object (lines 179-186) has the
    members [workspaces], [projects], [tasks], [documents], [errors] and
    [prompts] and no other, so this member reads as [undefined]. *)
Definition phases : value := VUndefined.

(** [api.phases.m(...)]: reading the method [m] of [undefined] raises a
    [TypeError]; the arguments play no role and nothing reaches the
    Backend Client. *)
Definition phases_call (m : string) : M value := lift (prop phases m).

Definition phases_list (p : option (gmap string value)) : M value :=
  phases_call "list".

Definition phases_get (id : value) : M value :=
  phases_call "get".

Definition phases_create (d : gmap string value) : M value :=
  phases_call "create".

Definition phases_update (id : value) (d : gmap string value) : M value :=
  phases_call "update".

Definition phases_delete (id : value) : M value :=
  phases_call "delete".

End Endpoints.
End Api.

(** ** The resource handlers ([src/server/resources/*.ts]) *)

(** [{ k1: data.k1, ..., kn: data.kn }]: the field allow-list of an
    update.  A field the caller left out is present with value
    [undefined]. *)
Definition pick (d : gmap string value) (keys : list string) : gmap string value :=
  Js.obj (List.map (fun k => (k, get d k)) keys).

(** [response.data || []] *)
Definition data_or_empty (resp : value) : M value :=
  d ← lift (prop resp "data"); mret (Js.or d (VArr [])).

(** [response?.data || []] *)
Definition data_or_empty_opt (resp : value) : value :=
  Js.or (prop_opt resp "data") (VArr []).

(** [const id = uri.split('/').pop(); if (!id) throw new Error(msg + uri)] *)
Definition uri_id (msg : string) (uri : string) : M value :=
  let id := split_pop uri in
  if String.eqb id "" then throw (Error (msg ++ uri)) else mret (VStr id).

Module WorkspaceResource.
Section Handlers.
Variable config : Config.

Definition list (p : option (gmap string value)) : M value :=
  try_catch
    (resp ← Api.workspaces_list p;
     mret (data_or_empty_opt resp))
    (fun _ => mret (VArr [])).

Definition read (uri : string) : M value :=
  try_catch
    (id ← uri_id "Invalid workspace URI: " uri;
     Api.workspaces_get id)
    (fun _ => mret VNull).

(** [data.name.toLowerCase().replace(/\s+/g, '-')] *)
Definition name_slug (name : value) : Res value :=
  match name with
  | VStr s => Ok (VStr (dash_spaces false (toLowerCase s)))
  | _ => Throw (TypeError "data.name.toLowerCase is not a function")
  end.

Definition default_settings : value :=
  VObj (Js.obj [("theme", VStr "light"); ("timezone", VStr "UTC");
                ("locale", VStr "en-US"); ("features", VObj ∅)]).

Definition create (d : gmap string value) : M value :=
  try_catch
    (if negb (truthy (get d "name")) then throw (Error "Workspace name is required")
     else
       slug ← (if truthy (get d "slug") then mret (get d "slug")
               else lift (name_slug (get d "name")));
       let workspaceData := Js.obj [
         ("name", get d "name");
         ("description", Js.or (get d "description") VNull);
         ("owner_id", Js.or (get d "owner_id") (VStr "system"));
         ("slug", slug);
         ("settings", Js.or (get d "settings") default_settings)] in
       Api.workspaces_create workspaceData)
    (fun error => throw error).

Definition update (uri : string) (d : gmap string value) : M value :=
  try_catch
    (id ← uri_id "Invalid workspace URI: " uri;
     existing ← read uri;
     if negb (truthy existing)
     then throw (Error ("Workspace with URI " ++ uri ++ " not found"))
     else
       let allowedUpdates := pick d ["name"; "description"; "settings"; "slug"] in
       Api.workspaces_update id allowedUpdates)
    (fun error => throw error).

Definition delete (uri : string) : M value :=
  try_catch
    (id ← uri_id "Invalid workspace URI: " uri;
     Api.workspaces_delete id;;
     mret VUndefined)
    (fun error => throw error).

End Handlers.
End WorkspaceResource.

Module TaskResource.
Section Handlers.
Variable config : Config.

(** The argument bag after the defaults of [list] have been written
    into it. *)
Definition list_params (p : option (gmap string value)) : gmap string value :=
  match p with
  | None =>
      Js.obj [("project_id", Api.defaultProjectId config);
              ("status", VStr "in_progress")]
  | Some o =>
      let o1 := <["project_id" := Api.defaultProjectId config]> o in
      if negb (truthy (get o1 "status"))
      then <["status" := VStr "in_progress"]> o1
      else o1
  end.

Definition list (p : option (gmap string value)) : M value :=
  try_catch
    (resp ← Api.tasks_list config (Some (list_params p));
     data_or_empty resp)
    (fun _ => mret (VArr [])).

Definition read (uri : string) : M value :=
  try_catch
    (id ← uri_id "Invalid task URI: " uri;
     Api.tasks_get id)
    (fun _ => mret VNull).

Definition create (d : gmap string value) : M value :=
  try_catch
    (if negb (truthy (get d "title")) then throw (Error "Task title is required")
     else if negb (truthy (get d "project_id")) then throw (Error "Project ID is required")
     else
       let taskData := Js.obj [
         ("title", get d "title");
         ("description", Js.or (get d "description") VNull);
         ("status", Js.or (get d "status") (VStr "todo"));
         ("priority", Js.or (get d "priority") (VStr "medium"));
         ("project_id", get d "project_id");
         ("assignee_id", get d "assignee_id");
         ("created_by", get d "created_by");
         ("due_date", get d "due_date");
         ("completed_at", Js.or (get d "completed_at") VNull)] in
       Api.tasks_create config taskData)
    (fun error => throw error).

Definition update (uri : string) (d : gmap string value) : M value :=
  try_catch
    (id ← uri_id "Invalid task URI: " uri;
     let allowedUpdates :=
       pick d ["title"; "description"; "status"; "priority"; "due_date";
               "assignee_id"; "completed_at"] in
     Api.tasks_update id allowedUpdates)
    (fun _ => mret VNull).

Definition delete (uri : string) : M value :=
  try_catch
    (id ← uri_id "Invalid task URI: " uri;
     Api.tasks_delete id;;
     mret VUndefined)
    (fun error => throw error).

End Handlers.
End TaskResource.

Module ProjectResource.
Section Handlers.
Variable config : Config.

(** [config.project.defaultProjectId || null] *)
Definition getDefaultProjectId : value :=
  Js.or (Api.defaultProjectId config) VNull.

Definition list (p : option (gmap string value)) : M value :=
  try_catch
    (resp ← Api.projects_list p;
     data_or_empty resp)
    (fun _ => mret (VArr [])).

(** [read] calls itself on the URI of the default project.  The nested
    call is made before the first suspension of the caller, so [depth]
    bounds the nesting the way the call stack of the runtime does: a call
    with no stack left raises [RangeError], inside the [try] block of its
    caller. *)
Fixpoint read (depth : nat) (uri : string) : M value :=
  match depth with
  | O => throw (RangeError "Maximum call stack size exceeded")
  | S d =>
      try_catch
        (if String.eqb uri "default" || endsWith uri "/default" then
           let defaultProjectId := getDefaultProjectId in
           if negb (truthy defaultProjectId)
           then throw (Error "No default project is configured")
           else read d ("wynd://projects/" ++ Js.String defaultProjectId)
         else
           id ← uri_id "Invalid project URI: " uri;
           Api.projects_get id)
        (fun _ => mret VNull)
  end.

Definition create (d : gmap string value) : M value :=
  throw (Error "Project creation is not supported - projects are read-only").

Definition update (uri : string) (d : gmap string value) : M value :=
  throw (Error "Project updates are not supported - projects are read-only").

Definition delete (uri : string) : M value :=
  throw (Error "Project deletion is not supported - projects are read-only").

End Handlers.
End ProjectResource.

Module DocumentResource.
Section Handlers.
Variable config : Config.

Definition list (p : option (gmap string value)) : M value :=
  try_catch
    (resp ← Api.documents_list config p;
     mret (data_or_empty_opt resp))
    (fun _ => mret (VArr [])).

Definition read (uri : string) : M value :=
  try_catch
    (id ← uri_id "Invalid document URI: " uri;
     Api.documents_get id)
    (fun _ => mret VNull).

Definition create (d : gmap string value) : M value :=
  try_catch
    (if negb (truthy (get d "title")) then throw (Error "Document title is required")
     else if negb (truthy (get d "content")) then throw (Error "Document content is required")
     else if negb (truthy (get d "project_id"))
     then throw (Error "Project ID is required for document creation")
     else
       let documentData := Js.obj [
         ("title", get d "title");
         ("content", get d "content");
         ("project_id", get d "project_id");
         ("type", Js.or (get d "type") (VStr "other"));
         ("metadata", Js.or (get d "metadata") (VObj ∅))] in
       Api.documents_create config documentData)
    (fun error => throw error).

Definition update (uri : string) (d : gmap string value) : M value :=
  try_catch
    (id ← uri_id "Invalid document URI: " uri;
     existing ← read uri;
     if negb (truthy existing)
     then throw (Error ("Document with URI " ++ uri ++ " not found"))
     else
       let allowedUpdates :=
         pick d ["title"; "content"; "type"; "metadata"; "project_id"] in
       Api.documents_update id allowedUpdates)
    (fun error => throw error).

Definition delete (uri : string) : M value :=
  try_catch
    (id ← uri_id "Invalid document URI: " uri;
     Api.documents_delete id;;
     mret VUndefined)
    (fun error => throw error).

End Handlers.
End DocumentResource.

(** [{ ...v }]: the own enumerable properties of a value.  Arrays and
    strings spread their indices; other primitives spread nothing. *)
Definition spread_value (v : value) : gmap string value :=
  match v with
  | VObj o => o
  | VArr l => list_to_map (imap (fun i x => (pretty i, x)) l)
  | VStr s =>
      list_to_map
        (imap (fun i c => (pretty i, VStr (String.String c ""))) (list_ascii_of_string s))
  | _ => ∅
  end.

Module ErrorResource.

Definition list (p : option (gmap string value)) : M value :=
  try_catch
    (resp ← Api.errors_list p;
     data_or_empty resp)
    (fun _ => mret (VArr [])).

Definition read (uri : string) : M value :=
  try_catch
    (id ← uri_id "Invalid error URI: " uri;
     Api.errors_get id)
    (fun _ => mret VNull).

Definition create (d : gmap string value) : M value :=
  try_catch
    (if negb (truthy (get d "error_type")) then throw (Error "Error type is required")
     else if negb (truthy (get d "error_message")) then throw (Error "Error message is required")
     else
       let errorData := Js.obj [
         ("error_type", get d "error_type");
         ("error_message", get d "error_message");
         ("stack_trace", get d "stack_trace");
         ("metadata", get d "metadata");
         ("project_id", get d "project_id");
         ("status", VStr "open");
         ("resolved_at", VNull);
         ("resolved_by", VNull)] in
       Api.errors_track errorData)
    (fun error => throw error).

(** The object [update] returns when no status is given:
    [{ ...existing, ...allowedUpdates, updated_at: new Date().toISOString() }] *)
Definition merged (existing : value) (d : gmap string value) (stamp : string)
  : gmap string value :=
  let allowedUpdates := Js.obj [
    ("error_type", VStr (Js.String (get d "error_type")));
    ("error_message", VStr (Js.String (get d "error_message")));
    ("stack_trace", get d "stack_trace");
    ("metadata", get d "metadata");
    ("project_id", get d "project_id")] in
  <["updated_at" := VStr stamp]> (allowedUpdates ∪ spread_value existing).

Definition update (uri : string) (d : gmap string value) : M value :=
  try_catch
    (id ← uri_id "Invalid error URI: " uri;
     if truthy (get d "status") then Api.errors_updateStatus id (get d "status")
     else
       existing ← read uri;
       if negb (truthy existing)
       then throw (Error ("Error with URI " ++ uri ++ " not found"))
       else if negb (truthy (get d "error_type"))
       then throw (Error "Error type is required for update")
       else if negb (truthy (get d "error_message"))
       then throw (Error "Error message is required for update")
       else
         stamp ← clock;
         mret (VObj (merged existing d stamp)))
    (fun error => throw error).

Definition delete (uri : string) : M value :=
  try_catch
    (id ← uri_id "Invalid error URI: " uri;
     Api.errors_delete id;;
     mret VUndefined)
    (fun error => throw error).

End ErrorResource.

Module PhaseResource.
Section Handlers.
Variable config : Config.

Definition list_params (p : option (gmap string value)) : gmap string value :=
  match p with
  | None => Js.obj [("project_id", Api.defaultProjectId config)]
  | Some o => <["project_id" := Api.defaultProjectId config]> o
  end.

Definition list (p : option (gmap string value)) : M value :=
  try_catch
    (resp ← Api.phases_list (Some (list_params p));
     data_or_empty resp)
    (fun _ => mret (VArr [])).

Definition read (uri : string) : M value :=
  try_catch
    (id ← uri_id "Invalid phase URI: " uri;
     Api.phases_get id)
    (fun _ => mret VNull).

Definition create (d : gmap string value) : M value :=
  try_catch
    (if negb (truthy (get d "title")) then throw (Error "Phase title is required")
     else if negb (truthy (get d "project_id")) then throw (Error "Project ID is required")
     else
       let phaseData := Js.obj [
         ("title", get d "title");
         ("description", Js.or (get d "description") VNull);
         ("status", Js.or (get d "status") (VStr "planning"));
         ("order", Js.or (get d "order") (VNum 1));
         ("project_id", get d "project_id");
         ("start_date", Js.or (get d "start_date") VNull);
         ("end_date", Js.or (get d "end_date") VNull);
         ("color", Js.or (get d "color") VUndefined)] in
       Api.phases_create phaseData)
    (fun error => throw error).

Definition update (uri : string) (d : gmap string value) : M value :=
  try_catch
    (id ← uri_id "Invalid phase URI: " uri;
     let allowedUpdates :=
       pick d ["title"; "description"; "status"; "order"; "start_date";
               "end_date"; "color"] in
     Api.phases_update id allowedUpdates)
    (fun _ => mret VNull).

Definition delete (uri : string) : M value :=
  try_catch
    (id ← uri_id "Invalid phase URI: " uri;
     Api.phases_delete id;;
     mret VUndefined)
    (fun error => throw error).

End Handlers.
End PhaseResource.

Module PromptResource.

Definition list (p : option (gmap string value)) : M value :=
  try_catch
    (resp ← Api.prompts_list p;
     mret (data_or_empty_opt resp))
    (fun _ => mret (VArr [])).

Definition read (uri : string) : M value :=
  try_catch
    (id ← uri_id "Invalid prompt URI: " uri;
     Api.prompts_get id)
    (fun _ => mret VNull).

Definition create (d : gmap string value) : M value :=
  try_catch
    (if negb (truthy (get d "title")) then throw (Error "Prompt title is required")
     else if negb (truthy (get d "content")) then throw (Error "Prompt content is required")
     else if negb (truthy (get d "workspace_id"))
     then throw (Error "Workspace ID is required for prompt creation")
     else
       let promptData := Js.obj [
         ("title", get d "title");
         ("content", get d "content");
         ("description", Js.or (get d "description") VNull);
         ("workspace_id", get d "workspace_id");
         ("category_id", Js.or (get d "category_id") VNull);
         ("tags", Js.or (get d "tags") (VArr []));
         ("variables", Js.or (get d "variables") (VObj ∅));
         ("is_public", Js.or (get d "is_public") (VBool false));
         ("parent_prompt_id", Js.or (get d "parent_prompt_id") VNull)] in
       Api.prompts_create promptData)
    (fun error => throw error).

Definition update (uri : string) (d : gmap string value) : M value :=
  try_catch
    (id ← uri_id "Invalid prompt URI: " uri;
     existing ← read uri;
     if negb (truthy existing)
     then throw (Error ("Prompt with URI " ++ uri ++ " not found"))
     else
       let allowedUpdates :=
         pick d ["title"; "content"; "description"; "category_id"; "tags";
                 "variables"; "is_public"; "parent_prompt_id"] in
       Api.prompts_update id allowedUpdates)
    (fun error => throw error).

Definition delete (uri : string) : M value :=
  try_catch
    (id ← uri_id "Invalid prompt URI: " uri;
     Api.prompts_delete id;;
     mret VUndefined)
    (fun error => throw error).

End PromptResource.

(** [[s1, ..., sn]] as an array of strings *)
Definition strs (l : list string) : value := VArr (List.map VStr l).

Module ContextResource.
Section Handlers.
Variable config : Config.

Definition defaultProjectId : string := project_defaultProjectId config.

(** The two lookups that open [getContextInfo]: a failed project lookup
    leaves both at [null], a failed workspace lookup only the second. *)
Definition lookup_project : M value :=
  try_catch
    (if truthy (VStr defaultProjectId)
     then Api.projects_get (VStr defaultProjectId)
     else mret VNull)
    (fun _ => mret VNull).

Definition lookup_workspace (projectInfo : value) : M value :=
  if truthy projectInfo && truthy (prop_opt projectInfo "workspace_id")
  then try_catch (Api.workspaces_get (prop_opt projectInfo "workspace_id"))
                 (fun _ => mret VNull)
  else mret VNull.

Definition getContextInfo : M value :=
  projectInfo ← lookup_project;
  workspaceInfo ← lookup_workspace projectInfo;
  mret (VObj (Js.obj [
    ("server", VObj (Js.obj [
       ("name", VStr "wynd");
       ("version", VStr "1.4.0");
       ("description", VStr "WYND Project Management MCP Server");
       ("transport", VStr "stdio");
       ("environment", Js.or (VStr (env config)) (VStr "development"))]));
    ("project", VObj (Js.obj [
       ("defaultProjectId", VStr defaultProjectId);
       ("title", Js.or (prop_opt projectInfo "title") (VStr "Unknown Project"));
       ("description", Js.or (prop_opt projectInfo "description") VNull);
       ("status", Js.or (prop_opt projectInfo "status") (VStr "unknown"));
       ("workspaceId", Js.or (prop_opt projectInfo "workspace_id") VNull)]));
    ("workspace", VObj (Js.obj [
       ("id", Js.or (prop_opt workspaceInfo "id") VNull);
       ("title", Js.or (prop_opt workspaceInfo "name") (VStr "Unknown Workspace"));
       ("description", Js.or (prop_opt workspaceInfo "description") VNull)]));
    ("resources", strs ["wynd://context"; "wynd://projects"; "wynd://documents";
                        "wynd://errors"; "wynd://tasks"; "wynd://prompts"]);
    ("capabilities", VObj (Js.obj [
       ("tasks", VObj (Js.obj [
          ("defaultFilter", VStr "in_progress");
          ("supportedStatuses", strs ["todo"; "in_progress"; "done"; "cancelled"]);
          ("supportedPriorities", strs ["low"; "medium"; "high"; "urgent"])]));
       ("projects", VObj (Js.obj [
          ("readOnly", VBool true);
          ("operations", strs ["list"; "read"; "stats"])]));
       ("documents", VObj (Js.obj [
          ("operations", strs ["list"; "read"; "create"; "update"; "delete"]);
          ("supportedFormats", strs ["markdown"; "text"; "html"])]));
       ("errors", VObj (Js.obj [
          ("public", VBool true);
          ("operations", strs ["list"; "read"; "create"; "update"; "delete"])]));
       ("prompts", VObj (Js.obj [
          ("operations", strs ["list"; "read"; "create"; "update"; "delete"]);
          ("features", strs ["categorization"; "tagging"; "versioning"; "variables"])]))]));
    ("usage", VObj (Js.obj [
       ("quickStart", VObj (Js.obj [
          ("listTasks", VStr "Read wynd://tasks (defaults to in_progress)");
          ("createTask", VStr ("Create task with project_id: " ++ defaultProjectId));
          ("getProject", VStr ("Read wynd://projects/" ++ defaultProjectId));
          ("listDocuments", VStr "Read wynd://documents (auto-filtered to project)")]));
       ("examples", VObj (Js.obj [
          ("taskWithStatus", VStr "wynd://tasks?status=todo");
          ("projectStats", VStr ("wynd://projects/" ++ defaultProjectId ++ "/stats"));
          ("documentsByType", VStr "wynd://documents?type=documentation")]))]))])).

Definition getProjectContext : M value :=
  if negb (truthy (VStr defaultProjectId)) then
    mret (VObj (Js.obj [("error", VStr "No default project configured");
                        ("defaultProjectId", VNull)]))
  else
    try_catch
      (projectInfo ← Api.projects_get (VStr defaultProjectId);
       mret (VObj (Js.obj [
         ("defaultProjectId", VStr defaultProjectId);
         ("project", projectInfo);
         ("usage", VObj (Js.obj [
            ("createTask",
             VStr ("Use project_id: " ++ dquote ++ defaultProjectId ++ dquote ++ " when creating tasks"));
            ("listTasks", VStr "Tasks are automatically filtered to this project");
            ("createDocument",
             VStr ("Use project_id: " ++ dquote ++ defaultProjectId ++ dquote ++ " when creating documents"))]))])))
      (fun error =>
         mret (VObj (Js.obj [
           ("error", VStr "Could not fetch project information");
           ("defaultProjectId", VStr defaultProjectId);
           ("details", VStr (error_message error))]))).

(** [projects.data?.length || 0] *)
Definition getWorkspaceProjectCount (workspaceId : value) : M value :=
  try_catch
    (projects ← Api.projects_list (Some (Js.obj [("workspace_id", workspaceId)]));
     d ← lift (prop projects "data");
     mret (Js.or (prop_opt d "length") (VNum 0)))
    (fun _ => mret (VNum 0)).

Definition getWorkspaceContext : M value :=
  try_catch
    (if negb (truthy (VStr defaultProjectId)) then
       mret (VObj (Js.obj [("error", VStr "No default project configured")]))
     else
       projectInfo ← Api.projects_get (VStr defaultProjectId);
       workspace_id ← lift (prop projectInfo "workspace_id");
       if negb (truthy workspace_id) then
         mret (VObj (Js.obj [("error", VStr "Project has no workspace association")]))
       else
         workspaceInfo ← Api.workspaces_get workspace_id;
         projectCount ← getWorkspaceProjectCount workspace_id;
         mret (VObj (Js.obj [("workspace", workspaceInfo);
                             ("projectCount", projectCount)])))
    (fun error =>
       mret (VObj (Js.obj [
         ("error", VStr "Could not fetch workspace information");
         ("details", VStr (error_message error))]))).

Definition getServerContext : M value :=
  mret (VObj (Js.obj [
    ("server", VObj (Js.obj [
       ("name", VStr "wynd");
       ("version", VStr "1.4.0");
       ("transport", VStr "stdio");
       ("environment", Js.or (VStr (env config)) (VStr "development"))]));
    ("api", VObj (Js.obj [
       ("baseUrl", VStr (api_url config));
       ("timeout", VNum (api_timeout config));
       ("authenticated", VBool (truthy (VStr (api_token config))))]));
    ("configuration", VObj (Js.obj [
       ("defaultProjectId", VStr defaultProjectId);
       ("logLevel", VStr (server_logLevel config))]))])).

Definition list : M value :=
  try_catch
    (contextInfo ← getContextInfo;
     mret (VArr [contextInfo]))
    (fun _ => mret (VArr [])).

Definition read (uri : string) : M value :=
  try_catch
    (if String.eqb uri "wynd://context" || endsWith uri "/context" then getContextInfo
     else
       let contextType := split_pop uri in
       if String.eqb contextType "project" then getProjectContext
       else if String.eqb contextType "workspace" then getWorkspaceContext
       else if String.eqb contextType "server" then getServerContext
       else getContextInfo)
    (fun _ => mret VNull).

Definition create : M value := throw (Error "Context resource is read-only").
Definition update : M value := throw (Error "Context resource is read-only").
Definition delete : M value := throw (Error "Context resource is read-only").

End Handlers.
End ContextResource.

(** ** The tool handlers ([src/server/tools/index.ts]) *)

(** A registered tool: its name, the property names and the required
    fields of its input schema, and its handler. *)
Record Tool := mkTool {
  name : string;
  properties : list string;
  required : list string;
  handler : gmap string value -> M value
}.

Module Tools.
Section Handlers.
Variable config : Config.

Definition defaultProjectId : value := VStr (project_defaultProjectId config).

(** [{ success: false, error: error.message }], the result of every
    [catch] block; every exception is an instance of [Error]. *)
Definition failure (extra : list (string * value)) (error : JsError) : value :=
  VObj (Js.obj ([("success", VBool false);
                 ("error", VStr (error_message error))] ++ extra)%list).

(** [if (args.k !== undefined) updateData.k = args.k] *)
Definition copy_defined (args : gmap string value) (k : string)
    (updateData : gmap string value) : gmap string value :=
  match get args k with
  | VUndefined => updateData
  | v => <[k := v]> updateData
  end.

(** *** list_tasks *)

Definition listTasks_params (args : gmap string value) : gmap string value :=
  let params := Js.obj [
    ("project_id", defaultProjectId);
    ("priority", get args "priority");
    ("assignee_id", get args "assignee_id");
    ("phase_id", get args "phase_id");
    ("limit", Js.or (get args "limit") (VNum 50))] in
  if truthy (get args "status") && negb (is_str (get args "status") "all")
  then <["status" := get args "status"]> params
  else if negb (truthy (get args "status"))
  then <["status" := VStr "in_progress"]> params
  else params.

Definition listTasks_handler (args : gmap string value) : M value :=
  try_catch
    (let params := listTasks_params args in
     response ← Api.tasks_list config (Some params);
     tasks ← data_or_empty response;
     let appliedStatus :=
       if is_str (get args "status") "all" then VStr "all"
       else if truthy (get params "status") then get params "status"
       else VStr "in_progress (default)" in
     mret (VObj (Js.obj [
       ("success", VBool true);
       ("tasks", tasks);
       ("count", prop_opt tasks "length");
       ("filter_applied", VObj (Js.obj [
          ("status", appliedStatus);
          ("priority", Js.or (get params "priority") (VStr "all"));
          ("phase_id", Js.or (get params "phase_id") (VStr "all"));
          ("project_id", defaultProjectId)]));
       ("message", VStr ("Found " ++ Js.String (prop_opt tasks "length") ++ " tasks" ++
          (if is_str appliedStatus "all" then ""
           else " with status '" ++
                Js.String (Js.or (get params "status") (VStr "in_progress")) ++ "'")))])))
    (fun error => mret (failure [("tasks", VArr [])] error)).

Definition listTasks : Tool :=
  mkTool "list_tasks"
         ["status"; "priority"; "assignee_id"; "limit"; "phase_id"]
         []
         listTasks_handler.

(** *** create_task *)

Definition createTask_data (args : gmap string value) : gmap string value :=
  Js.obj [
    ("title", get args "title");
    ("description", Js.or (get args "description") VNull);
    ("status", Js.or (get args "status") (VStr "todo"));
    ("priority", Js.or (get args "priority") (VStr "medium"));
    ("project_id", defaultProjectId);
    ("phase_id", Js.or (get args "phase_id") VNull);
    ("assignee_id", Js.or (get args "assignee_id") VNull);
    ("due_date", Js.or (get args "due_date") VNull);
    ("completed_at", VNull);
    ("created_by", VStr "mcp-client")].

Definition createTask_handler (args : gmap string value) : M value :=
  try_catch
    (if negb (truthy (get args "title")) then
       mret (VObj (Js.obj [("success", VBool false);
                           ("error", VStr "Task title is required")]))
     else
       let taskData := createTask_data args in
       task ← Api.tasks_create config taskData;
       title ← lift (prop task "title");
       id ← lift (prop task "id");
       mret (VObj (Js.obj [
         ("success", VBool true);
         ("task", task);
         ("message", VStr ("Task '" ++ Js.String title ++
                           "' created successfully with ID: " ++ Js.String id))])))
    (fun error => mret (failure [] error)).

Definition createTask : Tool :=
  mkTool "create_task"
         ["title"; "description"; "status"; "priority"; "assignee_id";
          "due_date"; "phase_id"]
         ["title"]
         createTask_handler.

(** *** update_task *)

Definition updateTask_data (args : gmap string value) : gmap string value :=
  copy_defined args "phase_id"
    (copy_defined args "due_date"
      (copy_defined args "assignee_id"
        (copy_defined args "priority"
          (copy_defined args "status"
            (copy_defined args "description"
              (copy_defined args "title" ∅)))))).

Definition updateTask_handler (args : gmap string value) : M value :=
  try_catch
    (if negb (truthy (get args "task_id")) then
       mret (VObj (Js.obj [("success", VBool false);
                           ("error", VStr "Task ID is required")]))
     else
       let updateData := updateTask_data args in
       task ← Api.tasks_update (get args "task_id") updateData;
       title ← lift (prop task "title");
       mret (VObj (Js.obj [
         ("success", VBool true);
         ("task", task);
         ("message", VStr ("Task '" ++ Js.String title ++ "' updated successfully"))])))
    (fun error => mret (failure [] error)).

Definition updateTask : Tool :=
  mkTool "update_task"
         ["task_id"; "title"; "description"; "status"; "priority";
          "assignee_id"; "due_date"; "phase_id"]
         ["task_id"]
         updateTask_handler.

(** *** get_project *)

Definition getProject_handler (args : gmap string value) : M value :=
  try_catch
    (let projectId := defaultProjectId in
     if negb (truthy projectId) then
       mret (VObj (Js.obj [("success", VBool false);
                           ("error", VStr "No default project configured")]))
     else
       project ← Api.projects_get projectId;
       stats ← (if truthy (get args "include_stats")
                then try_catch (Api.projects_getStats projectId) (fun _ => mret VNull)
                else mret VNull);
       title ← lift (prop project "title");
       mret (VObj (Js.obj [
         ("success", VBool true);
         ("project", project);
         ("stats", stats);
         ("message", VStr ("Retrieved project: " ++ Js.String title))])))
    (fun error => mret (failure [] error)).

Definition getProject : Tool :=
  mkTool "get_project" ["include_stats"] [] getProject_handler.

(** *** list_documents *)

Definition listDocuments_handler (args : gmap string value) : M value :=
  try_catch
    (let params := Js.obj [
       ("project_id", defaultProjectId);
       ("type", get args "type");
       ("search", get args "search");
       ("limit", Js.or (get args "limit") (VNum 20))] in
     response ← Api.documents_list config (Some params);
     documents ← data_or_empty response;
     mret (VObj (Js.obj [
       ("success", VBool true);
       ("documents", documents);
       ("count", prop_opt documents "length");
       ("filter_applied", VObj (Js.obj [
          ("type", Js.or (get params "type") (VStr "all"));
          ("search", Js.or (get params "search") (VStr "none"));
          ("project_id", defaultProjectId)]));
       ("message", VStr ("Found " ++ Js.String (prop_opt documents "length") ++
                         " documents"))])))
    (fun error => mret (failure [("documents", VArr [])] error)).

Definition listDocuments : Tool :=
  mkTool "list_documents" ["type"; "search"; "limit"] [] listDocuments_handler.

(** *** create_document *)

Definition createDocument_handler (args : gmap string value) : M value :=
  try_catch
    (if negb (truthy (get args "title")) then
       mret (VObj (Js.obj [("success", VBool false);
                           ("error", VStr "Document title is required")]))
     else
       let documentData := Js.obj [
         ("title", get args "title");
         ("content", Js.or (get args "content") (VStr ""));
         ("type", Js.or (get args "type") (VStr "other"));
         ("description", Js.or (get args "description") VNull);
         ("project_id", defaultProjectId)] in
       document ← Api.documents_create config documentData;
       title ← lift (prop document "title");
       id ← lift (prop document "id");
       mret (VObj (Js.obj [
         ("success", VBool true);
         ("document", document);
         ("message", VStr ("Document '" ++ Js.String title ++
                           "' created successfully with ID: " ++ Js.String id))])))
    (fun error => mret (failure [] error)).

Definition createDocument : Tool :=
  mkTool "create_document" ["title"; "content"; "type"; "description"] ["title"]
         createDocument_handler.

(** *** list_phases *)

Definition listPhases_handler (args : gmap string value) : M value :=
  try_catch
    (let params := Js.obj [
       ("project_id", defaultProjectId);
       ("status", get args "status");
       ("limit", Js.or (get args "limit") (VNum 50))] in
     response ← Api.phases_list (Some params);
     phases ← data_or_empty response;
     mret (VObj (Js.obj [
       ("success", VBool true);
       ("phases", phases);
       ("count", prop_opt phases "length");
       ("filter_applied", VObj (Js.obj [
          ("status", Js.or (get params "status") (VStr "all"));
          ("project_id", defaultProjectId)]));
       ("message", VStr ("Found " ++ Js.String (prop_opt phases "length") ++ " phases" ++
          (if truthy (get params "status")
           then " with status '" ++ Js.String (get params "status") ++ "'"
           else "")))])))
    (fun error => mret (failure [("phases", VArr [])] error)).

Definition listPhases : Tool :=
  mkTool "list_phases" ["status"; "limit"] [] listPhases_handler.

(** *** create_phase *)

Definition createPhase_handler (args : gmap string value) : M value :=
  try_catch
    (if negb (truthy (get args "title")) then
       mret (VObj (Js.obj [("success", VBool false);
                           ("error", VStr "Phase title is required")]))
     else
       let phaseData := Js.obj [
         ("title", get args "title");
         ("description", Js.or (get args "description") VNull);
         ("status", Js.or (get args "status") (VStr "planning"));
         ("order", Js.or (get args "order") (VNum 1));
         ("project_id", defaultProjectId);
         ("start_date", Js.or (get args "start_date") VNull);
         ("end_date", Js.or (get args "end_date") VNull);
         ("color", Js.or (get args "color") VNull)] in
       phase ← Api.phases_create phaseData;
       title ← lift (prop phase "title");
       id ← lift (prop phase "id");
       mret (VObj (Js.obj [
         ("success", VBool true);
         ("phase", phase);
         ("message", VStr ("Phase '" ++ Js.String title ++
                           "' created successfully with ID: " ++ Js.String id))])))
    (fun error => mret (failure [] error)).

Definition createPhase : Tool :=
  mkTool "create_phase"
         ["title"; "description"; "status"; "order"; "start_date"; "end_date"; "color"]
         ["title"]
         createPhase_handler.

(** *** update_phase *)

Definition updatePhase_data (args : gmap string value) : gmap string value :=
  copy_defined args "color"
    (copy_defined args "end_date"
      (copy_defined args "start_date"
        (copy_defined args "order"
          (copy_defined args "status"
            (copy_defined args "description"
              (copy_defined args "title" ∅)))))).

Definition updatePhase_handler (args : gmap string value) : M value :=
  try_catch
    (if negb (truthy (get args "phase_id")) then
       mret (VObj (Js.obj [("success", VBool false);
                           ("error", VStr "Phase ID is required")]))
     else
       let updateData := updatePhase_data args in
       phase ← Api.phases_update (get args "phase_id") updateData;
       title ← lift (prop phase "title");
       mret (VObj (Js.obj [
         ("success", VBool true);
         ("phase", phase);
         ("message", VStr ("Phase '" ++ Js.String title ++ "' updated successfully"))])))
    (fun error => mret (failure [] error)).

Definition updatePhase : Tool :=
  mkTool "update_phase"
         ["phase_id"; "title"; "description"; "status"; "order"; "start_date";
          "end_date"; "color"]
         ["phase_id"]
         updatePhase_handler.

(** *** get_context *)

Definition getContext_usage : value :=
  VObj (Js.obj [
    ("quickStart", VObj (Js.obj [
       ("getContext", VStr "Call get_context to understand server capabilities");
       ("listTasks", VStr "Call list_tasks (defaults to in_progress)");
       ("createTask", VStr ("Call create_task with project_id: " ++ Js.String defaultProjectId));
       ("getProject", VStr "Call get_project for project information");
       ("listDocuments", VStr "Call list_documents for project documentation")]));
    ("examples", VObj (Js.obj [
       ("listInProgressTasks", VStr "list_tasks (default behavior)");
       ("listAllTasks", VStr ("list_tasks with status: " ++ dquote ++ "all" ++ dquote));
       ("createHighPriorityTask", VStr ("create_task with priority: " ++ dquote ++ "high" ++ dquote));
       ("getProjectWithStats", VStr "get_project with include_stats: true");
       ("listPhases", VStr "list_phases (all phases)");
       ("createPhase", VStr ("create_phase with title: " ++ dquote ++ "Phase 1" ++ dquote));
       ("listTasksByPhase", VStr ("list_tasks with phase_id: " ++ dquote ++ "phase-uuid" ++ dquote))]))]).

Definition getContext_context (projectInfo workspaceInfo : value) : gmap string value :=
  Js.obj [
    ("server", VObj (Js.obj [
       ("name", VStr "wynd");
       ("version", VStr "1.5.1");
       ("description", VStr "WYND Project Management MCP Server");
       ("transport", VStr "stdio");
       ("environment", Js.or (VStr (env config)) (VStr "development"))]));
    ("project", VObj (Js.obj [
       ("defaultProjectId", defaultProjectId);
       ("title", Js.or (prop_opt projectInfo "title") (VStr "Unknown Project"));
       ("description", Js.or (prop_opt projectInfo "description") VNull);
       ("status", Js.or (prop_opt projectInfo "status") (VStr "unknown"));
       ("workspaceId", Js.or (prop_opt projectInfo "workspace_id") VNull)]));
    ("workspace", VObj (Js.obj [
       ("id", Js.or (prop_opt workspaceInfo "id") VNull);
       ("name", Js.or (prop_opt workspaceInfo "name") (VStr "Unknown Workspace"));
       ("description", Js.or (prop_opt workspaceInfo "description") VNull)]));
    ("capabilities", VObj (Js.obj [
       ("tasks", VObj (Js.obj [
          ("defaultFilter", VStr "in_progress");
          ("supportedStatuses", strs ["todo"; "in_progress"; "done"; "cancelled"]);
          ("supportedPriorities", strs ["low"; "medium"; "high"; "urgent"]);
          ("operations", strs ["list"; "create"; "update"; "delete"]);
          ("supportsPhases", VBool true)]));
       ("phases", VObj (Js.obj [
          ("optional", VBool true);
          ("recommended", VBool true);
          ("description", VStr "Optional but highly recommended for better project organization and workflow management");
          ("supportedStatuses", strs ["planning"; "active"; "completed"; "on_hold"]);
          ("operations", strs ["list"; "create"; "update"; "delete"]);
          ("features", strs ["ordering"; "date_ranges"; "color_coding"; "task_organization"])]));
       ("projects", VObj (Js.obj [
          ("readOnly", VBool true);
          ("operations", strs ["get"; "stats"])]));
       ("documents", VObj (Js.obj [
          ("operations", strs ["list"; "create"; "update"; "delete"]);
          ("supportedFormats", strs ["markdown"; "text"; "html"])]))]))].

Definition getContext_handler (args : gmap string value) : M value :=
  try_catch
    (projectInfo ← ContextResource.lookup_project config;
     workspaceInfo ← ContextResource.lookup_workspace projectInfo;
     let context := getContext_context projectInfo workspaceInfo in
     let context :=
       match get args "include_examples" with
       | VBool false => context
       | _ => <["usage" := getContext_usage]> context
       end in
     mret (VObj (Js.obj [
       ("success", VBool true);
       ("context", VObj context);
       ("message", VStr "Server context retrieved successfully")])))
    (fun error => mret (failure [] error)).

Definition getContext : Tool :=
  mkTool "get_context" ["include_examples"] [] getContext_handler.

(** The registry, in the order of the export. *)
Definition tools : list Tool :=
  [listTasks; createTask; updateTask; listPhases; createPhase; updatePhase;
   getProject; listDocuments; createDocument; getContext].

End Handlers.
End Tools.

(** ** The HTTP transport ([src/server/transport/http.ts]) *)

Module HttpServerTransport.

(** *** Request handling *)

(** The response object, as far as the handler drives it. *)
Record ServerResponse := mkRes {
  headers : gmap string string;
  statusCode : Z;
  chunks : list string;
  headersSent : bool;
  finished : bool
}.

Definition fresh_response : ServerResponse := mkRes ∅ 200 [] false false.

Definition setHeader (k v : string) (res : ServerResponse) : ServerResponse :=
  mkRes (<[k := v]> (headers res)) (statusCode res) (chunks res)
        (headersSent res) (finished res).

Definition set_statusCode (code : Z) (res : ServerResponse) : ServerResponse :=
  mkRes (headers res) code (chunks res) (headersSent res) (finished res).

(** [res.writeHead(code, hs)] *)
Definition writeHead (code : Z) (hs : list (string * string)) (res : ServerResponse)
  : ServerResponse :=
  mkRes (list_to_map hs ∪ headers res) code (chunks res) true (finished res).

(** [res.write(chunk)]; nothing is written once the response has ended. *)
Definition write (chunk : string) (res : ServerResponse) : ServerResponse :=
  if finished res then res
  else mkRes (headers res) (statusCode res) (chunks res ++ [chunk])%list true false.

(** [res.end()] and [res.end(chunk)] *)
Definition end_ (chunk : option string) (res : ServerResponse) : ServerResponse :=
  if finished res then res
  else mkRes (headers res) (statusCode res)
             (chunks res ++ match chunk with Some c => [c] | None => [] end)%list
             true true.

(** The incoming request: its method and the events of its body stream, a
    sequence of chunks closed by [end] or broken by an error. *)
Record IncomingMessage := mkReq {
  req_method : string;
  req_url : string;
  req_chunks : list string;
  req_error : option JsError
}.

Inductive StreamEvent :=
| SData (chunk : string)
| SEnd
| SError (e : JsError).

(** What the message handler resolves to: the reply and, when the reply
    carries one, the events of its stream. *)
Record Reply := mkReply {
  reply : value;
  stream : option (list StreamEvent)
}.

(** The handler's outcome: the response and the messages that were given
    to the message handler. *)
Record Handled := mkHandled {
  res : ServerResponse;
  dispatched : list value
}.

Section RequestHandler.

(** [JSON.parse] and [JSON.stringify] of the runtime. *)
Variable JSON_parse : string -> Res value.
Variable JSON_stringify : value -> string.

(** The handler registered with [onMessage], if any. *)
Variable messageHandler : option (value -> Res Reply).

Definition json_headers : list (string * string) :=
  [("Content-Type", "application/json")].

(** [parseRequestBody] *)
Definition parseRequestBody (req : IncomingMessage) : Res string :=
  match req_error req with
  | Some e => Throw e
  | None => Ok (String.concat "" (req_chunks req))
  end.

Definition on_stream_event (ev : StreamEvent) (r : ServerResponse) : ServerResponse :=
  match ev with
  | SData chunk => write chunk r
  | SEnd => end_ None r
  | SError _ =>
      if negb (headersSent r)
      then end_ (Some (JSON_stringify (VObj (Js.obj [("error", VStr "Stream error")]))))
                (set_statusCode 500 r)
      else end_ None r
  end.

(** The [catch] block of the handler. *)
Definition internal_error (error : JsError) (r : ServerResponse) : ServerResponse :=
  end_ (Some (JSON_stringify (VObj (Js.obj [
          ("error", VStr "Internal Server Error");
          ("details", VStr (error_message error))]))))
       (writeHead 500 json_headers r).

(** The body of the [try] block, for a [POST]. *)
Definition handle_post (req : IncomingMessage) (r : ServerResponse) : Handled :=
  match parseRequestBody req with
  | Throw e => mkHandled (internal_error e r) []
  | Ok body =>
      match JSON_parse body with
      | Throw e => mkHandled (internal_error e r) []
      | Ok message =>
          match messageHandler with
          | Some h =>
              match h message with
              | Throw e => mkHandled (internal_error e r) [message]
              | Ok response =>
                  let r := setHeader "Content-Type" "application/json" r in
                  match stream response with
                  | Some events =>
                      let r := setHeader "Transfer-Encoding" "chunked" r in
                      let r := write (JSON_stringify (reply response) ++ newline) r in
                      mkHandled (fold_left (fun acc ev => on_stream_event ev acc) events r)
                                [message]
                  | None =>
                      mkHandled (end_ (Some (JSON_stringify (reply response))) r) [message]
                  end
              end
          | None =>
              mkHandled
                (end_ (Some (JSON_stringify (VObj (Js.obj [
                         ("error", VStr "No message handler registered")]))))
                      (writeHead 500 json_headers r))
                []
          end
      end
  end.

Definition requestHandler (req : IncomingMessage) : Handled :=
  let r := fresh_response in
  let r := setHeader "Access-Control-Allow-Origin" "*" r in
  let r := setHeader "Access-Control-Allow-Methods" "GET, POST, OPTIONS" r in
  let r := setHeader "Access-Control-Allow-Headers" "Content-Type" r in
  if String.eqb (req_method req) "OPTIONS" then
    mkHandled (end_ None (writeHead 204 [] r)) []
  else if negb (String.eqb (req_method req) "POST") then
    mkHandled
      (end_ (Some (JSON_stringify (VObj (Js.obj [("error", VStr "Method Not Allowed")]))))
            (writeHead 405 json_headers r))
      []
  else handle_post req r.

End RequestHandler.

(** *** Shutdown *)

(** [stop] is driven by events of the runtime: the close of a socket by
    its peer and the expiry of the five-second timer.  The server of the
    runtime is modelled as far as [stop] uses it: [server.close(cb)] stops
    listening and registers [cb] for the next ['close'] event, which is
    emitted once the server no longer listens and has no open socket;
    [server.closeAllConnections()], where the runtime has it, destroys
    every socket. *)

(** The two closures [stop] hands to [server.close]. *)
Inductive Callback :=
| Graceful   (* (error) => { clearTimeout(...); ...; resolve() or reject(error) } *)
| Forced.    (* () => { this.isRunning = false; resolve(); } *)

Inductive Promise :=
| Pending
| Resolved
| Rejected.

Record Transport := mkTransport {
  isRunning : bool;
  connections : list nat;                (* [this.connections]: tracked responses *)
  ended : list nat;                      (* responses on which [end()] was called *)
  listening : bool;                      (* the server still accepts connections *)
  sockets : list nat;                    (* open sockets of the server *)
  hasCloseAll : bool;                    (* [typeof server.closeAllConnections === 'function'] *)
  closeListeners : list (Callback * bool);
                                         (* listeners of ['close']; the flag says that
                                            the callback receives an error *)
  forceShutdownTimer : bool;             (* the timer is armed *)
  promise : Promise                      (* the promise [stop] returned *)
}.

Inductive Event :=
| SocketClosed (i : nat)
| TimerFired.

Definition settle (p : Promise) (t : Transport) : Transport :=
  mkTransport (isRunning t) (connections t) (ended t) (listening t) (sockets t)
    (hasCloseAll t) (closeListeners t) (forceShutdownTimer t)
    (match promise t with Pending => p | settled => settled end).

(** [for (const connection of this.connections) connection.end();
     this.connections.clear()] *)
Definition closeConnections (t : Transport) : Transport :=
  mkTransport (isRunning t) [] (ended t ++ connections t)%list (listening t) (sockets t)
    (hasCloseAll t) (closeListeners t) (forceShutdownTimer t) (promise t).

Definition run_callback (cb : Callback * bool) (t : Transport) : Transport :=
  match cb with
  | (Graceful, error) =>
      let t := mkTransport false (connections t) (ended t) (listening t) (sockets t)
                 (hasCloseAll t) (closeListeners t) false (promise t) in
      if error then settle Rejected (closeConnections t)
      else settle Resolved (closeConnections t)
  | (Forced, _) =>
      let t := mkTransport false (connections t) (ended t) (listening t) (sockets t)
                 (hasCloseAll t) (closeListeners t) (forceShutdownTimer t) (promise t) in
      settle Resolved t
  end.

(** The server emits ['close'] when it neither listens nor has an open
    socket; the listeners were registered with [once]. *)
Definition emitCloseIfDrained (t : Transport) : Transport :=
  if listening t || negb (Nat.eqb (List.length (sockets t)) 0) then t
  else
    let cbs := closeListeners t in
    let t := mkTransport (isRunning t) (connections t) (ended t) (listening t) (sockets t)
               (hasCloseAll t) [] (forceShutdownTimer t) (promise t) in
    fold_left (fun acc cb => run_callback cb acc) cbs t.

(** [this.server.close(cb)]: on a server that is not listening the
    callback will receive an error. *)
Definition server_close (cb : Callback) (t : Transport) : Transport :=
  emitCloseIfDrained
    (mkTransport (isRunning t) (connections t) (ended t) false (sockets t)
       (hasCloseAll t) (closeListeners t ++ [(cb, negb (listening t))])%list
       (forceShutdownTimer t) (promise t)).

(** [this.server.closeAllConnections()] *)
Definition closeAllConnections (t : Transport) : Transport :=
  emitCloseIfDrained
    (mkTransport (isRunning t) (connections t) (ended t) (listening t) []
       (hasCloseAll t) (closeListeners t) (forceShutdownTimer t) (promise t)).

(** [stop()] up to its first suspension. *)
Definition stop (t : Transport) : Transport :=
  if negb (isRunning t) then settle Resolved t
  else
    let t := mkTransport (isRunning t) (connections t) (ended t) (listening t) (sockets t)
               (hasCloseAll t) (closeListeners t) true (promise t) in
    server_close Graceful t.

(** The callback of [forceShutdownTimer]. *)
Definition on_timeout (t : Transport) : Transport :=
  let t := mkTransport (isRunning t) (connections t) (ended t) (listening t) (sockets t)
             (hasCloseAll t) (closeListeners t) false (promise t) in
  let t := if hasCloseAll t then closeAllConnections t else t in
  server_close Forced t.

Definition step (ev : Event) (t : Transport) : Transport :=
  match ev with
  | SocketClosed i =>
      emitCloseIfDrained
        (mkTransport (isRunning t) (connections t) (ended t) (listening t)
           (List.filter (fun j => negb (Nat.eqb i j)) (sockets t))
           (hasCloseAll t) (closeListeners t) (forceShutdownTimer t) (promise t))
  | TimerFired => if forceShutdownTimer t then on_timeout t else t
  end.

Definition run (evs : list Event) (t : Transport) : Transport :=
  fold_left (fun acc ev => step ev acc) evs t.

(** A running transport with the given open sockets and tracked
    responses, on which [stop] has not been called. *)
Definition running (closeAll : bool) (socks conns : list nat) : Transport :=
  mkTransport true conns [] true socks closeAll [] false Pending.

End HttpServerTransport.

(** ** Requests the statements name, and sample worlds *)

(** The one request of a successful validation of [create_task]. *)
Definition createTask_request (config : Config) (args : gmap string value) : Request :=
  mkRequest POST "/api/tasks" VUndefined
    (VObj (Api.with_default_project config (Some (Tools.createTask_data config args)))).

Definition sample_config : Config :=
  mkConfig "test" "https://wynd.mmogomedia.com" "token" 10000 3000 "info" "proj_1".

(** A backend that answers every request with an empty object. *)
Definition empty_backend : World :=
  mkWorld (fun _ => Fulfilled (mkResponse 200 (VObj ∅))) "2024-01-01T00:00:00.000Z".

Definition failing_backend (e : AxiosFailure) : World :=
  mkWorld (fun _ => Rejected e) "2024-01-01T00:00:00.000Z".

Definition not_found_X : AxiosFailure :=
  mkFailure "Request failed with status code 404"
    (Some (mkResponse 404 (VObj (Js.obj [("message", VStr "X")])))) true.

Definition no_response : AxiosFailure := mkFailure "timeout of 10000ms exceeded" None true.

(** The one request [list_tasks] sends. *)
Definition listTasks_request (config : Config) (args : gmap string value) : Request :=
  mkRequest GET "/api/tasks"
    (VObj (Api.with_default_project config (Some (Tools.listTasks_params config args))))
    VUndefined.

(** The one request [TaskResource.list] sends. *)
Definition TaskResource_list_request (config : Config) (p : option (gmap string value))
  : Request :=
  mkRequest GET "/api/tasks"
    (VObj (Api.with_default_project config (Some (TaskResource.list_params config p))))
    VUndefined.

(** The status filter of an outgoing query, if it has one. *)
Definition sent_status (r : Request) : option value :=
  match params r with
  | VObj o => o !! "status"
  | _ => None
  end.

(** The caller's status, for a resource call. *)
Definition caller_status (p : option (gmap string value)) : option value :=
  p ≫= (fun o => o !! "status").

(** The wording each tool uses for its required field in
    ["<field> is required"]. *)
Definition required_label (tool field : string) : string :=
  if String.eqb tool "create_task" then "Task title"
  else if String.eqb tool "update_task" then "Task ID"
  else if String.eqb tool "create_document" then "Document title"
  else if String.eqb tool "create_phase" then "Phase title"
  else if String.eqb tool "update_phase" then "Phase ID"
  else field.

(** [{ success: false, error: "<field> is required" }] *)
Definition missing_field (tool field : string) : value :=
  VObj (Js.obj [("success", VBool false);
                ("error", VStr (required_label tool field ++ " is required"))]).

(** The three CORS headers are set on a response. *)
Definition cors_set (r : HttpServerTransport.ServerResponse) : Prop :=
  HttpServerTransport.headers r !! "Access-Control-Allow-Origin" = Some "*" /\
  HttpServerTransport.headers r !! "Access-Control-Allow-Methods" = Some "GET, POST, OPTIONS" /\
  HttpServerTransport.headers r !! "Access-Control-Allow-Headers" = Some "Content-Type".

(** The resource handlers that have a [read]. *)
Inductive Handler :=
| HWorkspaces | HTasks | HProjects | HDocuments | HErrors | HPhases | HPrompts | HContext.

(** [handler.read(uri)]; [depth] is the call stack left below the frame
    of the call itself. *)
Definition read_of (config : Config) (depth : nat) (h : Handler) (uri : string) : M value :=
  match h with
  | HWorkspaces => WorkspaceResource.read uri
  | HTasks => TaskResource.read uri
  | HProjects => ProjectResource.read config (S depth) uri
  | HDocuments => DocumentResource.read uri
  | HErrors => ErrorResource.read uri
  | HPhases => PhaseResource.read uri
  | HPrompts => PromptResource.read uri
  | HContext => ContextResource.read config uri
  end.

(** Successive calls.  Between two calls the backend is what the
    requests of the first call have made of it: it has a state of its own,
    [respond] is what it answers in a state and [advance] the state a
    request leaves behind.  A call runs against the state the backend is
    in when the call starts, at its own time. *)
Section Successive.
Variable St : Type.
Variable respond : St -> Request -> AxiosOutcome.
Variable advance : St -> Request -> St.

(** The state of the backend after the requests [l]. *)
Definition after (s : St) (l : list Request) : St := fold_left advance l s.

(** The same call twice, at the times [t1] and [t2]: the outcome of the
    first, the outcome of the second, and the state of the backend at the
    end. *)
Definition successive {A} (m : M A) (s : St) (t1 t2 : string)
  : (list Request * Res A) * (list Request * Res A) * St :=
  let first := m (mkWorld (respond s) t1) in
  let s1 := after s (calls first) in
  let second := m (mkWorld (respond s1) t2) in
  (first, second, after s1 (calls second)).

End Successive.
Arguments after {St} advance s l.
Arguments successive {St} respond advance {A} m s t1 t2.

(** The computation sends nothing but [GET] requests and does not look at
    the clock. *)
Definition reads_only {A} (m : M A) : Prop :=
  forall (b : Request -> AxiosOutcome) (t1 t2 : string),
    m (mkWorld b t1) = m (mkWorld b t2) /\
    Forall (fun r => method r = GET) (calls (m (mkWorld b t1))).

(** A backend that counts the writes it has received and knows its tasks
    as long as there was none. *)
Definition counting_respond (n : nat) (r : Request) : AxiosOutcome :=
  match n with
  | O => Fulfilled (mkResponse 200 (VObj (Js.obj [("id", VStr "1")])))
  | S _ => Rejected (mkFailure "Request failed with status code 409" None true)
  end.

Definition counting_advance (n : nat) (r : Request) : nat :=
  match method r with
  | GET => n
  | _ => S n
  end.






(** A backend that fails every request. *)
Definition down (w : World) : Prop :=
  forall r : Request, exists e : AxiosFailure, backend w r = Rejected e.

(** The computation throws. *)
Definition fails {A} (m : M A) (w : World) : Prop :=
  exists l e, m w = (l, Throw e).


(** A backend that answers every request with one stored error log. *)
Definition stored_error : value :=
  VObj (Js.obj [("id", VStr "1"); ("error_type", VStr "TypeError");
                ("error_message", VStr "old"); ("status", VStr "open")]).

Definition stored_error_backend : World :=
  mkWorld (fun _ => Fulfilled (mkResponse 200 stored_error)) "2024-01-01T00:00:00.000Z".

(** The state between [stop] and its resolution, on a runtime with
    [closeAllConnections]. *)
Definition draining (t : HttpServerTransport.Transport) : Prop :=
  HttpServerTransport.promise t = HttpServerTransport.Pending /\
  HttpServerTransport.forceShutdownTimer t = true /\
  HttpServerTransport.hasCloseAll t = true /\
  HttpServerTransport.listening t = false /\
  HttpServerTransport.closeListeners t = [(HttpServerTransport.Graceful, false)].


(** A backend that answers every request with a list of three tasks. *)
Definition three_tasks : value :=
  VObj (Js.obj [("data", VArr [VObj (Js.obj [("id", VStr "1"); ("status", VStr "in_progress")]);
                               VObj (Js.obj [("id", VStr "2"); ("status", VStr "in_progress")]);
                               VObj (Js.obj [("id", VStr "3"); ("status", VStr "in_progress")])])]).

Definition three_tasks_backend : World :=
  mkWorld (fun _ => Fulfilled (mkResponse 200 three_tasks)) "2024-01-01T00:00:00.000Z".

(** ** Further methods of the resource handlers *)

(** [ErrorResource.getByProject(projectId, params)] *)
Definition ErrorResource_getByProject (projectId : value)
    (p : option (gmap string value)) : M value :=
  response ← Api.errors_list (Some (<["project_id" := projectId]> (spread p)));
  lift (prop response "data").

(** [ErrorResource.getOpenErrors(projectId?)] *)
Definition ErrorResource_getOpenErrors (projectId : value) : M value :=
  let params := Js.obj [("status", VStr "open")] in
  let params := if truthy projectId then <["project_id" := projectId]> params else params in
  response ← Api.errors_list (Some params);
  lift (prop response "data").

(** [DocumentResource.search(query, projectId?)] *)
Definition DocumentResource_search (config : Config) (query : string) (projectId : value)
  : M value :=
  try_catch
    (let params := Js.obj [("q", VStr query)] in
     let params := if truthy projectId then <["project_id" := projectId]> params else params in
     response ← Api.documents_list config (Some params);
     mret (data_or_empty_opt response))
    (fun _ => mret (VArr [])).

(** [DocumentResource.getByType(type, projectId?)] *)
Definition DocumentResource_getByType (config : Config) (type : string) (projectId : value)
  : M value :=
  try_catch
    (let params := Js.obj [("type", VStr type)] in
     let params := if truthy projectId then <["project_id" := projectId]> params else params in
     response ← Api.documents_list config (Some params);
     mret (data_or_empty_opt response))
    (fun _ => mret (VArr [])).

(** [ProjectResource.getTasks(projectId, params?)] and
    [ProjectResource.getDocuments(projectId, params?)] *)
Definition ProjectResource_getTasks (config : Config) (projectId : value)
    (p : option (gmap string value)) : M value :=
  Api.tasks_list config (Some (<["project_id" := projectId]> (spread p))).

Definition ProjectResource_getDocuments (config : Config) (projectId : value)
    (p : option (gmap string value)) : M value :=
  Api.documents_list config (Some (<["project_id" := projectId]> (spread p))).

(** [ProjectResource.validateProjectExists(projectId)] *)
Definition ProjectResource_validateProjectExists (projectId : value) : M value :=
  try_catch
    (Api.projects_get projectId;;
     mret (VBool true))
    (fun _ => mret (VBool false)).

(** The second [ProjectResource] of [src/server/resources/project.ts],
    the one that can write.  Its [list] and [read] are those of the
    read-only class. *)
Module ProjectResourceWritable.
Section Handlers.
Variable config : Config.

(** The workspace a new project gets when the caller names none: that of
    the default project, if there is one and it can be read. *)
Definition inherited_workspace (depth : nat) (d : gmap string value) : M value :=
  if negb (truthy (get d "workspace_id")) then
    let defaultProjectId := ProjectResource.getDefaultProjectId config in
    if truthy defaultProjectId then
      defaultProject ← ProjectResource.read config depth
                         ("wynd://projects/" ++ Js.String defaultProjectId);
      if truthy defaultProject then mret (prop_opt defaultProject "workspace_id")
      else mret (get d "workspace_id")
    else mret (get d "workspace_id")
  else mret (get d "workspace_id").

Definition create (depth : nat) (d : gmap string value) : M value :=
  try_catch
    (if negb (truthy (get d "title")) then throw (Error "Project title is required")
     else
       workspace_id ← inherited_workspace depth d;
       let projectData := Js.obj [
         ("title", get d "title");
         ("description", Js.or (get d "description") VNull);
         ("status", Js.or (get d "status") (VStr "active"));
         ("workspace_id", Js.or workspace_id VNull);
         ("owner_id", Js.or (get d "owner_id") (VStr "system"))] in
       Api.projects_create projectData)
    (fun error => throw error).

Definition update (depth : nat) (uri : string) (d : gmap string value) : M value :=
  try_catch
    (id ← uri_id "Invalid project URI: " uri;
     existing ← ProjectResource.read config depth uri;
     if negb (truthy existing)
     then throw (Error ("Project with URI " ++ uri ++ " not found"))
     else
       let allowedUpdates := pick d ["title"; "description"; "status"; "workspace_id"] in
       Api.projects_update id allowedUpdates)
    (fun _ => mret VNull).

Definition delete (uri : string) : M value :=
  try_catch
    (id ← uri_id "Invalid project URI: " uri;
     Api.projects_delete id;;
     mret VUndefined)
    (fun error => throw error).

End Handlers.
End ProjectResourceWritable.

(** ** The tool-call dispatcher ([src/server/index.ts]) *)

Module Server.
Section Dispatch.
Variable config : Config.

(** [JSON.stringify(result, null, 2)] of the runtime. *)
Variable JSON_stringify : value -> string.

(** The argument bag a handler sees for [args || {}].  A truthy value
    that is not an object has none of the properties the handlers read. *)
Definition bag_of (args : value) : gmap string value :=
  match Js.or args (VObj ∅) with
  | VObj o => o
  | _ => ∅
  end.

(** [tools.find(t => t.name === name)] *)
Definition find_tool (toolName : value) : option Tool :=
  List.find (fun t => is_str toolName (name t)) (Tools.tools config).

(** The handler of [tools/call]. *)
Definition callTool (toolName : value) (args : value) : M value :=
  match find_tool toolName with
  | None => throw (Error ("Tool '" ++ Js.String toolName ++ "' not found"))
  | Some tool =>
      try_catch
        (result ← handler tool (bag_of args);
         mret (VObj (Js.obj [
           ("content", VArr [VObj (Js.obj [("type", VStr "text");
                                           ("text", VStr (JSON_stringify result))])])])))
        (fun error => throw error)
  end.

(** [getResourceUris()] *)
Definition getResourceUris : list string :=
  ["wynd://context"; "wynd://projects"; "wynd://phases"; "wynd://documents";
   "wynd://errors"; "wynd://tasks"; "wynd://prompts"].

End Dispatch.
End Server.

(** ** Starting the HTTP transport *)

Module HttpStart.

(** [options.port] and [options.host], [undefined] when left out. *)
Record HttpTransportOptions := mkOptions {
  port : value;
  host : value
}.

(** What the listener reports: the bind succeeded, or an ['error'] event
    with its [code]. *)
Inductive ListenOutcome :=
| Bound
| BindError (code : string) (error : JsError).

(** The outcome of [start()]: the flag [isRunning] afterwards, the port
    and host handed to [listen] if it was called, and the settlement of the
    returned promise. *)
Record Started := mkStarted {
  isRunning_after : bool;
  listened : option (value * value);
  settled : Res unit
}.

Definition chosen_port (config : Config) (options : HttpTransportOptions) : value :=
  Js.or (Js.or (port options) (VNum (server_port config))) (VNum 3000).

Definition chosen_host (options : HttpTransportOptions) : value :=
  Js.or (host options) (VStr "0.0.0.0").

Definition start (config : Config) (options : HttpTransportOptions)
    (isRunning : bool) (listen : ListenOutcome) : Started :=
  if isRunning then
    mkStarted true None (Throw (Error "HTTP transport is already running"))
  else
    let port := chosen_port config options in
    let host := chosen_host options in
    match listen with
    | Bound => mkStarted true (Some (port, host)) (Ok tt)
    | BindError code error =>
        if String.eqb code "EADDRINUSE"
        then mkStarted false (Some (port, host))
               (Throw (Error ("Port " ++ Js.String port ++ " is already in use")))
        else mkStarted false (Some (port, host)) (Throw error)
    end.

(** [send(message)] *)
Definition send (message : value) : Res unit :=
  Throw (Error "Send not supported in HTTP transport").

End HttpStart.

(** ** Shapes of results the statements name *)

(** The envelope of a tool result: an object with a boolean [success]. *)
Definition envelope (v : value) (success : bool) : Prop :=
  exists o : gmap string value, v = VObj o /\ o !! "success" = Some (VBool success).

(** Whatever the computation returns is an envelope. *)
Definition returns_envelope (m : M value) (w : World) : Prop :=
  forall l v, m w = (l, Ok v) -> exists b, envelope v b.

(** The computation throws, or returns an envelope with the given flag. *)
Definition throws_or_returns (success : bool) (m : M value) (w : World) : Prop :=
  match m w with
  | (_, Ok v) => envelope v success
  | (_, Throw _) => True
  end.

(** The failure envelope of [list_tasks]. *)
Definition listTasks_failure (msg : string) : value :=
  VObj (Js.obj [("success", VBool false); ("error", VStr msg); ("tasks", VArr [])]).

(** [args.k] as forwarded by the update tools: [undefined] counts as
    left out. *)
Definition defined_arg (args : gmap string value) (k : string) : option value :=
  match args !! k with
  | Some VUndefined | None => None
  | Some v => Some v
  end.

Definition updateTask_fields : list string :=
  ["title"; "description"; "status"; "priority"; "assignee_id"; "due_date"; "phase_id"].

Definition updatePhase_fields : list string :=
  ["title"; "description"; "status"; "order"; "start_date"; "end_date"; "color"].

(** The two requests of [get_project] with statistics. *)
Definition getProject_request (config : Config) : Request :=
  mkRequest GET ("/api/projects/" ++ project_defaultProjectId config) VUndefined VUndefined.

Definition getStats_request (config : Config) : Request :=
  mkRequest GET ("/api/projects/" ++ project_defaultProjectId config ++ "/stats")
    VUndefined VUndefined.

(** The result [tools/call] wraps a handler result into. *)
Definition tool_content (JSON_stringify : value -> string) (result : value) : value :=
  VObj (Js.obj [
    ("content", VArr [VObj (Js.obj [("type", VStr "text");
                                    ("text", VStr (JSON_stringify result))])])]).

(** A backend that knows the project but fails the statistics request. *)
Definition stats_down_backend : World :=
  mkWorld (fun r => if endsWith (url r) "/stats" then Rejected no_response
                    else Fulfilled (mkResponse 200 (VObj (Js.obj [("title", VStr "P")]))))
          "2024-01-01T00:00:00.000Z".

Definition empty_project_config : Config :=
  mkConfig "test" "https://wynd.mmogomedia.com" "token" 10000 3000 "info" "".

(** ** URIs and their last segment *)

(** The string contains no ['/']. *)
Fixpoint slash_free (s : string) : bool :=
  match s with
  | EmptyString => true
  | String.String c rest => negb (Ascii.eqb c "/"%char) && slash_free rest
  end.

(** The handlers whose [read] is a plain get-by-id. *)
Definition plain_read (h : Handler) : bool :=
  match h with
  | HProjects | HContext => false
  | _ => true
  end.

(** The handlers whose [read] is a get-by-id through an endpoint group
    of the [api] object: the plain ones other than phases. *)
Definition backed_read (h : Handler) : bool :=
  match h with
  | HProjects | HContext | HPhases => false
  | _ => true
  end.

(** The backend collection a handler reads from; the phases and context
    handlers have none. *)
Definition collection_path (h : Handler) : string :=
  match h with
  | HWorkspaces => "/api/workspaces/"
  | HTasks => "/api/tasks/"
  | HProjects => "/api/projects/"
  | HDocuments => "/api/documents/"
  | HErrors => "/api/errors/"
  | HPrompts => "/api/prompts/"
  | HPhases | HContext => ""
  end.

Definition get_by_id (h : Handler) (id : string) : Request :=
  mkRequest GET (collection_path h ++ id) VUndefined VUndefined.

(** [read] turns a failed lookup into [null]. *)
Definition entity_or_null (r : Res value) : Res value :=
  match r with
  | Ok v => Ok v
  | Throw _ => Ok VNull
  end.

(** ** Requests of the resource handlers *)

Definition TaskResource_update_fields : list string :=
  ["title"; "description"; "status"; "priority"; "due_date"; "assignee_id"; "completed_at"].

Definition TaskResource_update_request (uri : string) (d : gmap string value) : Request :=
  mkRequest PUT ("/api/tasks/" ++ split_pop uri) VUndefined
    (VObj (pick d TaskResource_update_fields)).

(** The project filter of an outgoing query, if it has one. *)
Definition sent_project (r : Request) : option value :=
  match params r with
  | VObj o => o !! "project_id"
  | _ => None
  end.

Definition errors_status_request (uri : string) (st : value) : Request :=
  mkRequest PUT ("/api/errors/" ++ split_pop uri ++ "/status") VUndefined
    (VObj (Js.obj [("status", st)])).

(** A character a generated slug may hold: no white space, no upper-case
    letter. *)
Definition slug_char (c : ascii) : bool :=
  negb (is_space c) && Ascii.eqb (lower_char c) c.

Fixpoint all_chars (f : ascii -> bool) (s : string) : bool :=
  match s with
  | EmptyString => true
  | String.String c rest => f c && all_chars f rest
  end.

(** Whatever the computation returns is an object. *)
Definition returns_object (m : M value) (w : World) : Prop :=
  forall l v, m w = (l, Ok v) -> exists o : gmap string value, v = VObj o.

(** The slug [WorkspaceResource.create] derives from a name. *)
Definition derived_slug (s : string) : string := dash_spaces false (toLowerCase s).

(** The data [WorkspaceResource.create] posts, for a given slug. *)
Definition workspace_payload (d : gmap string value) (slug : value) : gmap string value :=
  Js.obj [("name", get d "name");
          ("description", Js.or (get d "description") VNull);
          ("owner_id", Js.or (get d "owner_id") (VStr "system"));
          ("slug", slug);
          ("settings", Js.or (get d "settings") WorkspaceResource.default_settings)].

(** ** Responses of the HTTP transport the statements name *)

(** The body of a [500] answer. *)
Definition internal_error_body (JSON_stringify : value -> string) (e : JsError) : string :=
  JSON_stringify (VObj (Js.obj [("error", VStr "Internal Server Error");
                                ("details", VStr (error_message e))])).

(** A stream event that ends the response. *)
Definition closes_stream (ev : HttpServerTransport.StreamEvent) : bool :=
  match ev with
  | HttpServerTransport.SData _ => false
  | HttpServerTransport.SEnd | HttpServerTransport.SError _ => true
  end.

(** A parser that rejects the body [bad], a handler that echoes its
    message, one that throws, and one that streams two chunks and then
    breaks off. *)
Definition sample_parse (s : string) : Res value :=
  if String.eqb s "bad" then Throw (Error "Unexpected token b in JSON at position 0")
  else Ok (VStr s).

Definition echo_handler (m : value) : Res HttpServerTransport.Reply :=
  Ok (HttpServerTransport.mkReply m None).

Definition throwing_handler (m : value) : Res HttpServerTransport.Reply :=
  Throw (Error "boom").

Definition streaming_handler (m : value) : Res HttpServerTransport.Reply :=
  Ok (HttpServerTransport.mkReply m
        (Some [HttpServerTransport.SData "a"; HttpServerTransport.SData "b";
               HttpServerTransport.SError (Error "lost");
               HttpServerTransport.SData "c"])).

Definition post (chunks : list string) : HttpServerTransport.IncomingMessage :=
  HttpServerTransport.mkReq "POST" "/" chunks None.

(** ** States of a transport that is being stopped *)

(** The shapes a transport goes through once [stop] was called on it
    while it ran with the tracked responses [conns]: waiting for the
    sockets with the timer armed, waiting after the timer fired on a
    runtime without [closeAllConnections], or stopped. *)
Definition stopping_shape (closeAll : bool) (conns : list nat)
    (t : HttpServerTransport.Transport) : Prop :=
  HttpServerTransport.hasCloseAll t = closeAll /\
  HttpServerTransport.listening t = false /\
  ((HttpServerTransport.promise t = HttpServerTransport.Pending /\
    HttpServerTransport.isRunning t = true /\
    HttpServerTransport.connections t = conns /\
    HttpServerTransport.ended t = [] /\
    HttpServerTransport.sockets t <> [] /\
    ((HttpServerTransport.forceShutdownTimer t = true /\
      HttpServerTransport.closeListeners t = [(HttpServerTransport.Graceful, false)]) \/
     (closeAll = false /\
      HttpServerTransport.forceShutdownTimer t = false /\
      HttpServerTransport.closeListeners t
      = [(HttpServerTransport.Graceful, false); (HttpServerTransport.Forced, true)]))) \/
   (HttpServerTransport.promise t = HttpServerTransport.Resolved /\
    HttpServerTransport.isRunning t = false /\
    HttpServerTransport.connections t = [] /\
    HttpServerTransport.ended t = conns /\
    HttpServerTransport.forceShutdownTimer t = false /\
    HttpServerTransport.closeListeners t = [])).

(** ** Further requests and payloads the statements name *)

(** The data the writable [ProjectResource.create] posts, for a given
    workspace. *)
Definition project_payload (d : gmap string value) (workspace_id : value)
  : gmap string value :=
  Js.obj [("title", get d "title");
          ("description", Js.or (get d "description") VNull);
          ("status", Js.or (get d "status") (VStr "active"));
          ("workspace_id", Js.or workspace_id VNull);
          ("owner_id", Js.or (get d "owner_id") (VStr "system"))].

Definition project_create_request (d : gmap string value) (workspace_id : value) : Request :=
  mkRequest POST "/api/projects" VUndefined (VObj (project_payload d workspace_id)).

(** The URI of the default project. *)
Definition default_project_uri (config : Config) : string :=
  "wynd://projects/" ++ project_defaultProjectId config.

(** A backend whose every answer is a project in workspace [ws_9]. *)
Definition project_backend : World :=
  mkWorld (fun _ => Fulfilled (mkResponse 200
             (VObj (Js.obj [("id", VStr "proj_1"); ("workspace_id", VStr "ws_9")]))))
          "2024-01-01T00:00:00.000Z".

(** The query of [DocumentResource.search]. *)
Definition search_request (config : Config) (query : string) (projectId : value) : Request :=
  mkRequest GET "/api/documents"
    (VObj (Js.obj [("q", VStr query);
                   ("project_id", if truthy projectId then projectId
                                  else VStr (project_defaultProjectId config))]))
    VUndefined.

(** The query of [ErrorResource.getOpenErrors]. *)
Definition open_errors_request (projectId : value) : Request :=
  mkRequest GET "/api/errors"
    (VObj (if truthy projectId
           then Js.obj [("status", VStr "open"); ("project_id", projectId)]
           else Js.obj [("status", VStr "open")]))
    VUndefined.

(** The query of [ProjectResource.getTasks]. *)
Definition project_tasks_request (config : Config) (projectId : value)
    (p : option (gmap string value)) : Request :=
  mkRequest GET "/api/tasks"
    (VObj (<["project_id" := if truthy projectId then projectId
                             else VStr (project_defaultProjectId config)]> (spread p)))
    VUndefined.

(** ** Placeholders of [get_context] *)

(** The lookup of a workspace by [get_context]. *)
Definition workspace_request (id : value) : Request :=
  mkRequest GET ("/api/workspaces/" ++ Js.String id) VUndefined VUndefined.

(** The [project] part of the context when no project could be looked
    up, and the [workspace] part when no workspace could. *)
Definition project_placeholders (config : Config) : value :=
  VObj (Js.obj [("defaultProjectId", VStr (project_defaultProjectId config));
                ("title", VStr "Unknown Project");
                ("description", VNull);
                ("status", VStr "unknown");
                ("workspaceId", VNull)]).

Definition workspace_placeholders : value :=
  VObj (Js.obj [("id", VNull);
                ("name", VStr "Unknown Workspace");
                ("description", VNull)]).

(** * Properties *)

(** ** The model at work *)

Example split_pop_uri : split_pop "wynd://tasks/123" = "123".
Proof. reflexivity. Qed.

Example split_pop_trailing_slash : split_pop "wynd://tasks/" = "".
Proof. reflexivity. Qed.

Example endsWith_default : endsWith "wynd://projects/default" "/default" = true.
Proof. reflexivity. Qed.

Example String_of_array : Js.String (VArr [VNum 1; VNull; VStr "a"]) = "1,,a".
Proof. reflexivity. Qed.

Example slug_of_name :
  WorkspaceResource.name_slug (VStr "My  Work Space") = Ok (VStr "my-work-space").
Proof. reflexivity. Qed.

Example read_with_empty_id :
  TaskResource.read "wynd://tasks/" empty_backend = ([], Ok VNull).
Proof. reflexivity. Qed.

Example list_tasks_round_trip :
  match result (Tools.listTasks_handler sample_config ∅ three_tasks_backend) with
  | Ok (VObj o) =>
      o !! "count" = Some (VNum 3) /\
      o !! "message" = Some (VStr "Found 3 tasks with status 'in_progress'") /\
      (get o "filter_applied" = VObj (Js.obj [("status", VStr "in_progress");
                                             ("priority", VStr "all");
                                             ("phase_id", VStr "all");
                                             ("project_id", VStr "proj_1")]))
  | _ => False
  end.
Proof. vm_compute. repeat split. Qed.

Example list_tasks_all_message :
  match result (Tools.listTasks_handler sample_config (Js.obj [("status", VStr "all")])
                  three_tasks_backend) with
  | Ok (VObj o) => o !! "message" = Some (VStr "Found 3 tasks")
  | _ => False
  end.
Proof. vm_compute. reflexivity. Qed.

Example project_default_read :
  ProjectResource.read sample_config 2 "wynd://projects/default" empty_backend
  = ([mkRequest GET "/api/projects/proj_1" VUndefined VUndefined], Ok (VObj ∅)).
Proof. reflexivity. Qed.


(** ** Running handlers *)

Lemma run_bind {A B} (m : M A) (k : A -> M B) (w : World) :
  (m ≫= k) w =
  match m w with
  | (l, Ok a) => ((l ++ fst (k a w))%list, snd (k a w))
  | (l, Throw e) => (l, Throw e)
  end.
Proof.
  unfold mbind, M_bind, bind. destruct (m w) as [l [a|e]]; [|reflexivity].
  destruct (k a w); reflexivity.
Qed.

Lemma run_try_catch {A} (m : M A) (h : JsError -> M A) (w : World) :
  try_catch m h w =
  match m w with
  | (l, Ok a) => (l, Ok a)
  | (l, Throw e) => ((l ++ fst (h e w))%list, snd (h e w))
  end.
Proof.
  unfold try_catch. destruct (m w) as [l [a|e]]; [reflexivity|].
  destruct (h e w); reflexivity.
Qed.

Lemma run_send (r : Request) (w : World) :
  Client.send r w = ([r], Client.intercept (backend w r)).
Proof. reflexivity. Qed.

(** ** The Backend Client *)

(** C5.  A rejection that carries a response whose body is an object with
    a [message] field ["X"] becomes an [ApiError] whose message is exactly
    ["X"] (with the status and the raw body attached); a rejection with no
    response at all, the request having been sent, becomes the plain error
    "No response received from server". *)
Theorem client_error_messages :
  forall (w : World) (r : Request) (e : AxiosFailure),
    backend w r = Rejected e ->
    (forall (resp : AxiosResponse) (o : gmap string value) (X : string),
        response e = Some resp ->
        data resp = VObj o ->
        o !! "message" = Some (VStr X) ->
        Client.send r w = ([r], Throw (ApiError X (status resp) (VObj o)))) /\
    (response e = None -> request e = true ->
     Client.send r w = ([r], Throw (Error "No response received from server"))).
Proof.
  intros w r e Hb. rewrite run_send, Hb. simpl. unfold Client.onRejected. split.
  - intros resp o X Hr Hd Hm. rewrite Hr, Hd, Hm. reflexivity.
  - intros Hr Hq. rewrite Hr, Hq. reflexivity.
Qed.

Lemma client_error_messages_witness :
  Client.send (mkRequest GET "/api/tasks/1" VUndefined VUndefined)
    (failing_backend not_found_X)
  = ([mkRequest GET "/api/tasks/1" VUndefined VUndefined],
     Throw (ApiError "X" 404 (VObj (Js.obj [("message", VStr "X")])))) /\
  Client.send (mkRequest GET "/api/tasks/1" VUndefined VUndefined)
    (failing_backend no_response)
  = ([mkRequest GET "/api/tasks/1" VUndefined VUndefined],
     Throw (Error "No response received from server")).
Proof.
  split.
  - exact (proj1 (client_error_messages (failing_backend not_found_X)
                    (mkRequest GET "/api/tasks/1" VUndefined VUndefined)
                    not_found_X eq_refl)
                 (mkResponse 404 (VObj (Js.obj [("message", VStr "X")])))
                 (Js.obj [("message", VStr "X")]) "X" eq_refl eq_refl eq_refl).
  - exact (proj2 (client_error_messages (failing_backend no_response)
                    (mkRequest GET "/api/tasks/1" VUndefined VUndefined)
                    no_response eq_refl) eq_refl eq_refl).
Defined.

(** ** Tools *)

Lemma run_ret {A} (a : A) (w : World) : (mret a : M A) w = ([], Ok a).
Proof. reflexivity. Qed.

Lemma run_lift {A} (r : Res A) (w : World) : lift r w = ([], r).
Proof. reflexivity. Qed.

Lemma get_obj_created_by config args :
  Api.with_default_project config (Some (Tools.createTask_data config args)) !! "created_by"
  = Some (VStr "mcp-client").
Proof. reflexivity. Qed.

Lemma get_obj_project_id config args :
  Api.with_default_project config (Some (Tools.createTask_data config args)) !! "project_id"
  = Some (VStr (project_defaultProjectId config)).
Proof.
  unfold Api.with_default_project. rewrite lookup_insert_eq.
  unfold get_opt.
  replace (get (Tools.createTask_data config args) "project_id")
    with (VStr (project_defaultProjectId config)) by reflexivity.
  unfold Js.or, Api.defaultProjectId. destruct (truthy _); reflexivity.
Qed.

Lemma createTask_calls config args w :
  truthy (get args "title") = true ->
  calls (Tools.createTask_handler config args w) = [createTask_request config args].
Proof.
  intros Ht. unfold Tools.createTask_handler.
  rewrite run_try_catch, Ht. cbn [negb].
  rewrite run_bind. unfold Api.tasks_create, Client.post. rewrite run_send.
  fold (createTask_request config args).
  destruct (Client.intercept _) as [task|e]; [|reflexivity].
  rewrite run_bind, run_lift.
  destruct (prop task "title") as [title|e]; [|reflexivity].
  rewrite run_bind, run_lift.
  destruct (prop task "id") as [id|e]; reflexivity.
Qed.

Lemma createTask_no_calls config args w :
  truthy (get args "title") = false ->
  calls (Tools.createTask_handler config args w) = [].
Proof.
  intros Ht. unfold Tools.createTask_handler. rewrite run_try_catch, Ht. reflexivity.
Qed.

(** C10.  The input schema of [create_task] has no [project_id] property.
    Every request the handler sends is a [POST /api/tasks] whose payload
    has [project_id] equal to the configured default project and
    [created_by] equal to ["mcp-client"], whatever the caller put in the
    arguments, and whenever the title passes validation the handler sends
    exactly one such request. *)
Theorem create_task_scoped_to_default_project :
  forall (config : Config) (args : gmap string value) (w : World),
    ~ In "project_id" (properties (Tools.createTask config)) /\
    (forall r : Request,
        In r (calls (Tools.createTask_handler config args w)) ->
        exists payload : gmap string value,
          r = mkRequest POST "/api/tasks" VUndefined (VObj payload) /\
          payload !! "project_id" = Some (VStr (project_defaultProjectId config)) /\
          payload !! "created_by" = Some (VStr "mcp-client")) /\
    (truthy (get args "title") = true ->
     exists payload : gmap string value,
       calls (Tools.createTask_handler config args w)
       = [mkRequest POST "/api/tasks" VUndefined (VObj payload)] /\
       payload !! "project_id" = Some (VStr (project_defaultProjectId config)) /\
       payload !! "created_by" = Some (VStr "mcp-client")).
Proof.
  intros config args w. split; [|split].
  - simpl. intros H. repeat (destruct H as [H|H]; [discriminate H|]). exact H.
  - intros r Hr. destruct (truthy (get args "title")) eqn:Ht.
    + rewrite (createTask_calls config args w Ht) in Hr.
      destruct Hr as [<-|[]].
      exists (Api.with_default_project config (Some (Tools.createTask_data config args))).
      split; [reflexivity|].
      split; [apply get_obj_project_id | apply get_obj_created_by].
    + rewrite (createTask_no_calls config args w Ht) in Hr. destruct Hr.
  - intros Ht.
    exists (Api.with_default_project config (Some (Tools.createTask_data config args))).
    split; [exact (createTask_calls config args w Ht)|].
    split; [apply get_obj_project_id | apply get_obj_created_by].
Qed.

Lemma create_task_scoped_to_default_project_witness :
  (exists payload : gmap string value,
      calls (Tools.createTask_handler sample_config
               (Js.obj [("title", VStr "t"); ("project_id", VStr "other")]) empty_backend)
      = [mkRequest POST "/api/tasks" VUndefined (VObj payload)] /\
      payload !! "project_id" = Some (VStr "proj_1") /\
      payload !! "created_by" = Some (VStr "mcp-client")) /\
  (exists payload : gmap string value,
      createTask_request sample_config
        (Js.obj [("title", VStr "t"); ("project_id", VStr "other")])
      = mkRequest POST "/api/tasks" VUndefined (VObj payload) /\
      payload !! "project_id" = Some (VStr "proj_1") /\
      payload !! "created_by" = Some (VStr "mcp-client")).
Proof.
  pose proof (create_task_scoped_to_default_project sample_config
                (Js.obj [("title", VStr "t"); ("project_id", VStr "other")])
                empty_backend) as (_ & Hall & Hone).
  split; [exact (Hone eq_refl)|].
  apply Hall. left. reflexivity.
Defined.

(** ** The projects resource *)

(** C4.  [create], [update] and [delete] of the projects handler throw
    their fixed message on every input and issue no request. *)
Theorem project_mutations_not_supported :
  forall (d : gmap string value) (uri : string) (w : World),
    ProjectResource.create d w =
      ([], Throw (Error "Project creation is not supported - projects are read-only")) /\
    ProjectResource.update uri d w =
      ([], Throw (Error "Project updates are not supported - projects are read-only")) /\
    ProjectResource.delete uri w =
      ([], Throw (Error "Project deletion is not supported - projects are read-only")).
Proof. intros d uri w. repeat split. Qed.

(** ** Listing tasks *)

Lemma listTasks_calls config args w :
  calls (Tools.listTasks_handler config args w) = [listTasks_request config args].
Proof.
  unfold Tools.listTasks_handler. rewrite run_try_catch. cbv zeta.
  rewrite run_bind. unfold Api.tasks_list, Client.get. rewrite run_send.
  fold (listTasks_request config args).
  destruct (Client.intercept _) as [resp|e]; [|reflexivity].
  rewrite run_bind. unfold data_or_empty. rewrite run_bind, run_lift.
  destruct (prop resp "data") as [d|e]; reflexivity.
Qed.

Lemma TaskResource_list_calls config p w :
  calls (TaskResource.list config p w) = [TaskResource_list_request config p].
Proof.
  unfold TaskResource.list. rewrite run_try_catch, run_bind.
  unfold Api.tasks_list, Client.get. rewrite run_send.
  fold (TaskResource_list_request config p).
  destruct (Client.intercept _) as [resp|e]; [|reflexivity].
  unfold data_or_empty. rewrite run_bind, run_lift.
  destruct (prop resp "data") as [d|e]; reflexivity.
Qed.

Lemma listTasks_default_status config args :
  args !! "status" = None ->
  sent_status (listTasks_request config args) = Some (VStr "in_progress").
Proof.
  intros H. unfold sent_status, listTasks_request, Tools.listTasks_params, get.
  cbn [params]. rewrite H. reflexivity.
Qed.

Lemma listTasks_all_status config args :
  args !! "status" = Some (VStr "all") ->
  sent_status (listTasks_request config args) = None.
Proof.
  intros H. unfold sent_status, listTasks_request, Tools.listTasks_params, get.
  cbn [params]. rewrite H. reflexivity.
Qed.

Lemma TaskResource_list_default_status config p :
  caller_status p = None ->
  sent_status (TaskResource_list_request config p) = Some (VStr "in_progress").
Proof.
  intros H. unfold sent_status, TaskResource_list_request. cbn [params].
  unfold Api.with_default_project. rewrite lookup_insert_ne by discriminate.
  destruct p as [o|]; [|reflexivity].
  simpl in H. unfold spread, TaskResource.list_params. cbn [default].
  unfold get. rewrite lookup_insert_ne by discriminate. rewrite H. cbn.
  apply lookup_insert_eq.
Qed.

(** The resource keeps whatever truthy status the caller wrote. *)
Lemma TaskResource_list_keeps_status config o v :
  o !! "status" = Some v -> truthy v = true ->
  sent_status (TaskResource_list_request config (Some o)) = Some v.
Proof.
  intros H Hv. unfold sent_status, TaskResource_list_request. cbn [params].
  unfold Api.with_default_project. rewrite lookup_insert_ne by discriminate.
  unfold spread, TaskResource.list_params. cbn [default].
  unfold get. rewrite lookup_insert_ne by discriminate. rewrite H.
  change (default VUndefined (Some v)) with v.
  rewrite Hv. cbn [negb]. unfold id. rewrite lookup_insert_ne by discriminate. exact H.
Qed.

(** C1, as amended.  Both list operations send one query to
    [/api/tasks]; with no status argument the query has
    [status = "in_progress"], and the [list_tasks] tool sends no status key
    at all when called with [status = "all"]. *)
Theorem list_tasks_status_filter :
  forall (config : Config) (w : World),
    (forall args : gmap string value,
        calls (Tools.listTasks_handler config args w) = [listTasks_request config args] /\
        (args !! "status" = None ->
         sent_status (listTasks_request config args) = Some (VStr "in_progress")) /\
        (args !! "status" = Some (VStr "all") ->
         sent_status (listTasks_request config args) = None)) /\
    (forall p : option (gmap string value),
        calls (TaskResource.list config p w) = [TaskResource_list_request config p] /\
        (caller_status p = None ->
         sent_status (TaskResource_list_request config p) = Some (VStr "in_progress"))).
Proof.
  intros config w. split.
  - intros args. split; [apply listTasks_calls|]. split.
    + apply listTasks_default_status.
    + apply listTasks_all_status.
  - intros p. split; [apply TaskResource_list_calls|].
    apply TaskResource_list_default_status.
Qed.

Lemma list_tasks_status_filter_witness :
  sent_status (listTasks_request sample_config ∅) = Some (VStr "in_progress") /\
  sent_status (listTasks_request sample_config (Js.obj [("status", VStr "all")])) = None /\
  sent_status (TaskResource_list_request sample_config None) = Some (VStr "in_progress") /\
  sent_status (TaskResource_list_request sample_config (Some ∅)) = Some (VStr "in_progress").
Proof.
  pose proof (list_tasks_status_filter sample_config empty_backend) as [Htool Hres].
  split; [exact (proj1 (proj2 (Htool ∅)) eq_refl)|].
  split; [exact (proj2 (proj2 (Htool (Js.obj [("status", VStr "all")]))) eq_refl)|].
  split; [exact (proj2 (Hres None) eq_refl) | exact (proj2 (Hres (Some ∅)) eq_refl)].
Defined.

(** C1, as stated, fails for the resource: [TaskResource.list] called
    with [status = "all"] forwards the word to the backend. *)
Lemma TaskResource_list_forwards_all :
  calls (TaskResource.list sample_config (Some (Js.obj [("status", VStr "all")])) empty_backend)
  = [mkRequest GET "/api/tasks"
       (VObj (Js.obj [("project_id", VStr "proj_1"); ("status", VStr "all")]))
       VUndefined] /\
  sent_status
    (mkRequest GET "/api/tasks"
       (VObj (Js.obj [("project_id", VStr "proj_1"); ("status", VStr "all")]))
       VUndefined)
  = Some (VStr "all").
Proof. split; reflexivity. Qed.

(** ** Default project scoping *)

Lemma with_default_project_absent config p :
  p ≫= (fun o => o !! "project_id") = None ->
  Api.with_default_project config p !! "project_id"
  = Some (VStr (project_defaultProjectId config)).
Proof.
  intros H. unfold Api.with_default_project. rewrite lookup_insert_eq.
  destruct p as [o|]; [|reflexivity].
  simpl in H. unfold get_opt, get. rewrite H. reflexivity.
Qed.

Lemma with_default_project_truthy config o v :
  o !! "project_id" = Some v -> truthy v = true ->
  Api.with_default_project config (Some o) !! "project_id" = Some v.
Proof.
  intros H Hv. unfold Api.with_default_project. rewrite lookup_insert_eq.
  unfold get_opt, get. rewrite H.
  change (default VUndefined (Some v)) with v.
  unfold Js.or. rewrite Hv. reflexivity.
Qed.

Lemma with_default_project_falsy config o v :
  o !! "project_id" = Some v -> truthy v = false ->
  Api.with_default_project config (Some o) !! "project_id"
  = Some (VStr (project_defaultProjectId config)).
Proof.
  intros H Hv. unfold Api.with_default_project. rewrite lookup_insert_eq.
  unfold get_opt, get. rewrite H.
  change (default VUndefined (Some v)) with v.
  unfold Js.or. rewrite Hv. reflexivity.
Qed.

Lemma with_default_project_other config p k :
  k <> "project_id" ->
  Api.with_default_project config p !! k = p ≫= (fun o => o !! k).
Proof.
  intros Hk. unfold Api.with_default_project.
  rewrite lookup_insert_ne by congruence.
  destruct p; reflexivity.
Qed.

(** [TaskResource.list] writes the default project over the caller's
    before it calls the endpoint. *)
Lemma TaskResource_list_sends_default config p :
  sent_project (TaskResource_list_request config p)
  = Some (VStr (project_defaultProjectId config)).
Proof.
  unfold sent_project, TaskResource_list_request. cbn [params].
  unfold Api.with_default_project. rewrite lookup_insert_eq.
  assert (H : get_opt (Some (TaskResource.list_params config p)) "project_id"
              = Api.defaultProjectId config).
  { unfold get_opt, get, TaskResource.list_params.
    destruct p as [o|]; [|reflexivity].
    destruct (negb (truthy _));
      rewrite ?(lookup_insert_ne _ "status" "project_id") by discriminate;
      rewrite lookup_insert_eq; reflexivity. }
  rewrite H. unfold Js.or, Api.defaultProjectId. destruct (truthy _); reflexivity.
Qed.

(** C2, as amended.  The endpoint functions [tasks.list], [tasks.create],
    [documents.list] and [documents.create] send one request whose
    [project_id] is the configured default when the caller gave none or a
    falsy one, and the caller's own value when that value is truthy.  The
    [list] of the tasks handler, one layer above, overwrites the caller's
    [project_id]: its one request always carries the configured
    default. *)
Theorem default_project_scoping :
  forall (config : Config) (w : World) (p : option (gmap string value))
         (d : gmap string value),
    calls (Api.tasks_list config p w)
    = [mkRequest GET "/api/tasks" (VObj (Api.with_default_project config p)) VUndefined] /\
    calls (Api.documents_list config p w)
    = [mkRequest GET "/api/documents" (VObj (Api.with_default_project config p)) VUndefined] /\
    calls (Api.tasks_create config d w)
    = [mkRequest POST "/api/tasks" VUndefined (VObj (Api.with_default_project config (Some d)))] /\
    calls (Api.documents_create config d w)
    = [mkRequest POST "/api/documents" VUndefined
         (VObj (Api.with_default_project config (Some d)))] /\
    (p ≫= (fun o => o !! "project_id") = None ->
     Api.with_default_project config p !! "project_id"
     = Some (VStr (project_defaultProjectId config))) /\
    (forall v : value,
        d !! "project_id" = Some v ->
        Api.with_default_project config (Some d) !! "project_id"
        = Some (if truthy v then v else VStr (project_defaultProjectId config))) /\
    calls (TaskResource.list config p w) = [TaskResource_list_request config p] /\
    sent_project (TaskResource_list_request config p)
    = Some (VStr (project_defaultProjectId config)).
Proof.
  intros config w p d.
  split; [reflexivity|]. split; [reflexivity|]. split; [reflexivity|].
  split; [reflexivity|]. split; [apply with_default_project_absent|].
  split; [|split].
  - intros v Hv. destruct (truthy v) eqn:Ht.
    + exact (with_default_project_truthy config d v Hv Ht).
    + exact (with_default_project_falsy config d v Hv Ht).
  - apply TaskResource_list_calls.
  - apply TaskResource_list_sends_default.
Qed.

Lemma default_project_scoping_witness :
  Api.with_default_project sample_config (Some (Js.obj [("limit", VNum 5)])) !! "project_id"
  = Some (VStr "proj_1") /\
  Api.with_default_project sample_config (Some (Js.obj [("project_id", VStr "proj_2")]))
    !! "project_id"
  = Some (VStr "proj_2").
Proof.
  pose proof (default_project_scoping sample_config empty_backend
                (Some (Js.obj [("limit", VNum 5)]))
                (Js.obj [("project_id", VStr "proj_2")])) as H.
  split.
  - exact (proj1 (proj2 (proj2 (proj2 (proj2 H)))) eq_refl).
  - exact (proj1 (proj2 (proj2 (proj2 (proj2 (proj2 H))))) (VStr "proj_2") eq_refl).
Defined.

(** C2, as stated, fails on the empty string: a caller who passes
    [project_id: ""] to an endpoint function gets the default project.
    It also fails one layer above: the [list] of the tasks handler sends
    the default project although the caller names another one. *)
Lemma empty_project_id_gets_default :
  calls (Api.tasks_list sample_config (Some (Js.obj [("project_id", VStr "")])) empty_backend)
  = [mkRequest GET "/api/tasks" (VObj (Js.obj [("project_id", VStr "proj_1")])) VUndefined] /\
  calls (Api.tasks_create sample_config (Js.obj [("project_id", VStr "")]) empty_backend)
  = [mkRequest POST "/api/tasks" VUndefined (VObj (Js.obj [("project_id", VStr "proj_1")]))] /\
  calls (Api.documents_list sample_config (Some (Js.obj [("project_id", VStr "")])) empty_backend)
  = [mkRequest GET "/api/documents" (VObj (Js.obj [("project_id", VStr "proj_1")])) VUndefined] /\
  VStr "proj_1" <> VStr "" /\
  calls (TaskResource.list sample_config (Some (Js.obj [("project_id", VStr "proj_2")]))
           empty_backend)
  = [mkRequest GET "/api/tasks"
       (VObj (Js.obj [("project_id", VStr "proj_1"); ("status", VStr "in_progress")]))
       VUndefined] /\
  VStr "proj_1" <> VStr "proj_2".
Proof.
  split; [reflexivity|]. split; [reflexivity|]. split; [reflexivity|].
  split; [discriminate|]. split; [vm_compute; reflexivity | discriminate].
Qed.

(** ** Required fields of tools *)

Lemma get_absent (args : gmap string value) (k : string) :
  args !! k = None -> get args k = VUndefined.
Proof. intros H. unfold get. rewrite H. reflexivity. Qed.

(** C6.  A registered tool called without one of its required fields
    returns [{ success: false, error: "<field> is required" }], where the
    field is named the way the tool words it, and issues no request. *)
Theorem missing_required_field :
  forall (config : Config) (t : Tool) (f : string) (args : gmap string value) (w : World),
    In t (Tools.tools config) ->
    In f (required t) ->
    args !! f = None ->
    handler t args w = ([], Ok (missing_field (name t) f)).
Proof.
  intros config t f args w Ht Hf Hargs.
  apply get_absent in Hargs.
  unfold Tools.tools in Ht. simpl in Ht.
  repeat (destruct Ht as [Ht|Ht]; [subst t; simpl in Hf|]); try contradiction;
    destruct Hf as [Hf|[]]; subst f; simpl handler;
    unfold Tools.createTask_handler, Tools.updateTask_handler,
      Tools.createPhase_handler, Tools.updatePhase_handler,
      Tools.createDocument_handler;
    rewrite run_try_catch, Hargs; reflexivity.
Qed.

Lemma missing_required_field_witness :
  handler Tools.updateTask (Js.obj [("status", VStr "done")]) empty_backend
  = ([], Ok (missing_field "update_task" "task_id")).
Proof.
  apply (missing_required_field sample_config Tools.updateTask "task_id").
  - simpl. tauto.
  - simpl. tauto.
  - reflexivity.
Defined.

(** ** The request handler of the HTTP transport *)

Section RequestHandlerFacts.
Import HttpServerTransport.

Variable JSON_parse : string -> Res value.
Variable JSON_stringify : value -> string.
Variable messageHandler : option (value -> Res Reply).

Let handle := requestHandler JSON_parse JSON_stringify messageHandler.

(** C8.  An [OPTIONS] request is answered with status 204, an empty body
    and the three CORS headers, and a request that is neither [OPTIONS]
    nor [POST] with status 405; in both cases the response is ended and no
    message reaches the message handler. *)
Theorem preflight_and_method_not_allowed :
  forall req : IncomingMessage,
    (req_method req = "OPTIONS" ->
     statusCode (res (handle req)) = 204 /\
     chunks (res (handle req)) = [] /\
     finished (res (handle req)) = true /\
     cors_set (res (handle req)) /\
     dispatched (handle req) = []) /\
    (req_method req <> "OPTIONS" -> req_method req <> "POST" ->
     statusCode (res (handle req)) = 405 /\
     chunks (res (handle req))
     = [JSON_stringify (VObj (Js.obj [("error", VStr "Method Not Allowed")]))] /\
     finished (res (handle req)) = true /\
     cors_set (res (handle req)) /\
     dispatched (handle req) = []).
Proof.
  intros req. unfold handle, requestHandler. split.
  - intros H. rewrite H. cbn. unfold cors_set. cbn. repeat split.
  - intros H1 H2.
    apply String.eqb_neq in H1, H2. rewrite H1, H2. cbn.
    unfold cors_set. cbn. repeat split.
Qed.

End RequestHandlerFacts.

Lemma preflight_and_method_not_allowed_witness :
  let handle :=
    HttpServerTransport.requestHandler (fun _ => Ok VNull) Js.String None in
  HttpServerTransport.statusCode
    (HttpServerTransport.res (handle (HttpServerTransport.mkReq "OPTIONS" "/" [] None))) = 204 /\
  HttpServerTransport.statusCode
    (HttpServerTransport.res (handle (HttpServerTransport.mkReq "GET" "/" [] None))) = 405.
Proof.
  intros handle. split.
  - exact (proj1 (proj1 (preflight_and_method_not_allowed (fun _ => Ok VNull) Js.String None
                           (HttpServerTransport.mkReq "OPTIONS" "/" [] None)) eq_refl)).
  - refine (proj1 (proj2 (preflight_and_method_not_allowed (fun _ => Ok VNull) Js.String None
                           (HttpServerTransport.mkReq "GET" "/" [] None)) _ _));
      discriminate.
Defined.

(** ** Reading a resource twice *)

(** A [try] whose [catch] returns a constant never throws. *)
Lemma try_catch_returns {A} (m : M A) (a : A) (w : World) :
  exists l r, try_catch m (fun _ => mret a) w = (l, Ok r).
Proof.
  rewrite run_try_catch. destruct (m w) as [l [x|e]]; eauto.
Qed.

Lemma read_of_returns config depth h uri w :
  exists l r, read_of config depth h uri w = (l, Ok r).
Proof.
  destruct h; cbn [read_of ProjectResource.read]; apply try_catch_returns.
Qed.

Lemma reads_only_ret {A} (a : A) : reads_only (mret a : M A).
Proof. intros b t1 t2. split; [reflexivity | constructor]. Qed.

Lemma reads_only_throw {A} (e : JsError) : reads_only (throw e : M A).
Proof. intros b t1 t2. split; [reflexivity | constructor]. Qed.

Lemma reads_only_lift {A} (r : Res A) : reads_only (lift r).
Proof. intros b t1 t2. split; [reflexivity | constructor]. Qed.

Lemma reads_only_get (u : string) (p : value) : reads_only (Client.get u p).
Proof. intros b t1 t2. split; [reflexivity | repeat constructor]. Qed.

Lemma reads_only_bind {A B} (m : M A) (k : A -> M B) :
  reads_only m -> (forall a, reads_only (k a)) -> reads_only (m ≫= k).
Proof.
  intros Hm Hk b t1 t2. rewrite !run_bind.
  destruct (Hm b t1 t2) as [E F]. rewrite <- E.
  destruct (m (mkWorld b t1)) as [l [a|e]]; cbn [calls fst] in *.
  - destruct (Hk a b t1 t2) as [E' F']. rewrite <- E'.
    split; [reflexivity|]. apply Forall_app. split; assumption.
  - split; [reflexivity | exact F].
Qed.

Lemma reads_only_try_catch {A} (m : M A) (h : JsError -> M A) :
  reads_only m -> (forall e, reads_only (h e)) -> reads_only (try_catch m h).
Proof.
  intros Hm Hh b t1 t2. rewrite !run_try_catch.
  destruct (Hm b t1 t2) as [E F]. rewrite <- E.
  destruct (m (mkWorld b t1)) as [l [a|e]]; cbn [calls fst] in *.
  - split; [reflexivity | exact F].
  - destruct (Hh e b t1 t2) as [E' F']. rewrite <- E'.
    split; [reflexivity|]. apply Forall_app. split; assumption.
Qed.

Ltac reads_step :=
  match goal with
  | |- reads_only (mret _) => apply reads_only_ret
  | |- reads_only (throw _) => apply reads_only_throw
  | |- reads_only (lift _) => apply reads_only_lift
  | |- reads_only (Client.get _ _) => apply reads_only_get
  | |- reads_only (try_catch _ _) => apply reads_only_try_catch; [|intros ?]
  | |- reads_only (_ ≫= _) => apply reads_only_bind; [|intros ?]
  | |- reads_only (if ?b then _ else _) => destruct b
  end.

Ltac reads_auto :=
  unfold uri_id, data_or_empty, Api.workspaces_get, Api.projects_get, Api.projects_list,
    Api.tasks_get, Api.documents_get, Api.errors_get, Api.prompts_get, Api.phases_get,
    Api.phases_call;
  cbv zeta; repeat reads_step.

Lemma ProjectResource_read_reads_only config depth : forall uri,
  reads_only (ProjectResource.read config depth uri).
Proof.
  induction depth as [|d IH]; intros uri; cbn [ProjectResource.read].
  - apply reads_only_throw.
  - apply reads_only_try_catch; [|intros ?; apply reads_only_ret].
    destruct (String.eqb uri "default" || endsWith uri "/default").
    + destruct (negb (truthy _)); [apply reads_only_throw | apply IH].
    + reads_auto.
Qed.

Lemma ContextResource_read_reads_only config uri :
  reads_only (ContextResource.read config uri).
Proof.
  unfold ContextResource.read, ContextResource.getContextInfo,
    ContextResource.getProjectContext, ContextResource.getWorkspaceContext,
    ContextResource.getServerContext, ContextResource.getWorkspaceProjectCount,
    ContextResource.lookup_project, ContextResource.lookup_workspace.
  reads_auto.
Qed.

(** Every [read] sends reads only and does not look at the clock. *)
Lemma read_of_reads_only config depth h uri : reads_only (read_of config depth h uri).
Proof.
  destruct h; cbn [read_of];
    [ unfold WorkspaceResource.read | unfold TaskResource.read
    | apply ProjectResource_read_reads_only | unfold DocumentResource.read
    | unfold ErrorResource.read | unfold PhaseResource.read
    | unfold PromptResource.read | apply ContextResource_read_reads_only ];
    reads_auto.
Qed.

(** Requests that leave the backend as it is leave it as it is. *)
Lemma after_reads {St : Type} (advance : St -> Request -> St) (l : list Request) :
  (forall s r, method r = GET -> advance s r = s) ->
  Forall (fun r => method r = GET) l ->
  forall s, after advance s l = s.
Proof.
  intros Hsafe Hl. induction Hl as [|r l Hr _ IH]; intros s; [reflexivity|].
  unfold after in *. cbn [fold_left]. rewrite (Hsafe s r Hr). apply IH.
Qed.

(** C9.  Against a backend that reads leave unchanged, the same [read]
    issued twice, at whatever times, returns both times, with the same
    value and after the same requests, and leaves the backend in the state
    it was in: a [read] sends nothing but [GET] requests and does not
    depend on the time of the call.  The backend of the claim, a fixed
    function from requests to responses, is the case of a backend with a
    single state. *)
Theorem read_is_idempotent :
  forall (config : Config) (depth : nat) (h : Handler) (uri : string)
         (St : Type) (respond : St -> Request -> AxiosOutcome)
         (advance : St -> Request -> St) (s : St) (t1 t2 : string),
    (forall s r, method r = GET -> advance s r = s) ->
    exists (l : list Request) (v : value),
      successive respond advance (read_of config depth h uri) s t1 t2
      = ((l, Ok v), (l, Ok v), s) /\
      Forall (fun r => method r = GET) l.
Proof.
  intros config depth h uri St respond advance s t1 t2 Hsafe.
  destruct (read_of_reads_only config depth h uri (respond s) t1 t2) as [E F].
  destruct (read_of_returns config depth h uri (mkWorld (respond s) t1)) as (l & v & Hr).
  rewrite Hr in E, F. cbn [calls fst] in F.
  exists l, v. unfold successive. rewrite Hr. cbn [calls fst].
  rewrite (after_reads advance l Hsafe F s), <- E. cbn [calls fst].
  rewrite (after_reads advance l Hsafe F s).
  split; [reflexivity | exact F].
Qed.

Lemma read_is_idempotent_witness :
  exists (l : list Request) (v : value),
    successive counting_respond counting_advance
      (read_of sample_config 0 HTasks "wynd://tasks/1") 0%nat
      "2024-01-01T00:00:00.000Z" "2024-01-01T00:00:05.000Z"
    = ((l, Ok v), (l, Ok v), 0%nat) /\
    Forall (fun r => method r = GET) l.
Proof.
  apply (read_is_idempotent sample_config 0 HTasks "wynd://tasks/1" nat
           counting_respond counting_advance 0%nat).
  intros s r H. unfold counting_advance. rewrite H. reflexivity.
Defined.

(** What holds of every [read] does not hold of every operation: the
    [update] of the errors handler stamps its answer with the time of the
    call, so the same call made twice against the same backend, having
    sent the same read, returns two different objects. *)
Lemma ErrorResource_update_depends_on_the_clock :
  let call := ErrorResource.update "wynd://errors/1"
                (Js.obj [("error_type", VStr "E"); ("error_message", VStr "m")]) in
  let both := successive counting_respond counting_advance call 0%nat
                "2024-01-01T00:00:00.000Z" "2024-01-01T00:00:05.000Z" in
  calls (fst (fst both)) = calls (snd (fst both)) /\
  result (fst (fst both)) <> result (snd (fst both)).
Proof.
  cbv zeta. split; [reflexivity|].
  assert (Hstamp : forall (o o' : gmap string value),
             @Ok value (VObj o) = Ok (VObj o') -> o !! "updated_at" = o' !! "updated_at").
  { intros o o' H. injection H as ->. reflexivity. }
  intros H. apply Hstamp in H. vm_compute in H. discriminate H.
Qed.

Lemma ProjectResource_read_S config d uri :
  ProjectResource.read config (S d) uri =
  try_catch
    (if String.eqb uri "default" || endsWith uri "/default" then
       if negb (truthy (ProjectResource.getDefaultProjectId config))
       then throw (Error "No default project is configured")
       else ProjectResource.read config d
              ("wynd://projects/" ++ Js.String (ProjectResource.getDefaultProjectId config))
     else
       uri_id "Invalid project URI: " uri ≫= Api.projects_get)
    (fun _ => mret VNull).
Proof. reflexivity. Qed.

(** With a default project id that is not itself [default], the nested
    call of the projects handler ends at once and the depth of the stack
    plays no role. *)
Lemma ProjectResource_read_depth config depth uri w :
  String.eqb (project_defaultProjectId config) "default"
  || endsWith ("wynd://projects/" ++ project_defaultProjectId config) "/default" = false ->
  ProjectResource.read config (S (S depth)) uri w = ProjectResource.read config 2 uri w.
Proof.
  intros Hd. cbn [ProjectResource.read].
  rewrite !run_try_catch.
  destruct (String.eqb uri "default" || endsWith uri "/default"); [|reflexivity].
  destruct (negb (truthy (ProjectResource.getDefaultProjectId config))) eqn:Ht; [reflexivity|].
  assert (Hid : Js.String (ProjectResource.getDefaultProjectId config)
                = project_defaultProjectId config).
  { unfold ProjectResource.getDefaultProjectId, Js.or, Api.defaultProjectId in *.
    destruct (truthy (VStr (project_defaultProjectId config))) eqn:E; [reflexivity|].
    discriminate Ht. }
  rewrite Hid.
  assert (Hu : String.eqb ("wynd://projects/" ++ project_defaultProjectId config) "default"
               || endsWith ("wynd://projects/" ++ project_defaultProjectId config) "/default"
               = false).
  { apply orb_false_iff in Hd as [_ Hd]. rewrite Hd. reflexivity. }
  destruct depth; cbn [ProjectResource.read]; rewrite !run_try_catch, Hu; reflexivity.
Qed.

(** With the default id [default] the handler calls itself until the
    stack is used up and then returns [null], having sent nothing. *)
Lemma ProjectResource_read_default_loop depth w :
  ProjectResource.read
    (mkConfig "test" "https://wynd.mmogomedia.com" "token" 10000 3000 "info" "default")
    (S depth) "default" w
  = ([], Ok VNull).
Proof.
  set (c := mkConfig _ _ _ _ _ _ _).
  assert (H : forall d uri, uri = "default" \/ uri = "wynd://projects/default" ->
                            ProjectResource.read c (S d) uri w = ([], Ok VNull)).
  { induction d as [|d IH]; intros uri Huri.
    - destruct Huri as [-> | ->]; reflexivity.
    - rewrite ProjectResource_read_S, run_try_catch.
      replace (String.eqb uri "default" || endsWith uri "/default") with true
        by (destruct Huri as [-> | ->]; reflexivity).
      change (negb (truthy (ProjectResource.getDefaultProjectId c))) with false.
      cbv iota.
      change ("wynd://projects/" ++ Js.String (ProjectResource.getDefaultProjectId c))
        with "wynd://projects/default".
      rewrite (IH "wynd://projects/default") by (right; reflexivity). reflexivity. }
  apply H. left. reflexivity.
Qed.

(** ** Stopping the HTTP transport *)

Section StopFacts.
Import HttpServerTransport.

Lemma settle_resolved p t : promise t = Resolved -> promise (settle p t) = Resolved.
Proof. intros H. unfold settle. cbn [promise]. rewrite H. reflexivity. Qed.

Lemma run_callback_resolved cb t :
  promise t = Resolved -> promise (run_callback cb t) = Resolved.
Proof.
  intros H. destruct cb as [[|] [|]]; cbn [run_callback];
    apply settle_resolved; exact H.
Qed.

Lemma callbacks_resolved cbs : forall t,
  promise t = Resolved ->
  promise (fold_left (fun acc cb => run_callback cb acc) cbs t) = Resolved.
Proof.
  induction cbs as [|cb cbs IH]; intros t H; [exact H|].
  cbn [fold_left]. apply IH, run_callback_resolved, H.
Qed.

Lemma emitCloseIfDrained_resolved t :
  promise t = Resolved -> promise (emitCloseIfDrained t) = Resolved.
Proof.
  intros H. unfold emitCloseIfDrained.
  destruct (listening t || _); [exact H|].
  apply callbacks_resolved. exact H.
Qed.

Lemma server_close_resolved cb t :
  promise t = Resolved -> promise (server_close cb t) = Resolved.
Proof. intros H. apply emitCloseIfDrained_resolved. exact H. Qed.

(** A settled promise stays settled: once resolved, no event changes it. *)
Lemma step_resolved ev t : promise t = Resolved -> promise (step ev t) = Resolved.
Proof.
  intros H. destruct ev as [i|]; cbn [step].
  - apply emitCloseIfDrained_resolved. exact H.
  - destruct (forceShutdownTimer t); [|exact H].
    unfold on_timeout. cbn [hasCloseAll].
    apply server_close_resolved.
    destruct (hasCloseAll t); [|exact H].
    apply emitCloseIfDrained_resolved. exact H.
Qed.

Lemma stop_running socks conns :
  let t := stop (running true socks conns) in
  promise t = Resolved \/ draining t.
Proof.
  destruct socks as [|s socks]; [left; reflexivity|].
  right. repeat split.
Qed.

Lemma timeout_draining t :
  draining t -> promise (step TimerFired t) = Resolved.
Proof.
  intros (Hp & Ht & Hc & Hl & Hcb). cbn [step].
  rewrite Ht. unfold on_timeout. cbn [hasCloseAll]. rewrite Hc.
  apply server_close_resolved.
  unfold closeAllConnections, emitCloseIfDrained. cbn. rewrite Hl, Hcb. cbn.
  rewrite Hp. reflexivity.
Qed.

Lemma step_draining ev t :
  draining t -> promise (step ev t) = Resolved \/ draining (step ev t).
Proof.
  intros H. destruct ev as [i|]; [|left; apply timeout_draining, H].
  destruct H as (Hp & Ht & Hc & Hl & Hcb). cbn [step].
  unfold emitCloseIfDrained. cbn [listening sockets closeListeners].
  rewrite Hl, Hcb. cbn [orb].
  destruct (List.filter _ (sockets t)) as [|s rest].
  - left. cbn. rewrite Hp. reflexivity.
  - right. cbn. repeat split; assumption.
Qed.

Lemma run_draining evs : forall t,
  promise t = Resolved \/ draining t ->
  promise (run evs t) = Resolved \/ draining (run evs t).
Proof.
  induction evs as [|ev evs IH]; intros t H; [exact H|].
  cbn [run fold_left]. apply IH. destruct H as [H|H].
  - left. apply step_resolved, H.
  - apply step_draining, H.
Qed.

(** Where the server of the runtime has [closeAllConnections], the timer
    does what its comment says: [stop] on a running transport has resolved
    by the time the five-second timer has fired, whatever the open sockets
    did in the meantime, and so also when none of them ever closes. *)
Theorem stop_resolves_within_grace_period :
  forall (socks conns : list nat) (evs : list Event),
    promise (run (evs ++ [TimerFired]) (stop (running true socks conns))) = Resolved.
Proof.
  intros socks conns evs. unfold run. rewrite fold_left_app. cbn [fold_left].
  destruct (run_draining evs _ (stop_running socks conns)) as [H|H].
  - apply step_resolved. exact H.
  - apply timeout_draining. exact H.
Qed.

End StopFacts.

Section StopHangs.
Import HttpServerTransport.







End StopHangs.

(** ** The error policy of the resource handlers *)

Lemma fails_throw {A} (e : JsError) (w : World) : fails (throw e : M A) w.
Proof. exists [], e. reflexivity. Qed.

Lemma fails_bind_l {A B} (m : M A) (k : A -> M B) (w : World) :
  fails m w -> fails (m ≫= k) w.
Proof.
  intros (l & e & H). exists l, e. rewrite run_bind, H. reflexivity.
Qed.

Lemma fails_bind_r {A B} (m : M A) (k : A -> M B) (w : World) :
  (forall a, fails (k a) w) -> fails (m ≫= k) w.
Proof.
  intros Hk. unfold fails. rewrite run_bind. destruct (m w) as [l [a|e]]; [|eauto].
  destruct (Hk a) as (l' & e & H). rewrite H. eauto.
Qed.


Lemma fails_send (r : Request) (w : World) : down w -> fails (Client.send r) w.
Proof.
  intros Hw. destruct (Hw r) as (e & He). unfold fails. rewrite run_send, He.
  cbn. unfold Client.onRejected.
  destruct (response e); [eauto|]. destruct (request e); eauto.
Qed.

Lemma fails_rethrow {A} (m : M A) (w : World) :
  fails m w -> fails (try_catch m (fun error => throw error)) w.
Proof.
  intros (l & e & H). unfold fails. rewrite run_try_catch, H. cbn. eauto.
Qed.

Lemma caught {A} (m : M A) (a : A) (w : World) :
  fails m w -> result (try_catch m (fun _ => mret a) w) = Ok a.
Proof.
  intros (l & e & H). rewrite run_try_catch, H. reflexivity.
Qed.


(** A call of a method of [api.phases] throws, whatever the backend. *)
Lemma fails_phases_call (m : string) (w : World) : fails (Api.phases_call m) w.
Proof. exists [], (TypeError ("Cannot read properties of undefined (reading '" ++ m ++ "')")). reflexivity. Qed.

Ltac fails_step :=
  match goal with
  | |- fails (throw _) _ => apply fails_throw
  | |- fails (Api.phases_call _) _ => apply fails_phases_call
  | |- fails (Api.phases_call _ ≫= _) _ => apply fails_bind_l
  | |- fails (Client.send _) _ => apply fails_send; assumption
  | |- fails (try_catch _ (fun error => throw error)) _ => apply fails_rethrow
  | |- fails (if ?b then _ else _) _ => destruct b
  | |- fails (Client.send _ ≫= _) _ => apply fails_bind_l
  | |- fails (_ ≫= _) _ => apply fails_bind_r; intros ?
  end.

Ltac unfold_api :=
  unfold Api.workspaces_list, Api.workspaces_get, Api.workspaces_create,
    Api.workspaces_update, Api.projects_list, Api.projects_get,
    Api.tasks_list, Api.tasks_get, Api.tasks_create, Api.tasks_update,
    Api.documents_list, Api.documents_get, Api.documents_create, Api.documents_update,
    Api.errors_list, Api.errors_get, Api.errors_track, Api.errors_updateStatus,
    Api.prompts_list, Api.prompts_get, Api.prompts_create, Api.prompts_update,
    Client.get, Client.post, Client.put, Client.delete.

Ltac fails_auto := unfold_api; repeat fails_step.

Section Down.
Variable w : World.
Hypothesis Hw : down w.







End Down.






Lemma failing_backend_down e : down (failing_backend e).
Proof. intros r. exists e. reflexivity. Qed.



(** * Further properties *)

(** ** Tools are total and answer with an envelope *)

Lemma returns_envelope_ret (o : gmap string value) (b : bool) (w : World) :
  o !! "success" = Some (VBool b) -> returns_envelope (mret (VObj o)) w.
Proof.
  intros Ho l v H. rewrite run_ret in H. injection H as _ <-.
  exists b, o. split; [reflexivity | exact Ho].
Qed.

Lemma returns_envelope_bind {A} (m : M A) (k : A -> M value) (w : World) :
  (forall a, returns_envelope (k a) w) -> returns_envelope (m ≫= k) w.
Proof.
  intros Hk l v. rewrite run_bind. destruct (m w) as [l1 [a|e]]; [|discriminate].
  destruct (k a w) as [l2 r] eqn:E. cbn [fst snd]. intros H. injection H as _ ->.
  exact (Hk a l2 v E).
Qed.

Lemma try_catch_failure_total (body : M value) (extra : list (string * value)) (w : World) :
  returns_envelope body w ->
  exists l v b, try_catch body (fun error => mret (Tools.failure extra error)) w = (l, Ok v)
                /\ envelope v b.
Proof.
  intros Hb. rewrite run_try_catch. destruct (body w) as [l1 [a|e]] eqn:E.
  - destruct (Hb l1 a E) as [b Hb']. eauto.
  - cbn. eexists _, _, false. split; [reflexivity|].
    eexists. split; [reflexivity|]. unfold Tools.failure, Js.obj.
    cbn [app list_to_map foldr]. apply lookup_insert_eq.
Qed.

Ltac envelope_step :=
  match goal with
  | |- returns_envelope (if ?b then _ else _) _ => destruct b
  | |- returns_envelope (_ ≫= _) _ => apply returns_envelope_bind; intros ?
  | |- returns_envelope (mret (VObj _)) _ =>
      first [ apply (returns_envelope_ret _ true); reflexivity
            | apply (returns_envelope_ret _ false); reflexivity ]
  end.

(** X1.  Every registered tool handler returns for every argument bag and
    every backend: it never throws, and what it returns is an object with
    a boolean [success]. *)
Theorem tool_handlers_never_throw :
  forall (config : Config) (t : Tool) (args : gmap string value) (w : World),
    In t (Tools.tools config) ->
    exists (l : list Request) (v : value) (b : bool),
      handler t args w = (l, Ok v) /\ envelope v b.
Proof.
  intros config t args w Ht. unfold Tools.tools in Ht. simpl in Ht.
  repeat (destruct Ht as [Ht|Ht]; [subst t; cbn [handler]|]); try contradiction;
    unfold Tools.listTasks_handler, Tools.createTask_handler, Tools.updateTask_handler,
      Tools.listPhases_handler, Tools.createPhase_handler, Tools.updatePhase_handler,
      Tools.getProject_handler, Tools.listDocuments_handler,
      Tools.createDocument_handler, Tools.getContext_handler;
    apply try_catch_failure_total;
    cbv zeta; repeat envelope_step.
Qed.

Lemma tool_handlers_never_throw_witness :
  exists (l : list Request) (v : value) (b : bool),
    handler (Tools.createTask sample_config) (Js.obj [("title", VStr "t")])
      (failing_backend no_response) = (l, Ok v) /\ envelope v b.
Proof.
  apply (tool_handlers_never_throw sample_config (Tools.createTask sample_config)).
  right. left. reflexivity.
Defined.

Lemma throws_or_returns_fails b (m : M value) (w : World) :
  fails m w -> throws_or_returns b m w.
Proof. intros (l & e & H). unfold throws_or_returns. rewrite H. exact I. Qed.

Lemma throws_or_returns_ret b (o : gmap string value) (w : World) :
  o !! "success" = Some (VBool b) -> throws_or_returns b (mret (VObj o)) w.
Proof. intros H. exists o. split; [reflexivity | exact H]. Qed.

Lemma throws_or_returns_caught b (body : M value) (extra : list (string * value))
    (w : World) :
  throws_or_returns b body w ->
  (exists l v, try_catch body (fun error => mret (Tools.failure extra error)) w = (l, Ok v)
               /\ envelope v b)
  \/ fails body w.
Proof.
  unfold throws_or_returns. rewrite run_try_catch.
  destruct (body w) as [l [v|e]] eqn:E; intros H.
  - left. eauto.
  - right. unfold fails. eauto.
Qed.

Lemma failure_envelope (body : M value) (extra : list (string * value)) (w : World) :
  fails body w ->
  exists l v, try_catch body (fun error => mret (Tools.failure extra error)) w = (l, Ok v)
              /\ envelope v false.
Proof.
  intros (l & e & H). rewrite run_try_catch, H. cbn. eexists _, _. split; [reflexivity|].
  eexists. split; [reflexivity|]. unfold Tools.failure, Js.obj.
  cbn [app list_to_map foldr]. apply lookup_insert_eq.
Qed.

Lemma down_tool_body (body : M value) (extra : list (string * value)) (w : World) :
  throws_or_returns false body w ->
  exists l v, try_catch body (fun error => mret (Tools.failure extra error)) w = (l, Ok v)
              /\ envelope v false.
Proof.
  intros H. destruct (throws_or_returns_caught _ _ extra _ H) as [H'|H']; [exact H'|].
  apply failure_envelope, H'.
Qed.

(** X2.  With the backend failing every request, every registered tool
    other than [get_context] answers [success: false]. *)
Theorem tools_report_failure_when_backend_down :
  forall (config : Config) (t : Tool) (args : gmap string value) (w : World),
    down w ->
    In t (Tools.tools config) ->
    name t <> "get_context" ->
    exists (l : list Request) (v : value),
      handler t args w = (l, Ok v) /\ envelope v false.
Proof.
  intros config t args w Hw Ht Hn. unfold Tools.tools in Ht. simpl in Ht.
  repeat (destruct Ht as [Ht|Ht]; [subst t; cbn [handler]|]); try contradiction;
    try (exfalso; apply Hn; reflexivity);
    unfold Tools.listTasks_handler, Tools.createTask_handler, Tools.updateTask_handler,
      Tools.listPhases_handler, Tools.createPhase_handler, Tools.updatePhase_handler,
      Tools.getProject_handler, Tools.listDocuments_handler,
      Tools.createDocument_handler;
    apply down_tool_body; cbv zeta;
    repeat match goal with
           | |- throws_or_returns _ (if ?b then _ else _) _ => destruct b
           | |- throws_or_returns _ (mret (VObj _)) _ =>
               apply throws_or_returns_ret; reflexivity
           | |- throws_or_returns _ (_ ≫= _) _ =>
               apply throws_or_returns_fails; unfold Api.phases_list, Api.phases_create,
                 Api.phases_update; fails_auto
           end.
Qed.

Lemma tools_report_failure_when_backend_down_witness :
  exists (l : list Request) (v : value),
    handler (Tools.listTasks sample_config) ∅ (failing_backend no_response) = (l, Ok v)
    /\ envelope v false.
Proof.
  apply (tools_report_failure_when_backend_down sample_config (Tools.listTasks sample_config)
           ∅ (failing_backend no_response) (failing_backend_down no_response)).
  - left. reflexivity.
  - discriminate.
Defined.

Lemma lookup_project_run config w :
  ContextResource.lookup_project config w
  = if String.eqb (project_defaultProjectId config) "" then ([], Ok VNull)
    else ([getProject_request config],
          entity_or_null (Client.intercept (backend w (getProject_request config)))).
Proof.
  unfold ContextResource.lookup_project, ContextResource.defaultProjectId.
  rewrite run_try_catch. cbn [truthy].
  destruct (String.eqb (project_defaultProjectId config) ""); cbn [negb]; [reflexivity|].
  unfold Api.projects_get, Client.get. rewrite run_send. cbn [Js.String].
  fold (getProject_request config).
  destruct (Client.intercept _); reflexivity.
Qed.

Lemma lookup_workspace_run projectInfo w :
  ContextResource.lookup_workspace projectInfo w
  = if truthy projectInfo && truthy (prop_opt projectInfo "workspace_id")
    then ([workspace_request (prop_opt projectInfo "workspace_id")],
          entity_or_null
            (Client.intercept
               (backend w (workspace_request (prop_opt projectInfo "workspace_id")))))
    else ([], Ok VNull).
Proof.
  unfold ContextResource.lookup_workspace.
  destruct (truthy projectInfo && _); [|reflexivity].
  rewrite run_try_catch. unfold Api.workspaces_get, Client.get. rewrite run_send.
  fold (workspace_request (prop_opt projectInfo "workspace_id")).
  destruct (Client.intercept _); reflexivity.
Qed.

(** What [get_context] returns, given what the two lookups return. *)
Lemma getContext_handler_run config args w l1 projectInfo l2 workspaceInfo :
  ContextResource.lookup_project config w = (l1, Ok projectInfo) ->
  ContextResource.lookup_workspace projectInfo w = (l2, Ok workspaceInfo) ->
  exists o ctx : gmap string value,
    Tools.getContext_handler config args w = ((l1 ++ l2)%list, Ok (VObj o)) /\
    o !! "success" = Some (VBool true) /\
    o !! "context" = Some (VObj ctx) /\
    ctx !! "project"
    = Tools.getContext_context config projectInfo workspaceInfo !! "project" /\
    ctx !! "workspace"
    = Tools.getContext_context config projectInfo workspaceInfo !! "workspace".
Proof.
  intros E1 E2. unfold Tools.getContext_handler.
  rewrite run_try_catch, run_bind, E1. cbn [fst snd]. rewrite run_bind, E2.
  cbn [fst snd]. rewrite run_ret. cbn [fst snd]. rewrite app_nil_r.
  eexists _, _. split; [reflexivity|]. split; [reflexivity|]. split; [reflexivity|].
  destruct (get args "include_examples") as [| |[|]| | | |];
    split; rewrite ?lookup_insert_ne by discriminate; reflexivity.
Qed.

(** X3.  [get_context] answers [success: true] whatever the backend does.
    When the default project cannot be looked up (none is configured, or
    the request fails), the context holds the placeholders for the project
    and for the workspace, and no workspace is looked up; when the project
    is found but its workspace cannot be looked up, the context holds the
    placeholders for the workspace. *)
Theorem get_context_always_succeeds :
  forall (config : Config) (args : gmap string value) (w : World),
    exists (l : list Request) (o ctx : gmap string value),
      Tools.getContext_handler config args w = (l, Ok (VObj o)) /\
      o !! "success" = Some (VBool true) /\
      o !! "context" = Some (VObj ctx) /\
      (project_defaultProjectId config = "" ->
       l = [] /\
       ctx !! "project" = Some (project_placeholders config) /\
       ctx !! "workspace" = Some workspace_placeholders) /\
      (forall e : AxiosFailure,
          project_defaultProjectId config <> "" ->
          backend w (getProject_request config) = Rejected e ->
          l = [getProject_request config] /\
          ctx !! "project" = Some (project_placeholders config) /\
          ctx !! "workspace" = Some workspace_placeholders) /\
      (forall (resp : AxiosResponse) (e : AxiosFailure),
          project_defaultProjectId config <> "" ->
          backend w (getProject_request config) = Fulfilled resp ->
          truthy (data resp) = true ->
          truthy (prop_opt (data resp) "workspace_id") = true ->
          backend w (workspace_request (prop_opt (data resp) "workspace_id")) = Rejected e ->
          l = [getProject_request config;
               workspace_request (prop_opt (data resp) "workspace_id")] /\
          ctx !! "workspace" = Some workspace_placeholders).
Proof.
  intros config args w.
  pose proof (lookup_project_run config w) as E1.
  destruct (String.eqb (project_defaultProjectId config) "") eqn:Ed.
  - (* no default project *)
    pose proof (lookup_workspace_run VNull w) as E2. cbn [truthy andb] in E2.
    destruct (getContext_handler_run config args w _ _ _ _ E1 E2)
      as (o & ctx & H & Hs & Hc & Hp & Hw).
    apply String.eqb_eq in Ed.
    exists [], o, ctx. split; [exact H|]. split; [exact Hs|]. split; [exact Hc|].
    split; [|split].
    + intros _. split; [reflexivity|]. split.
      * rewrite Hp. reflexivity.
      * rewrite Hw. reflexivity.
    + intros e Hne. contradiction.
    + intros resp e Hne. contradiction.
  - apply String.eqb_neq in Ed.
    destruct (backend w (getProject_request config)) as [resp|e] eqn:Eb.
    + (* the project is found *)
      cbn [Client.intercept Client.onFulfilled entity_or_null] in E1.
      pose proof (lookup_workspace_run (data resp) w) as E2.
      destruct (truthy (data resp) && truthy (prop_opt (data resp) "workspace_id")) eqn:Et.
      * destruct (backend w (workspace_request (prop_opt (data resp) "workspace_id")))
          as [wresp|we] eqn:Ew.
        -- cbn [Client.intercept Client.onFulfilled entity_or_null] in E2.
           destruct (getContext_handler_run config args w _ _ _ _ E1 E2)
             as (o & ctx & H & Hs & Hc & Hp & Hw).
           eexists _, o, ctx. split; [exact H|]. split; [exact Hs|]. split; [exact Hc|].
           split; [intros Hd; contradiction|]. split; [intros e _ He; discriminate He|].
           intros resp' e _ Hr _ _ Hr'. injection Hr as <-. rewrite Ew in Hr'.
           discriminate Hr'.
        -- assert (E2' : ContextResource.lookup_workspace (data resp) w
                         = ([workspace_request (prop_opt (data resp) "workspace_id")],
                            Ok VNull)).
           { rewrite E2. unfold Client.intercept, Client.onRejected.
             destruct (response we); [reflexivity|]. destruct (request we); reflexivity. }
           destruct (getContext_handler_run config args w _ _ _ _ E1 E2')
             as (o & ctx & H & Hs & Hc & Hp & Hw).
           eexists _, o, ctx. split; [exact H|]. split; [exact Hs|]. split; [exact Hc|].
           split; [intros Hd; contradiction|]. split; [intros e _ He; discriminate He|].
           intros resp' e _ Hr _ _ _. injection Hr as <-.
           split; [reflexivity|]. rewrite Hw. reflexivity.
      * destruct (getContext_handler_run config args w _ _ _ _ E1 E2)
          as (o & ctx & H & Hs & Hc & Hp & Hw).
        eexists _, o, ctx. split; [exact H|]. split; [exact Hs|]. split; [exact Hc|].
        split; [intros Hd; contradiction|]. split; [intros e _ He; discriminate He|].
        intros resp' e _ Hr Ht1 Ht2 _. injection Hr as <-.
        rewrite Ht1, Ht2 in Et. discriminate Et.
    + (* the project request fails *)
      assert (E1' : ContextResource.lookup_project config w
                    = ([getProject_request config], Ok VNull)).
      { rewrite E1. unfold Client.intercept, Client.onRejected.
        destruct (response e); [reflexivity|]. destruct (request e); reflexivity. }
      pose proof (lookup_workspace_run VNull w) as E2. cbn [truthy andb] in E2.
      destruct (getContext_handler_run config args w _ _ _ _ E1' E2)
        as (o & ctx & H & Hs & Hc & Hp & Hw).
      eexists _, o, ctx. split; [exact H|]. split; [exact Hs|]. split; [exact Hc|].
      split; [intros Hd; contradiction|]. split.
      * intros e' _ _. split; [reflexivity|]. split.
        -- rewrite Hp. reflexivity.
        -- rewrite Hw. reflexivity.
      * intros resp e' _ Hr. discriminate Hr.
Qed.

Lemma get_context_always_succeeds_witness :
  exists (l : list Request) (o ctx : gmap string value),
    Tools.getContext_handler sample_config ∅ (failing_backend no_response) = (l, Ok (VObj o)) /\
    o !! "success" = Some (VBool true) /\
    o !! "context" = Some (VObj ctx) /\
    l = [getProject_request sample_config] /\
    ctx !! "project" = Some (project_placeholders sample_config) /\
    ctx !! "workspace" = Some workspace_placeholders.
Proof.
  destruct (get_context_always_succeeds sample_config ∅ (failing_backend no_response))
    as (l & o & ctx & H & Hs & Hc & _ & Hdown & _).
  exists l, o, ctx. split; [exact H|]. split; [exact Hs|]. split; [exact Hc|].
  apply (Hdown no_response); [discriminate | reflexivity].
Defined.

(** ** What the task tools send and report *)

Lemma listTasks_rejected config args w e err :
  backend w (listTasks_request config args) = Rejected e ->
  Client.onRejected e = Throw err ->
  Tools.listTasks_handler config args w
  = ([listTasks_request config args], Ok (listTasks_failure (error_message err))).
Proof.
  intros Hb He. unfold Tools.listTasks_handler. rewrite run_try_catch. cbv zeta.
  rewrite run_bind. unfold Api.tasks_list, Client.get. rewrite run_send.
  fold (listTasks_request config args). rewrite Hb. cbn [Client.intercept].
  rewrite He. reflexivity.
Qed.

(** X4.  When the backend answers the query of [list_tasks] outside 2xx
    with a body that carries [message: "X"], the tool returns
    [{ success: false, error: "X", tasks: [] }]; when the backend does not
    answer at all, the error is "No response received from server". *)
Theorem list_tasks_surfaces_backend_message :
  forall (config : Config) (args : gmap string value) (w : World) (e : AxiosFailure),
    backend w (listTasks_request config args) = Rejected e ->
    (forall (resp : AxiosResponse) (o : gmap string value) (X : string),
        response e = Some resp -> data resp = VObj o -> o !! "message" = Some (VStr X) ->
        Tools.listTasks_handler config args w
        = ([listTasks_request config args], Ok (listTasks_failure X))) /\
    (response e = None -> request e = true ->
     Tools.listTasks_handler config args w
     = ([listTasks_request config args],
        Ok (listTasks_failure "No response received from server"))).
Proof.
  intros config args w e Hb. split.
  - intros resp o X Hr Hd Hm.
    apply (listTasks_rejected config args w e (ApiError X (status resp) (VObj o)) Hb).
    unfold Client.onRejected. rewrite Hr, Hd, Hm. reflexivity.
  - intros Hr Hq.
    apply (listTasks_rejected config args w e (Error "No response received from server") Hb).
    unfold Client.onRejected. rewrite Hr, Hq. reflexivity.
Qed.

Lemma list_tasks_surfaces_backend_message_witness :
  Tools.listTasks_handler sample_config ∅ (failing_backend not_found_X)
  = ([listTasks_request sample_config ∅], Ok (listTasks_failure "X")) /\
  Tools.listTasks_handler sample_config ∅ (failing_backend no_response)
  = ([listTasks_request sample_config ∅],
     Ok (listTasks_failure "No response received from server")).
Proof.
  split.
  - exact (proj1 (list_tasks_surfaces_backend_message sample_config ∅
                    (failing_backend not_found_X) not_found_X eq_refl)
                 (mkResponse 404 (VObj (Js.obj [("message", VStr "X")])))
                 (Js.obj [("message", VStr "X")]) "X" eq_refl eq_refl eq_refl).
  - exact (proj2 (list_tasks_surfaces_backend_message sample_config ∅
                    (failing_backend no_response) no_response eq_refl) eq_refl eq_refl).
Defined.

Lemma listTasks_fulfilled config args w resp o :
  backend w (listTasks_request config args) = Fulfilled resp ->
  data resp = VObj o ->
  exists r : gmap string value,
    Tools.listTasks_handler config args w = ([listTasks_request config args], Ok (VObj r)) /\
    r !! "success" = Some (VBool true) /\
    r !! "tasks" = Some (Js.or (get o "data") (VArr [])) /\
    r !! "count" = Some (prop_opt (Js.or (get o "data") (VArr [])) "length").
Proof.
  intros Hb Hd. unfold Tools.listTasks_handler. rewrite run_try_catch. cbv zeta.
  rewrite run_bind. unfold Api.tasks_list, Client.get. rewrite run_send.
  fold (listTasks_request config args). rewrite Hb. cbn [Client.intercept Client.onFulfilled].
  rewrite Hd. cbn [fst snd]. rewrite run_bind. unfold data_or_empty.
  rewrite run_bind, run_lift. cbn [prop fst snd]. rewrite run_ret. cbn [fst snd].
  rewrite run_ret. cbn [fst snd app].
  eexists. split; [reflexivity|]. repeat split.
Qed.

(** X5.  When the backend answers the query of [list_tasks] with
    [{ data: rows }], the tool reports success with exactly those rows and
    their number as [count]; when the answer has no [data], it reports
    success with no rows and [count] 0. *)
Theorem list_tasks_reports_backend_rows :
  forall (config : Config) (args : gmap string value) (w : World)
         (resp : AxiosResponse) (o : gmap string value),
    backend w (listTasks_request config args) = Fulfilled resp ->
    data resp = VObj o ->
    exists r : gmap string value,
      Tools.listTasks_handler config args w = ([listTasks_request config args], Ok (VObj r)) /\
      r !! "success" = Some (VBool true) /\
      (forall rows : list value,
          o !! "data" = Some (VArr rows) ->
          r !! "tasks" = Some (VArr rows) /\
          r !! "count" = Some (VNum (Z.of_nat (List.length rows)))) /\
      (o !! "data" = None ->
       r !! "tasks" = Some (VArr []) /\ r !! "count" = Some (VNum 0)).
Proof.
  intros config args w resp o Hb Hd.
  destruct (listTasks_fulfilled config args w resp o Hb Hd) as (r & Hr & Hs & Ht & Hc).
  exists r. split; [exact Hr|]. split; [exact Hs|]. split.
  - intros rows Ho. rewrite Ht, Hc. unfold get. rewrite Ho. split; reflexivity.
  - intros Ho. rewrite Ht, Hc. unfold get. rewrite Ho. split; reflexivity.
Qed.

Lemma list_tasks_reports_backend_rows_witness :
  (exists r : gmap string value,
      Tools.listTasks_handler sample_config ∅ three_tasks_backend
      = ([listTasks_request sample_config ∅], Ok (VObj r)) /\
      r !! "count" = Some (VNum 3)) /\
  (exists r : gmap string value,
      Tools.listTasks_handler sample_config ∅ empty_backend
      = ([listTasks_request sample_config ∅], Ok (VObj r)) /\
      r !! "count" = Some (VNum 0)).
Proof.
  split.
  - destruct (list_tasks_reports_backend_rows sample_config ∅ three_tasks_backend
                (mkResponse 200 three_tasks)
                (Js.obj [("data", VArr [VObj (Js.obj [("id", VStr "1"); ("status", VStr "in_progress")]);
                                        VObj (Js.obj [("id", VStr "2"); ("status", VStr "in_progress")]);
                                        VObj (Js.obj [("id", VStr "3"); ("status", VStr "in_progress")])])])
                eq_refl eq_refl) as (r & Hr & _ & Hrows & _).
    exists r. split; [exact Hr|].
    exact (proj2 (Hrows _ eq_refl)).
  - destruct (list_tasks_reports_backend_rows sample_config ∅ empty_backend
                (mkResponse 200 (VObj ∅)) ∅ eq_refl eq_refl) as (r & Hr & _ & _ & Hnone).
    exists r. split; [exact Hr|].
    exact (proj2 (Hnone eq_refl)).
Defined.

(** ** What the update tools forward *)

Lemma copy_defined_lookup args k m k' :
  Tools.copy_defined args k m !! k' =
  if decide (k = k') then
    match defined_arg args k with
    | Some v => Some v
    | None => m !! k'
    end
  else m !! k'.
Proof.
  unfold Tools.copy_defined, defined_arg, get.
  destruct (decide (k = k')) as [->|Hne].
  - destruct (args !! k') as [[]|]; cbn; rewrite ?lookup_insert_eq; reflexivity.
  - destruct (args !! k) as [[]|]; cbn; rewrite ?lookup_insert_ne by exact Hne; reflexivity.
Qed.

Lemma updateTask_data_lookup args k :
  Tools.updateTask_data args !! k =
  if bool_decide (k ∈ updateTask_fields) then defined_arg args k else None.
Proof.
  unfold Tools.updateTask_data. rewrite !copy_defined_lookup, lookup_empty.
  unfold updateTask_fields.
  repeat (destruct (decide (_ = k)) as [<-|?];
          [ destruct (defined_arg args _); reflexivity |]).
  rewrite bool_decide_eq_false_2; [reflexivity|].
  rewrite !elem_of_cons, elem_of_nil. intros H. intuition congruence.
Qed.

Lemma updatePhase_data_lookup args k :
  Tools.updatePhase_data args !! k =
  if bool_decide (k ∈ updatePhase_fields) then defined_arg args k else None.
Proof.
  unfold Tools.updatePhase_data. rewrite !copy_defined_lookup, lookup_empty.
  unfold updatePhase_fields.
  repeat (destruct (decide (_ = k)) as [<-|?];
          [ destruct (defined_arg args _); reflexivity |]).
  rewrite bool_decide_eq_false_2; [reflexivity|].
  rewrite !elem_of_cons, elem_of_nil. intros H. intuition congruence.
Qed.

Lemma updateTask_calls args w :
  truthy (get args "task_id") = true ->
  calls (Tools.updateTask_handler args w)
  = [mkRequest PUT ("/api/tasks/" ++ Js.String (get args "task_id")) VUndefined
       (VObj (Tools.updateTask_data args))].
Proof.
  intros Ht. unfold Tools.updateTask_handler. rewrite run_try_catch, Ht. cbn [negb].
  cbv zeta. rewrite run_bind. unfold Api.tasks_update, Client.put. rewrite run_send.
  destruct (Client.intercept _) as [task|e]; [|reflexivity].
  rewrite run_bind, run_lift. destruct (prop task "title"); reflexivity.
Qed.

(** X6.  [update_task] with a task id sends exactly one request, a [PUT]
    to [/api/tasks/<task_id>], whose body holds the fields among title,
    description, status, priority, assignee_id, due_date and phase_id that
    the caller defined, each with the caller's value, and nothing else:
    not the task id, not a project id, not any unknown field.  The body
    [update_phase] builds follows the same rule over its own seven
    fields. *)
Theorem update_task_forwards_defined_fields :
  forall (args : gmap string value) (w : World),
    (truthy (get args "task_id") = true ->
     calls (Tools.updateTask_handler args w)
     = [mkRequest PUT ("/api/tasks/" ++ Js.String (get args "task_id")) VUndefined
          (VObj (Tools.updateTask_data args))]) /\
    (forall k : string,
        Tools.updateTask_data args !! k
        = if bool_decide (k ∈ updateTask_fields) then defined_arg args k else None) /\
    (forall k : string,
        Tools.updatePhase_data args !! k
        = if bool_decide (k ∈ updatePhase_fields) then defined_arg args k else None).
Proof.
  intros args w. split; [|split].
  - exact (updateTask_calls args w).
  - exact (updateTask_data_lookup args).
  - exact (updatePhase_data_lookup args).
Qed.

Lemma update_task_forwards_defined_fields_witness :
  calls (Tools.updateTask_handler
           (Js.obj [("task_id", VStr "7"); ("status", VStr "done");
                    ("project_id", VStr "other")]) empty_backend)
  = [mkRequest PUT "/api/tasks/7" VUndefined (VObj (Js.obj [("status", VStr "done")]))].
Proof.
  exact (proj1 (update_task_forwards_defined_fields
                  (Js.obj [("task_id", VStr "7"); ("status", VStr "done");
                           ("project_id", VStr "other")]) empty_backend) eq_refl).
Defined.

(** ** [get_project] *)

(** X7.  [get_project] with [include_stats] still succeeds when only the
    statistics request fails: it returns the project with [stats: null].
    With an empty default project id it sends nothing and reports that no
    default project is configured. *)
Theorem get_project_tolerates_missing_stats :
  forall (config : Config) (args : gmap string value) (w : World),
    (forall (resp : AxiosResponse) (p : gmap string value) (e : AxiosFailure),
        project_defaultProjectId config <> "" ->
        truthy (get args "include_stats") = true ->
        backend w (getProject_request config) = Fulfilled resp ->
        data resp = VObj p ->
        backend w (getStats_request config) = Rejected e ->
        Tools.getProject_handler config args w
        = ([getProject_request config; getStats_request config],
           Ok (VObj (Js.obj [
             ("success", VBool true);
             ("project", VObj p);
             ("stats", VNull);
             ("message", VStr ("Retrieved project: " ++ Js.String (get p "title")))])))) /\
    (project_defaultProjectId config = "" ->
     Tools.getProject_handler config args w
     = ([], Ok (VObj (Js.obj [("success", VBool false);
                              ("error", VStr "No default project configured")])))).
Proof.
  intros config args w. split.
  - intros resp p e Hid Hs Hb Hd He.
    apply String.eqb_neq in Hid.
    unfold Tools.getProject_handler, Tools.defaultProjectId. rewrite run_try_catch.
    cbv zeta. cbn [truthy]. rewrite Hid. cbn [negb].
    rewrite run_bind. unfold Api.projects_get, Client.get. rewrite run_send.
    cbn [Js.String]. fold (getProject_request config). rewrite Hb.
    cbn [Client.intercept Client.onFulfilled fst snd]. rewrite Hd.
    rewrite run_bind, Hs, run_try_catch.
    unfold Api.projects_getStats, Client.get. rewrite run_send.
    cbn [Js.String]. fold (getStats_request config). rewrite He.
    cbn [Client.intercept].
    destruct (Client.onRejected e) as [v|err] eqn:Er.
    { unfold Client.onRejected in Er. destruct (response e); [discriminate|].
      destruct (request e); discriminate. }
    rewrite run_ret. cbn [fst snd]. rewrite run_bind, run_lift. cbn [prop fst snd].
    rewrite run_ret. reflexivity.
  - intros Hid. unfold Tools.getProject_handler, Tools.defaultProjectId.
    rewrite Hid. reflexivity.
Qed.

Lemma get_project_tolerates_missing_stats_witness :
  Tools.getProject_handler sample_config (Js.obj [("include_stats", VBool true)])
    stats_down_backend
  = ([getProject_request sample_config; getStats_request sample_config],
     Ok (VObj (Js.obj [("success", VBool true);
                       ("project", VObj (Js.obj [("title", VStr "P")]));
                       ("stats", VNull);
                       ("message", VStr "Retrieved project: P")]))) /\
  Tools.getProject_handler empty_project_config ∅ empty_backend
  = ([], Ok (VObj (Js.obj [("success", VBool false);
                           ("error", VStr "No default project configured")]))).
Proof.
  split.
  - refine (proj1 (get_project_tolerates_missing_stats sample_config
                     (Js.obj [("include_stats", VBool true)]) stats_down_backend)
                  (mkResponse 200 (VObj (Js.obj [("title", VStr "P")])))
                  (Js.obj [("title", VStr "P")]) no_response _ eq_refl eq_refl eq_refl eq_refl).
    discriminate.
  - exact (proj2 (get_project_tolerates_missing_stats empty_project_config ∅ empty_backend)
                 eq_refl).
Defined.

(** ** Dispatching a tool call *)

Lemma tool_names_distinct config :
  NoDup (List.map name (Tools.tools config)).
Proof.
  cbn. repeat (apply NoDup_cons_2; [rewrite ?elem_of_cons, elem_of_nil; intuition discriminate|]).
  apply NoDup_nil_2.
Qed.

Lemma find_registered_tool config t :
  In t (Tools.tools config) -> Server.find_tool config (VStr (name t)) = Some t.
Proof.
  intros Ht. unfold Tools.tools in Ht. simpl in Ht.
  repeat (destruct Ht as [Ht|Ht]; [subst t; reflexivity|]). contradiction.
Qed.

(** X8.  The names of the registered tools are pairwise distinct; a call
    by the name of a registered tool runs that tool's handler on the
    arguments (on the empty bag when they are left out) and wraps what the
    handler returns as one text item; a call by any name that is not
    registered throws "Tool '<name>' not found" and sends nothing. *)
Theorem call_tool_dispatches_by_name :
  forall (config : Config) (JSON_stringify : value -> string) (args : value) (w : World),
    NoDup (List.map name (Tools.tools config)) /\
    (forall (t : Tool) (l : list Request) (v : value),
        In t (Tools.tools config) ->
        handler t (Server.bag_of args) w = (l, Ok v) ->
        Server.callTool config JSON_stringify (VStr (name t)) args w
        = (l, Ok (tool_content JSON_stringify v))) /\
    (forall toolName : value,
        (forall t, In t (Tools.tools config) -> toolName <> VStr (name t)) ->
        Server.callTool config JSON_stringify toolName args w
        = ([], Throw (Error ("Tool '" ++ Js.String toolName ++ "' not found")))) /\
    Server.bag_of VUndefined = ∅.
Proof.
  intros config JSON_stringify args w. split; [apply tool_names_distinct|].
  split; [|split; [|reflexivity]].
  - intros t l v Ht Hh. unfold Server.callTool.
    rewrite (find_registered_tool config t Ht), run_try_catch, run_bind, Hh.
    cbn [fst snd]. rewrite run_ret. cbn [fst snd]. rewrite app_nil_r. reflexivity.
  - intros toolName Hn. unfold Server.callTool.
    destruct (Server.find_tool config toolName) as [t|] eqn:E; [|reflexivity].
    exfalso. unfold Server.find_tool in E. apply find_some in E as [Hin Hname].
    apply (Hn t Hin). unfold is_str in Hname. destruct toolName; try discriminate.
    apply String.eqb_eq in Hname. congruence.
Qed.

Lemma call_tool_dispatches_by_name_witness :
  Server.callTool sample_config Js.String (VStr "update_task") VUndefined empty_backend
  = ([], Ok (tool_content Js.String (missing_field "update_task" "task_id"))) /\
  Server.callTool sample_config Js.String (VStr "drop_tasks") VUndefined empty_backend
  = ([], Throw (Error "Tool 'drop_tasks' not found")).
Proof.
  pose proof (call_tool_dispatches_by_name sample_config Js.String VUndefined empty_backend)
    as (_ & Hknown & Hunknown & _).
  split.
  - apply (Hknown Tools.updateTask); [|reflexivity].
    simpl. tauto.
  - apply (Hunknown (VStr "drop_tasks")).
    intros t Ht. simpl in Ht.
    repeat (destruct Ht as [Ht|Ht]; [subst t; discriminate|]). contradiction.
Defined.

(** ** Reading by URI *)

Lemma append_cons (a : ascii) (s t : string) :
  String.String a s ++ t = String.String a (s ++ t).
Proof. reflexivity. Qed.

Lemma append_cons_assoc (acc : string) (c : ascii) (s : string) :
  (acc ++ String.String c "") ++ s = acc ++ String.String c s.
Proof.
  induction acc as [|a acc IH]; [reflexivity|].
  rewrite !append_cons, IH. reflexivity.
Qed.

Lemma append_empty_r (s : string) : s ++ "" = s.
Proof. induction s as [|a s IH]; [reflexivity|]. rewrite append_cons, IH. reflexivity. Qed.

Lemma last_segment_aux_slash_free (s : string) : forall acc,
  slash_free s = true -> last_segment_aux acc s = acc ++ s.
Proof.
  induction s as [|c s IH]; intros acc H; cbn.
  - symmetry. apply append_empty_r.
  - cbn in H. apply andb_true_iff in H as [Hc Hs].
    apply negb_true_iff in Hc. rewrite Hc, IH by exact Hs.
    apply append_cons_assoc.
Qed.

Lemma last_segment_aux_after_slash (base id : string) : forall acc,
  last_segment_aux acc (base ++ String.String "/"%char id) = last_segment_aux "" id.
Proof.
  induction base as [|c base IH]; intros acc.
  - reflexivity.
  - rewrite append_cons. cbn [last_segment_aux].
    destruct (Ascii.eqb c "/"%char); apply IH.
Qed.

Lemma split_pop_of_id (base id : string) :
  slash_free id = true -> split_pop (base ++ "/" ++ id) = id.
Proof.
  intros H. unfold split_pop. change ("/" ++ id) with (String.String "/"%char id).
  rewrite last_segment_aux_after_slash. apply last_segment_aux_slash_free, H.
Qed.

Lemma slash_free_snoc (acc : string) (c : ascii) :
  slash_free acc = true -> Ascii.eqb c "/"%char = false ->
  slash_free (acc ++ String.String c "") = true.
Proof.
  intros Ha Hc. induction acc as [|a acc IH].
  - change ("" ++ String.String c "") with (String.String c "").
    cbn [slash_free]. rewrite Hc. reflexivity.
  - rewrite append_cons. cbn [slash_free] in Ha |- *.
    apply andb_true_iff in Ha as [H1 H2]. rewrite H1, IH by exact H2.
    reflexivity.
Qed.

Lemma last_segment_aux_is_slash_free (s : string) : forall acc,
  slash_free acc = true -> slash_free (last_segment_aux acc s) = true.
Proof.
  induction s as [|c s IH]; intros acc Ha; cbn; [exact Ha|].
  destruct (Ascii.eqb c "/"%char) eqn:Hc.
  - apply IH. reflexivity.
  - apply IH, slash_free_snoc; assumption.
Qed.

Lemma split_pop_slash_free (uri : string) : slash_free (split_pop uri) = true.
Proof. apply last_segment_aux_is_slash_free. reflexivity. Qed.

Lemma backed_read_run config depth h uri w :
  backed_read h = true ->
  read_of config depth h uri w =
  if String.eqb (split_pop uri) "" then ([], Ok VNull)
  else ([get_by_id h (split_pop uri)],
        entity_or_null (Client.intercept (backend w (get_by_id h (split_pop uri))))).
Proof.
  intros Hh.
  destruct h; try discriminate Hh; cbn [read_of];
    unfold WorkspaceResource.read, TaskResource.read, DocumentResource.read,
      ErrorResource.read, PromptResource.read, uri_id;
    rewrite run_try_catch;
    (destruct (String.eqb (split_pop uri) "") eqn:E;
     [ reflexivity
     | rewrite run_bind, run_ret; cbn [fst snd];
       unfold_api; rewrite run_send;
       unfold get_by_id, collection_path; cbn [Js.String fst snd app];
       destruct (Client.intercept _); reflexivity ]).
Qed.

(** The phases handler reads through [api.phases], which the [api] object
    does not have: the [TypeError] is caught by the [try] of [read]. *)
Lemma PhaseResource_read_run uri w : PhaseResource.read uri w = ([], Ok VNull).
Proof.
  unfold PhaseResource.read, uri_id. rewrite run_try_catch.
  destruct (String.eqb (split_pop uri) ""); reflexivity.
Qed.

(** X9.  For the workspaces, tasks, documents, errors and prompts
    handlers, [read] of a URI that ends in [/<id>], with [id] non-empty
    and free of slashes, sends exactly one request, the [GET] of that id
    in the handler's collection, and returns what the backend answers, or
    [null] if the request fails; [read] of a URI that ends in a slash
    sends nothing and returns [null].  The phases handler reads through
    [api.phases], a member the [api] object does not have: its [read]
    sends nothing and returns [null] for every URI. *)
Theorem read_gets_the_last_segment :
  forall (config : Config) (depth : nat) (h : Handler) (base id : string) (w : World),
    (backed_read h = true ->
     (id <> "" -> slash_free id = true ->
      read_of config depth h (base ++ "/" ++ id) w
      = ([get_by_id h id],
         entity_or_null (Client.intercept (backend w (get_by_id h id))))) /\
     read_of config depth h (base ++ "/") w = ([], Ok VNull)) /\
    (forall uri : string, read_of config depth HPhases uri w = ([], Ok VNull)).
Proof.
  intros config depth h base id w. split; [intros Hh; split|].
  - intros Hid Hfree. rewrite (backed_read_run config depth h _ w Hh).
    rewrite (split_pop_of_id base id Hfree).
    apply String.eqb_neq in Hid. rewrite Hid. reflexivity.
  - rewrite (backed_read_run config depth h _ w Hh).
    replace (split_pop (base ++ "/")) with "".
    + reflexivity.
    + symmetry. exact (split_pop_of_id base "" eq_refl).
  - intros uri. apply PhaseResource_read_run.
Qed.

Lemma read_gets_the_last_segment_witness :
  read_of sample_config 0 HTasks ("wynd://tasks" ++ "/" ++ "42") three_tasks_backend
  = ([get_by_id HTasks "42"], Ok three_tasks).
Proof.
  refine (proj1 (proj1 (read_gets_the_last_segment sample_config 0 HTasks "wynd://tasks" "42"
                          three_tasks_backend) eq_refl) _ eq_refl).
  discriminate.
Defined.

(** X10.  Whatever URI it is given, [read] of those handlers sends at
    most one request, and the id it puts into the backend path is never
    empty and never contains a slash. *)
Theorem read_never_sends_a_nested_path :
  forall (config : Config) (depth : nat) (h : Handler) (uri : string) (w : World)
         (r : Request),
    plain_read h = true ->
    In r (calls (read_of config depth h uri w)) ->
    calls (read_of config depth h uri w) = [r] /\
    exists id : string,
      r = get_by_id h id /\ id <> "" /\ slash_free id = true.
Proof.
  intros config depth h uri w r Hh.
  destruct (backed_read h) eqn:Hb.
  2: { destruct h; try discriminate Hh; try discriminate Hb.
       cbn [read_of]. rewrite PhaseResource_read_run. intros []. }
  rewrite (backed_read_run config depth h uri w Hb).
  destruct (String.eqb (split_pop uri) "") eqn:E; cbn; [intros []|].
  intros [<-|[]]. split; [reflexivity|].
  exists (split_pop uri). split; [reflexivity|]. split.
  - apply String.eqb_neq, E.
  - apply split_pop_slash_free.
Qed.

Lemma read_never_sends_a_nested_path_witness :
  calls (read_of sample_config 0 HDocuments "wynd://documents/a/b" empty_backend)
  = [get_by_id HDocuments "b"].
Proof.
  refine (proj1 (read_never_sends_a_nested_path sample_config 0 HDocuments
                   "wynd://documents/a/b" empty_backend (get_by_id HDocuments "b")
                   eq_refl _)).
  left. reflexivity.
Defined.

(** ** Field allow-lists and forced scoping of the resource handlers *)

Lemma pick_lookup (d : gmap string value) (keys : list string) (k : string) :
  pick d keys !! k = if bool_decide (k ∈ keys) then Some (get d k) else None.
Proof.
  unfold pick, Js.obj. induction keys as [|x keys IH]; [reflexivity|].
  cbn [List.map list_to_map foldr]. rewrite lookup_insert. cbn [fst snd].
  destruct (decide (x = k)) as [->|Hne].
  - rewrite bool_decide_eq_true_2 by (left). reflexivity.
  - rewrite IH. destruct (bool_decide (k ∈ keys)) eqn:E.
    + apply bool_decide_eq_true_1 in E.
      rewrite bool_decide_eq_true_2 by (right; exact E). reflexivity.
    + apply bool_decide_eq_false_1 in E.
      rewrite bool_decide_eq_false_2; [reflexivity|].
      rewrite elem_of_cons. intros [->|H]; [apply Hne; reflexivity | exact (E H)].
Qed.

(** X11.  [TaskResource.update] on a URI with a last segment sends exactly
    one request, a [PUT] to [/api/tasks/<id>], whose body has the seven
    fields title, description, status, priority, due_date, assignee_id and
    completed_at as the caller gave them and no other key, so that the
    project, the creator and unknown fields cannot be changed through it;
    on a URI without last segment it sends nothing and returns [null]. *)
Theorem task_update_allow_list :
  forall (uri : string) (d : gmap string value) (w : World),
    (split_pop uri <> "" ->
     calls (TaskResource.update uri d w) = [TaskResource_update_request uri d]) /\
    (forall k : string,
        pick d TaskResource_update_fields !! k
        = if bool_decide (k ∈ TaskResource_update_fields) then Some (get d k) else None) /\
    (split_pop uri = "" -> TaskResource.update uri d w = ([], Ok VNull)).
Proof.
  intros uri d w. split; [|split].
  - intros Hid. apply String.eqb_neq in Hid.
    unfold TaskResource.update, uri_id. rewrite run_try_catch, Hid, run_bind, run_ret.
    cbn [fst snd]. cbv zeta. unfold Api.tasks_update, Client.put. rewrite run_send.
    cbn [Js.String]. fold TaskResource_update_fields.
    fold (TaskResource_update_request uri d).
    destruct (Client.intercept _); reflexivity.
  - apply pick_lookup.
  - intros Hid. unfold TaskResource.update, uri_id. rewrite Hid. reflexivity.
Qed.

Lemma task_update_allow_list_witness :
  calls (TaskResource.update "wynd://tasks/9"
           (Js.obj [("status", VStr "done"); ("project_id", VStr "other")]) empty_backend)
  = [TaskResource_update_request "wynd://tasks/9"
       (Js.obj [("status", VStr "done"); ("project_id", VStr "other")])] /\
  TaskResource.update "wynd://tasks/" ∅ empty_backend = ([], Ok VNull).
Proof.
  split.
  - refine (proj1 (task_update_allow_list "wynd://tasks/9"
                     (Js.obj [("status", VStr "done"); ("project_id", VStr "other")])
                     empty_backend) _).
    discriminate.
  - exact (proj2 (proj2 (task_update_allow_list "wynd://tasks/" ∅ empty_backend)) eq_refl).
Defined.

(** X12.  [TaskResource.list] always queries the configured default
    project: a [project_id] among the caller's filters is overwritten
    before the one request is sent.  [PhaseResource.list] writes the
    default project into its filter the same way, but its call of
    [api.phases.list] raises a [TypeError], since the [api] object has no
    [phases]: it sends nothing and returns the empty array. *)
Theorem resource_lists_force_default_project :
  forall (config : Config) (p : option (gmap string value)) (w : World),
    calls (TaskResource.list config p w) = [TaskResource_list_request config p] /\
    sent_project (TaskResource_list_request config p)
    = Some (VStr (project_defaultProjectId config)) /\
    PhaseResource.list_params config p !! "project_id"
    = Some (VStr (project_defaultProjectId config)) /\
    PhaseResource.list config p w = ([], Ok (VArr [])).
Proof.
  intros config p w.
  split; [apply TaskResource_list_calls|].
  split; [|split; [|reflexivity]].
  - unfold sent_project, TaskResource_list_request. cbn [params].
    unfold Api.with_default_project. rewrite lookup_insert_eq.
    assert (H : get_opt (Some (TaskResource.list_params config p)) "project_id"
                = Api.defaultProjectId config).
    { unfold get_opt, get, TaskResource.list_params.
      destruct p as [o|]; [|reflexivity].
      destruct (negb (truthy _));
        rewrite ?(lookup_insert_ne _ "status" "project_id") by discriminate;
        rewrite lookup_insert_eq; reflexivity. }
    rewrite H. unfold Js.or, Api.defaultProjectId. destruct (truthy _); reflexivity.
  - unfold PhaseResource.list_params.
    destruct p as [o|]; [apply lookup_insert_eq | reflexivity].
Qed.

(** ** Validation before creation *)

(** X13.  The [create] of every resource handler checks its required
    fields before anything else: when one of them is missing or falsy it
    throws the message that names the first such field and sends no
    request to the backend. *)
Theorem create_validates_before_any_request :
  forall (config : Config) (d : gmap string value) (w : World),
    (truthy (get d "title") = false ->
     TaskResource.create config d w = ([], Throw (Error "Task title is required")) /\
     DocumentResource.create config d w = ([], Throw (Error "Document title is required")) /\
     PhaseResource.create d w = ([], Throw (Error "Phase title is required")) /\
     PromptResource.create d w = ([], Throw (Error "Prompt title is required"))) /\
    (truthy (get d "title") = true -> truthy (get d "project_id") = false ->
     TaskResource.create config d w = ([], Throw (Error "Project ID is required")) /\
     PhaseResource.create d w = ([], Throw (Error "Project ID is required"))) /\
    (truthy (get d "title") = true -> truthy (get d "content") = false ->
     DocumentResource.create config d w
     = ([], Throw (Error "Document content is required")) /\
     PromptResource.create d w = ([], Throw (Error "Prompt content is required"))) /\
    (truthy (get d "title") = true -> truthy (get d "content") = true ->
     (truthy (get d "project_id") = false ->
      DocumentResource.create config d w
      = ([], Throw (Error "Project ID is required for document creation"))) /\
     (truthy (get d "workspace_id") = false ->
      PromptResource.create d w
      = ([], Throw (Error "Workspace ID is required for prompt creation")))) /\
    (truthy (get d "name") = false ->
     WorkspaceResource.create d w = ([], Throw (Error "Workspace name is required"))) /\
    (truthy (get d "error_type") = false ->
     ErrorResource.create d w = ([], Throw (Error "Error type is required"))) /\
    (truthy (get d "error_type") = true -> truthy (get d "error_message") = false ->
     ErrorResource.create d w = ([], Throw (Error "Error message is required"))).
Proof.
  intros config d w.
  unfold TaskResource.create, DocumentResource.create, PhaseResource.create,
    PromptResource.create, WorkspaceResource.create, ErrorResource.create.
  repeat split; intros;
    repeat match goal with
           | H : truthy _ = _ |- _ => rewrite H; clear H
           end;
    reflexivity.
Qed.

Lemma create_validates_before_any_request_witness :
  TaskResource.create sample_config (Js.obj [("project_id", VStr "p")]) empty_backend
  = ([], Throw (Error "Task title is required")) /\
  TaskResource.create sample_config (Js.obj [("title", VStr "t")]) empty_backend
  = ([], Throw (Error "Project ID is required")) /\
  DocumentResource.create sample_config (Js.obj [("title", VStr "t")]) empty_backend
  = ([], Throw (Error "Document content is required")) /\
  DocumentResource.create sample_config
    (Js.obj [("title", VStr "t"); ("content", VStr "c")]) empty_backend
  = ([], Throw (Error "Project ID is required for document creation")) /\
  PromptResource.create (Js.obj [("title", VStr "t"); ("content", VStr "c")]) empty_backend
  = ([], Throw (Error "Workspace ID is required for prompt creation")) /\
  WorkspaceResource.create ∅ empty_backend
  = ([], Throw (Error "Workspace name is required")) /\
  ErrorResource.create ∅ empty_backend = ([], Throw (Error "Error type is required")) /\
  ErrorResource.create (Js.obj [("error_type", VStr "E")]) empty_backend
  = ([], Throw (Error "Error message is required")).
Proof.
  pose proof (fun d => create_validates_before_any_request sample_config d empty_backend) as H.
  split; [exact (proj1 (proj1 (H (Js.obj [("project_id", VStr "p")])) eq_refl))|].
  split; [exact (proj1 (proj1 (proj2 (H (Js.obj [("title", VStr "t")]))) eq_refl eq_refl))|].
  split; [exact (proj1 (proj1 (proj2 (proj2 (H (Js.obj [("title", VStr "t")]))))
                         eq_refl eq_refl))|].
  split; [exact (proj1 (proj1 (proj2 (proj2 (proj2
                   (H (Js.obj [("title", VStr "t"); ("content", VStr "c")])))))
                   eq_refl eq_refl) eq_refl)|].
  split; [exact (proj2 (proj1 (proj2 (proj2 (proj2
                   (H (Js.obj [("title", VStr "t"); ("content", VStr "c")])))))
                   eq_refl eq_refl) eq_refl)|].
  split; [exact (proj1 (proj2 (proj2 (proj2 (proj2 (H ∅))))) eq_refl)|].
  split; [exact (proj1 (proj2 (proj2 (proj2 (proj2 (proj2 (H ∅)))))) eq_refl)|].
  exact (proj2 (proj2 (proj2 (proj2 (proj2 (proj2 (H (Js.obj [("error_type", VStr "E")])))))))
               eq_refl eq_refl).
Defined.

(** ** Error logs *)

(** X14.  [ErrorResource.create] with an error type and an error message
    sends exactly one request, a [POST] to [/api/errors], and the log it
    sends is open and unresolved whatever status or resolution the caller
    put into the data. *)
Theorem created_error_is_open :
  forall (d : gmap string value) (w : World),
    truthy (get d "error_type") = true ->
    truthy (get d "error_message") = true ->
    exists payload : gmap string value,
      calls (ErrorResource.create d w)
      = [mkRequest POST "/api/errors" VUndefined (VObj payload)] /\
      payload !! "status" = Some (VStr "open") /\
      payload !! "resolved_at" = Some VNull /\
      payload !! "resolved_by" = Some VNull /\
      payload !! "error_type" = Some (get d "error_type") /\
      payload !! "error_message" = Some (get d "error_message").
Proof.
  intros d w Ht Hm. unfold ErrorResource.create.
  rewrite run_try_catch, Ht, Hm. cbn [negb]. cbv zeta.
  unfold Api.errors_track, Client.post. rewrite run_send.
  eexists. split.
  - destruct (Client.intercept _); reflexivity.
  - repeat split.
Qed.

Lemma created_error_is_open_witness :
  exists payload : gmap string value,
    calls (ErrorResource.create
             (Js.obj [("error_type", VStr "E"); ("error_message", VStr "m");
                      ("status", VStr "resolved")]) empty_backend)
    = [mkRequest POST "/api/errors" VUndefined (VObj payload)] /\
    payload !! "status" = Some (VStr "open").
Proof.
  destruct (created_error_is_open
              (Js.obj [("error_type", VStr "E"); ("error_message", VStr "m");
                       ("status", VStr "resolved")]) empty_backend eq_refl eq_refl)
    as (payload & Hc & Hs & _).
  exists payload. split; assumption.
Defined.

(** X15.  [ErrorResource.update] with a truthy status only changes the
    status: it sends one [PUT] to [/api/errors/<id>/status] whose body is
    [{ status }], does not read the stored error, drops every other field
    of the data, and returns what the backend answers. *)
Theorem error_status_update_sends_only_status :
  forall (uri : string) (d : gmap string value) (w : World) (resp : AxiosResponse),
    split_pop uri <> "" ->
    truthy (get d "status") = true ->
    backend w (errors_status_request uri (get d "status")) = Fulfilled resp ->
    ErrorResource.update uri d w
    = ([errors_status_request uri (get d "status")], Ok (data resp)).
Proof.
  intros uri d w resp Hid Hs Hb. apply String.eqb_neq in Hid.
  unfold ErrorResource.update, uri_id.
  rewrite run_try_catch, Hid, run_bind, run_ret. cbn [fst snd]. rewrite Hs.
  unfold Api.errors_updateStatus, Client.put. rewrite run_send. cbn [Js.String].
  fold (errors_status_request uri (get d "status")). rewrite Hb. reflexivity.
Qed.

Lemma error_status_update_sends_only_status_witness :
  ErrorResource.update "wynd://errors/1"
    (Js.obj [("status", VStr "resolved"); ("error_message", VStr "edited")])
    stored_error_backend
  = ([errors_status_request "wynd://errors/1" (VStr "resolved")], Ok stored_error).
Proof.
  refine (error_status_update_sends_only_status "wynd://errors/1"
            (Js.obj [("status", VStr "resolved"); ("error_message", VStr "edited")])
            stored_error_backend (mkResponse 200 stored_error) _ eq_refl eq_refl).
  discriminate.
Defined.

(** ** The slug of a new workspace *)

Lemma lower_char_slug_char (c : ascii) :
  is_space (lower_char c) = false -> slug_char (lower_char c) = true.
Proof.
  destruct c as [[] [] [] [] [] [] [] []]; vm_compute; intros H;
    first [reflexivity | discriminate H].
Qed.

Lemma dash_spaces_clean (s : string) : forall in_run,
  all_chars slug_char (dash_spaces in_run (toLowerCase s)) = true.
Proof.
  induction s as [|c s IH]; intros in_run; [reflexivity|].
  cbn [toLowerCase dash_spaces].
  destruct (is_space (lower_char c)) eqn:E.
  - destruct in_run; [apply IH|]. cbn [all_chars]. rewrite IH. reflexivity.
  - cbn [all_chars]. rewrite (lower_char_slug_char c E), IH. reflexivity.
Qed.

Lemma dash_spaces_fixed (s : string) :
  all_chars slug_char s = true -> dash_spaces false (toLowerCase s) = s.
Proof.
  induction s as [|c s IH]; intros H; [reflexivity|].
  cbn [all_chars] in H. apply andb_true_iff in H as [Hc Hs].
  unfold slug_char in Hc. apply andb_true_iff in Hc as [Hsp Hlow].
  apply negb_true_iff in Hsp. apply Ascii.eqb_eq in Hlow.
  cbn [toLowerCase dash_spaces]. rewrite Hlow, Hsp, IH by exact Hs. reflexivity.
Qed.

(** X16.  [WorkspaceResource.create] called with a name sends one [POST]
    to [/api/workspaces].  A slug the caller gives is sent unchanged;
    without one the slug is derived from the name, and for a name of ASCII
    characters the derived slug holds no white space and no upper-case
    letter and is the name itself when the name already has neither. *)
Theorem workspace_slug_is_derived_from_name :
  forall (d : gmap string value) (s : string) (w : World),
    get d "name" = VStr s ->
    s <> "" ->
    (truthy (get d "slug") = true ->
     calls (WorkspaceResource.create d w)
     = [mkRequest POST "/api/workspaces" VUndefined
          (VObj (workspace_payload d (get d "slug")))]) /\
    (truthy (get d "slug") = false ->
     ascii_text s = true ->
     calls (WorkspaceResource.create d w)
     = [mkRequest POST "/api/workspaces" VUndefined
          (VObj (workspace_payload d (VStr (derived_slug s))))] /\
     all_chars slug_char (derived_slug s) = true /\
     (all_chars slug_char s = true -> derived_slug s = s)).
Proof.
  intros d s w Hn Hs. apply String.eqb_neq in Hs. split.
  - intros Eslug.
    unfold WorkspaceResource.create. rewrite run_try_catch, Hn. cbn [truthy].
    rewrite Hs. cbn [negb]. rewrite run_bind. rewrite <- Hn, Eslug, Hn.
    rewrite run_ret. cbn [fst snd]. cbv zeta.
    unfold Api.workspaces_create, Client.post. rewrite run_send.
    unfold workspace_payload. rewrite Hn.
    destruct (Client.intercept _); reflexivity.
  - intros Eslug _. split.
    + unfold WorkspaceResource.create. rewrite run_try_catch, Hn. cbn [truthy].
      rewrite Hs. cbn [negb]. rewrite run_bind. rewrite <- Hn, Eslug, Hn.
      rewrite run_lift. cbn [WorkspaceResource.name_slug fst snd]. cbv zeta.
      unfold Api.workspaces_create, Client.post. rewrite run_send.
      unfold workspace_payload, derived_slug. rewrite Hn.
      destruct (Client.intercept _); reflexivity.
    + split; [apply dash_spaces_clean | apply dash_spaces_fixed].
Qed.

Lemma workspace_slug_is_derived_from_name_witness :
  calls (WorkspaceResource.create (Js.obj [("name", VStr "My  Work Space")]) empty_backend)
  = [mkRequest POST "/api/workspaces" VUndefined
       (VObj (workspace_payload (Js.obj [("name", VStr "My  Work Space")])
                (VStr "my-work-space")))] /\
  calls (WorkspaceResource.create
           (Js.obj [("name", VStr "My  Work Space"); ("slug", VStr "Mine")]) empty_backend)
  = [mkRequest POST "/api/workspaces" VUndefined
       (VObj (workspace_payload
                (Js.obj [("name", VStr "My  Work Space"); ("slug", VStr "Mine")])
                (VStr "Mine")))].
Proof.
  split.
  - refine (proj1 (proj2 (workspace_slug_is_derived_from_name
                            (Js.obj [("name", VStr "My  Work Space")]) "My  Work Space"
                            empty_backend eq_refl _) eq_refl eq_refl)).
    discriminate.
  - refine (proj1 (workspace_slug_is_derived_from_name
                     (Js.obj [("name", VStr "My  Work Space"); ("slug", VStr "Mine")])
                     "My  Work Space" empty_backend eq_refl _) eq_refl).
    discriminate.
Defined.

(** ** The default project as a URI *)

Lemma ProjectResource_read_returns config depth uri w :
  exists l r, ProjectResource.read config (S depth) uri w = (l, Ok r).
Proof. rewrite ProjectResource_read_S. apply try_catch_returns. Qed.

(** X17.  For the projects handler the URIs [default] and [.../default]
    stand for the configured default project: with a non-empty default id
    reading one of them is reading [wynd://projects/<default id>], with the
    same requests and the same result; with an empty default id it sends
    nothing and returns [null]. *)
Theorem default_uri_reads_default_project :
  forall (config : Config) (depth : nat) (uri : string) (w : World),
    String.eqb uri "default" || endsWith uri "/default" = true ->
    (project_defaultProjectId config <> "" ->
     ProjectResource.read config (S (S depth)) uri w
     = ProjectResource.read config (S depth)
         ("wynd://projects/" ++ project_defaultProjectId config) w) /\
    (project_defaultProjectId config = "" ->
     ProjectResource.read config (S depth) uri w = ([], Ok VNull)).
Proof.
  intros config depth uri w Huri. split.
  - intros Hid. apply String.eqb_neq in Hid.
    rewrite (ProjectResource_read_S config (S depth) uri), run_try_catch, Huri.
    unfold ProjectResource.getDefaultProjectId, Api.defaultProjectId, Js.or.
    cbn [truthy]. rewrite Hid. cbn [negb truthy]. rewrite Hid. cbn [negb Js.String].
    destruct (ProjectResource_read_returns config depth
                ("wynd://projects/" ++ project_defaultProjectId config) w) as (l & r & H).
    rewrite H. reflexivity.
  - intros Hid. rewrite ProjectResource_read_S, run_try_catch, Huri.
    unfold ProjectResource.getDefaultProjectId, Api.defaultProjectId, Js.or.
    rewrite Hid. reflexivity.
Qed.

Lemma default_uri_reads_default_project_witness :
  ProjectResource.read sample_config 2 "wynd://projects/default" empty_backend
  = ProjectResource.read sample_config 1 "wynd://projects/proj_1" empty_backend /\
  ProjectResource.read empty_project_config 1 "default" empty_backend = ([], Ok VNull).
Proof.
  split.
  - refine (proj1 (default_uri_reads_default_project sample_config 0
                     "wynd://projects/default" empty_backend eq_refl) _).
    discriminate.
  - exact (proj2 (default_uri_reads_default_project empty_project_config 0
                     "default" empty_backend eq_refl) eq_refl).
Defined.

(** ** The context resource *)

Lemma returns_object_ret (o : gmap string value) (w : World) :
  returns_object (mret (VObj o)) w.
Proof. intros l v H. rewrite run_ret in H. injection H as _ <-. eauto. Qed.

Lemma returns_object_bind {A} (m : M A) (k : A -> M value) (w : World) :
  (forall a, returns_object (k a) w) -> returns_object (m ≫= k) w.
Proof.
  intros Hk l v. rewrite run_bind. destruct (m w) as [l1 [a|e]]; [|discriminate].
  destruct (k a w) as [l2 r] eqn:E. cbn [fst snd]. intros H. injection H as _ ->.
  exact (Hk a l2 v E).
Qed.

Lemma returns_object_caught (body : M value) (h : JsError -> gmap string value)
    (w : World) :
  returns_object body w ->
  exists l o, try_catch body (fun error => mret (VObj (h error))) w = (l, Ok (VObj o)).
Proof.
  intros Hb. rewrite run_try_catch. destruct (body w) as [l [v|e]] eqn:E.
  - destruct (Hb l v E) as [o ->]. eauto.
  - cbn. eauto.
Qed.

Ltac object_step :=
  match goal with
  | |- returns_object (if ?b then _ else _) _ => destruct b
  | |- returns_object (_ ≫= _) _ => apply returns_object_bind; intros ?
  | |- returns_object (mret (VObj _)) _ => apply returns_object_ret
  end.

Lemma getContextInfo_object config w :
  exists l o, ContextResource.getContextInfo config w = (l, Ok (VObj o)).
Proof.
  unfold ContextResource.getContextInfo.
  destruct (ContextResource.lookup_project config w) as [l1 [projectInfo|e]] eqn:E1.
  - destruct (ContextResource.lookup_workspace projectInfo w) as [l2 [ws|e]] eqn:E2.
    + rewrite run_bind, E1. cbn [fst snd]. rewrite run_bind, E2. cbn [fst snd].
      rewrite run_ret. eauto.
    + exfalso. unfold ContextResource.lookup_workspace in E2.
      destruct (truthy projectInfo && _); [|discriminate E2].
      rewrite run_try_catch in E2. destruct (Api.workspaces_get _ w) as [? [?|?]];
        discriminate E2.
  - exfalso. unfold ContextResource.lookup_project in E1. rewrite run_try_catch in E1.
    destruct (if truthy _ then _ else _) as [? [?|?]]; discriminate E1.
Qed.

Lemma getProjectContext_object config w :
  exists l o, ContextResource.getProjectContext config w = (l, Ok (VObj o)).
Proof.
  unfold ContextResource.getProjectContext.
  destruct (negb (truthy _)).
  - rewrite run_ret. eauto.
  - apply (returns_object_caught _ (fun error => Js.obj _)). repeat object_step.
Qed.

Lemma getWorkspaceContext_object config w :
  exists l o, ContextResource.getWorkspaceContext config w = (l, Ok (VObj o)).
Proof.
  unfold ContextResource.getWorkspaceContext.
  apply (returns_object_caught _ (fun error => Js.obj _)). repeat object_step.
Qed.

(** X18.  The context resource always answers: [read] returns an object
    for every URI and every backend, never [null], and [list] returns an
    array of exactly one object, also when the backend fails every
    request. *)
Theorem context_is_always_available :
  forall (config : Config) (uri : string) (w : World),
    (exists (l : list Request) (o : gmap string value),
        ContextResource.read config uri w = (l, Ok (VObj o))) /\
    (exists (l : list Request) (o : gmap string value),
        ContextResource.list config w = (l, Ok (VArr [VObj o]))).
Proof.
  intros config uri w. split.
  - unfold ContextResource.read. rewrite run_try_catch.
    assert (H : exists l o,
               (if String.eqb uri "wynd://context" || endsWith uri "/context"
                then ContextResource.getContextInfo config
                else
                  if String.eqb (split_pop uri) "project"
                  then ContextResource.getProjectContext config
                  else if String.eqb (split_pop uri) "workspace"
                  then ContextResource.getWorkspaceContext config
                  else if String.eqb (split_pop uri) "server"
                  then ContextResource.getServerContext config
                  else ContextResource.getContextInfo config) w = (l, Ok (VObj o))).
    { destruct (_ || _); [apply getContextInfo_object|].
      destruct (String.eqb _ "project"); [apply getProjectContext_object|].
      destruct (String.eqb _ "workspace"); [apply getWorkspaceContext_object|].
      destruct (String.eqb _ "server"); [|apply getContextInfo_object].
      unfold ContextResource.getServerContext. rewrite run_ret. eauto. }
    destruct H as (l & o & H). cbv zeta. rewrite H. eauto.
  - unfold ContextResource.list. rewrite run_try_catch, run_bind.
    destruct (getContextInfo_object config w) as (l & o & H). rewrite H.
    cbn. eauto.
Qed.

(** ** Answers of the HTTP transport to a [POST] *)

Section PostFacts.
Import HttpServerTransport.

Variable JSON_parse : string -> Res value.
Variable JSON_stringify : value -> string.
Variable messageHandler : option (value -> Res Reply).

Let handle := requestHandler JSON_parse JSON_stringify messageHandler.

Lemma cors_setHeader k v r :
  k <> "Access-Control-Allow-Origin" ->
  k <> "Access-Control-Allow-Methods" ->
  k <> "Access-Control-Allow-Headers" ->
  cors_set r -> cors_set (setHeader k v r).
Proof.
  intros H1 H2 H3 (Ho & Hm & Hh). unfold cors_set, setHeader. cbn [headers].
  rewrite !lookup_insert_ne by assumption. auto.
Qed.

Lemma cors_writeHead code hs r :
  hs = [] \/ hs = json_headers ->
  cors_set r -> cors_set (writeHead code hs r).
Proof.
  intros Hhs (Ho & Hm & Hh). unfold cors_set, writeHead. cbn [headers].
  rewrite !lookup_union_r; [auto| | |];
    destruct Hhs as [-> | ->]; reflexivity.
Qed.

Lemma cors_write chunk r : cors_set r -> cors_set (write chunk r).
Proof. unfold write. destruct (finished r); auto. Qed.

Lemma cors_end chunk r : cors_set r -> cors_set (end_ chunk r).
Proof. unfold end_. destruct (finished r); auto. Qed.

Lemma cors_set_statusCode code r : cors_set r -> cors_set (set_statusCode code r).
Proof. auto. Qed.

Lemma cors_stream_event ev r :
  cors_set r -> cors_set (on_stream_event JSON_stringify ev r).
Proof.
  intros H. destruct ev; cbn [on_stream_event].
  - apply cors_write, H.
  - apply cors_end, H.
  - destruct (negb (headersSent r)); apply cors_end; [apply cors_set_statusCode|]; exact H.
Qed.

Lemma cors_stream evs : forall r,
  cors_set r ->
  cors_set (fold_left (fun acc ev => on_stream_event JSON_stringify ev acc) evs r).
Proof.
  induction evs as [|ev evs IH]; intros r H; [exact H|].
  cbn [fold_left]. apply IH, cors_stream_event, H.
Qed.

Lemma cors_internal_error e r :
  cors_set r -> cors_set (internal_error JSON_stringify e r).
Proof.
  intros H. unfold internal_error. apply cors_end, cors_writeHead; [right; reflexivity|exact H].
Qed.

(** X19.  Every response of the request handler carries the three CORS
    headers, whatever the method, the body, the message handler and the
    outcome. *)
Theorem every_response_has_cors_headers :
  forall req : IncomingMessage, cors_set (res (handle req)).
Proof.
  intros req. unfold handle, requestHandler.
  set (r0 := setHeader "Access-Control-Allow-Headers" _ _).
  assert (H0 : cors_set r0) by (repeat split).
  clearbody r0.
  destruct (String.eqb (req_method req) "OPTIONS").
  { cbn [res]. apply cors_end, cors_writeHead; [left; reflexivity | exact H0]. }
  destruct (negb (String.eqb (req_method req) "POST")).
  { cbn [res]. apply cors_end, cors_writeHead; [right; reflexivity | exact H0]. }
  unfold handle_post.
  destruct (parseRequestBody req) as [body|e]; [|apply cors_internal_error, H0].
  destruct (JSON_parse body) as [message|e]; [|apply cors_internal_error, H0].
  destruct messageHandler as [h|].
  - destruct (h message) as [response|e]; [|apply cors_internal_error, H0].
    destruct (stream response) as [events|]; cbn [res].
    + apply cors_stream, cors_write, cors_setHeader; try discriminate.
      apply cors_setHeader; try discriminate. exact H0.
    + apply cors_end, cors_setHeader; try discriminate. exact H0.
  - cbn [res]. apply cors_end, cors_writeHead; [right; reflexivity | exact H0].
Qed.

(** X20.  A [POST] whose body cannot be read or parsed is answered with
    status 500 and the error's message as [details], and nothing is given
    to the message handler; so is a [POST] whose message makes the handler
    throw; with no message handler registered the answer is a 500 saying
    so. *)
Theorem post_failures_answer_500 :
  forall req : IncomingMessage,
    req_method req = "POST" ->
    (forall e : JsError,
        req_error req = Some e \/
        (req_error req = None /\ JSON_parse (String.concat "" (req_chunks req)) = Throw e) ->
        statusCode (res (handle req)) = 500 /\
        chunks (res (handle req)) = [internal_error_body JSON_stringify e] /\
        finished (res (handle req)) = true /\
        dispatched (handle req) = []) /\
    (forall (message : value) (h : value -> Res Reply) (e : JsError),
        req_error req = None ->
        JSON_parse (String.concat "" (req_chunks req)) = Ok message ->
        messageHandler = Some h ->
        h message = Throw e ->
        statusCode (res (handle req)) = 500 /\
        chunks (res (handle req)) = [internal_error_body JSON_stringify e] /\
        finished (res (handle req)) = true /\
        dispatched (handle req) = [message]) /\
    (forall message : value,
        req_error req = None ->
        JSON_parse (String.concat "" (req_chunks req)) = Ok message ->
        messageHandler = None ->
        statusCode (res (handle req)) = 500 /\
        chunks (res (handle req))
        = [JSON_stringify (VObj (Js.obj [("error", VStr "No message handler registered")]))] /\
        finished (res (handle req)) = true /\
        dispatched (handle req) = []).
Proof.
  intros req Hm. unfold handle, requestHandler. rewrite Hm.
  cbn [String.eqb Ascii.eqb Bool.eqb negb]. unfold handle_post, parseRequestBody.
  split; [|split].
  - intros e [He | [He Hp]]; rewrite He; [|rewrite Hp]; repeat split.
  - intros message h e He Hp Hh Hthrow. rewrite He, Hp, Hh, Hthrow. repeat split.
  - intros message He Hp Hh. rewrite He, Hp, Hh. repeat split.
Qed.

(** X21.  A [POST] whose message the handler answers without a stream
    gets status 200, the content type [application/json] and the
    serialised reply as its whole body, and the response is ended. *)
Theorem post_reply_is_json :
  forall (req : IncomingMessage) (message : value) (h : value -> Res Reply)
         (response : Reply),
    req_method req = "POST" ->
    req_error req = None ->
    JSON_parse (String.concat "" (req_chunks req)) = Ok message ->
    messageHandler = Some h ->
    h message = Ok response ->
    stream response = None ->
    statusCode (res (handle req)) = 200 /\
    headers (res (handle req)) !! "Content-Type" = Some "application/json" /\
    chunks (res (handle req)) = [JSON_stringify (reply response)] /\
    finished (res (handle req)) = true /\
    dispatched (handle req) = [message].
Proof.
  intros req message h response Hm He Hp Hh Hr Hs.
  unfold handle, requestHandler. rewrite Hm.
  cbn [String.eqb Ascii.eqb Bool.eqb negb]. unfold handle_post, parseRequestBody.
  rewrite He, Hp, Hh, Hr, Hs. repeat split.
Qed.

Lemma stream_after_close evs : forall r,
  finished r = true -> headersSent r = true ->
  fold_left (fun acc ev => on_stream_event JSON_stringify ev acc) evs r = r.
Proof.
  induction evs as [|ev evs IH]; intros r Hf Hs; [reflexivity|].
  cbn [fold_left].
  assert (H : on_stream_event JSON_stringify ev r = r).
  { destruct ev; cbn [on_stream_event]; unfold write, end_; rewrite ?Hs, ?Hf; reflexivity. }
  rewrite H. apply IH; assumption.
Qed.

Lemma stream_data datas : forall r,
  finished r = false ->
  fold_left (fun acc ev => on_stream_event JSON_stringify ev acc) (List.map SData datas) r
  = mkRes (headers r) (statusCode r) (chunks r ++ datas)%list
          (headersSent r || negb (Nat.eqb (List.length datas) 0)) false.
Proof.
  induction datas as [|c datas IH]; intros r Hf.
  - cbn. rewrite app_nil_r, orb_false_r. destruct r; cbn in *; subst; reflexivity.
  - cbn [List.map fold_left on_stream_event]. unfold write at 1. rewrite Hf.
    rewrite IH by reflexivity. cbn. rewrite <- app_assoc, orb_true_r. reflexivity.
Qed.

(** X22.  A streamed reply is sent as the serialised reply on a line of
    its own followed by the chunks of the stream, in order, up to the
    first end or error of the stream; that event ends the response,
    nothing after it is written, and the status stays 200 also when the
    stream breaks off with an error. *)
Theorem streamed_reply_is_relayed :
  forall (req : IncomingMessage) (message : value) (h : value -> Res Reply)
         (response : Reply) (datas : list string) (last : StreamEvent)
         (rest : list StreamEvent),
    req_method req = "POST" ->
    req_error req = None ->
    JSON_parse (String.concat "" (req_chunks req)) = Ok message ->
    messageHandler = Some h ->
    h message = Ok response ->
    stream response = Some (List.map SData datas ++ last :: rest)%list ->
    closes_stream last = true ->
    statusCode (res (handle req)) = 200 /\
    headers (res (handle req)) !! "Transfer-Encoding" = Some "chunked" /\
    chunks (res (handle req)) = (JSON_stringify (reply response) ++ newline) :: datas /\
    finished (res (handle req)) = true.
Proof.
  intros req message h response datas last rest Hm He Hp Hh Hr Hs Hlast.
  unfold handle, requestHandler. rewrite Hm.
  cbn [String.eqb Ascii.eqb Bool.eqb negb]. unfold handle_post, parseRequestBody.
  rewrite He, Hp, Hh, Hr, Hs. cbn [res].
  rewrite fold_left_app, stream_data by reflexivity. cbn [fold_left].
  rewrite stream_after_close.
  - destruct last; try discriminate Hlast;
      repeat split; cbn; rewrite ?app_nil_r; reflexivity.
  - destruct last; try discriminate Hlast; reflexivity.
  - destruct last; try discriminate Hlast; reflexivity.
Qed.

End PostFacts.

Lemma post_failures_answer_500_witness :
  HttpServerTransport.statusCode
    (HttpServerTransport.res
       (HttpServerTransport.requestHandler sample_parse Js.String (Some echo_handler)
          (post ["ba"; "d"]))) = 500 /\
  HttpServerTransport.dispatched
    (HttpServerTransport.requestHandler sample_parse Js.String (Some throwing_handler)
       (post ["hello"])) = [VStr "hello"] /\
  HttpServerTransport.statusCode
    (HttpServerTransport.res
       (HttpServerTransport.requestHandler sample_parse Js.String None
          (post ["hello"]))) = 500.
Proof.
  split; [|split].
  - refine (proj1 (proj1 (post_failures_answer_500 sample_parse Js.String (Some echo_handler)
                            (post ["ba"; "d"]) eq_refl)
                         (Error "Unexpected token b in JSON at position 0") _)).
    right. split; reflexivity.
  - exact (proj2 (proj2 (proj2 (proj1 (proj2 (post_failures_answer_500 sample_parse Js.String
                            (Some throwing_handler) (post ["hello"]) eq_refl))
                         (VStr "hello") throwing_handler (Error "boom")
                         eq_refl eq_refl eq_refl eq_refl)))).
  - exact (proj1 (proj2 (proj2 (post_failures_answer_500 sample_parse Js.String None
                            (post ["hello"]) eq_refl))
                         (VStr "hello") eq_refl eq_refl eq_refl)).
Defined.

Lemma post_reply_is_json_witness :
  HttpServerTransport.chunks
    (HttpServerTransport.res
       (HttpServerTransport.requestHandler sample_parse Js.String (Some echo_handler)
          (post ["hel"; "lo"]))) = ["hello"].
Proof.
  exact (proj1 (proj2 (proj2 (post_reply_is_json sample_parse Js.String (Some echo_handler)
                  (post ["hel"; "lo"]) (VStr "hello") echo_handler
                  (HttpServerTransport.mkReply (VStr "hello") None)
                  eq_refl eq_refl eq_refl eq_refl eq_refl eq_refl)))).
Defined.

Lemma streamed_reply_is_relayed_witness :
  HttpServerTransport.statusCode
    (HttpServerTransport.res
       (HttpServerTransport.requestHandler sample_parse Js.String (Some streaming_handler)
          (post ["hello"]))) = 200 /\
  HttpServerTransport.chunks
    (HttpServerTransport.res
       (HttpServerTransport.requestHandler sample_parse Js.String (Some streaming_handler)
          (post ["hello"]))) = ["hello" ++ newline; "a"; "b"].
Proof.
  pose proof (streamed_reply_is_relayed sample_parse Js.String (Some streaming_handler)
                (post ["hello"]) (VStr "hello") streaming_handler
                (HttpServerTransport.mkReply (VStr "hello")
                   (Some [HttpServerTransport.SData "a"; HttpServerTransport.SData "b";
                          HttpServerTransport.SError (Error "lost");
                          HttpServerTransport.SData "c"]))
                ["a"; "b"] (HttpServerTransport.SError (Error "lost"))
                [HttpServerTransport.SData "c"]
                eq_refl eq_refl eq_refl eq_refl eq_refl eq_refl eq_refl) as (H1 & _ & H3 & _).
  split; [exact H1 | exact H3].
Defined.

(** ** What [stop] leaves behind *)

Section StopShape.
Import HttpServerTransport.

Lemma stop_shape closeAll socks conns :
  stopping_shape closeAll conns (stop (running closeAll socks conns)).
Proof.
  destruct socks as [|s socks].
  - repeat split. right. cbn. rewrite ?app_nil_l. repeat split.
  - repeat split. left. cbn. repeat split; [discriminate|]. left. split; reflexivity.
Qed.

Lemma step_shape closeAll conns ev t :
  stopping_shape closeAll conns t -> stopping_shape closeAll conns (step ev t).
Proof.
  destruct t as [run0 cs en li so hc cbs tm pr].
  intros (Hhc & Hli & Hcase). cbn in Hhc, Hli. subst hc li.
  destruct Hcase as [(Hp & Hr & Hc & He & Hso & Hphase) | (Hp & Hr & Hc & He & Htm & Hcb)];
    cbn in *; subst.
  - destruct Hphase as [(Htm & Hcb) | (Hca & Htm & Hcb)]; subst.
    + destruct ev as [i|]; cbn [step].
      * unfold emitCloseIfDrained. cbn.
        destruct (List.filter _ so) as [|s rest] eqn:Ef; cbn.
        -- repeat split. right. rewrite ?app_nil_l. repeat split.
        -- repeat split. left. repeat split; [discriminate|]. left. split; reflexivity.
      * cbn. unfold on_timeout. cbn. destruct closeAll.
        -- unfold closeAllConnections, server_close, emitCloseIfDrained. cbn.
           repeat split. right. rewrite ?app_nil_l. repeat split.
        -- unfold server_close, emitCloseIfDrained. cbn.
           destruct so as [|s rest]; [contradiction|]. cbn.
           repeat split. left. repeat split; [discriminate|]. right. repeat split.
    + destruct ev as [i|]; cbn [step].
      * unfold emitCloseIfDrained. cbn.
        destruct (List.filter _ so) as [|s rest] eqn:Ef; cbn.
        -- repeat split. right. rewrite ?app_nil_l. repeat split.
        -- repeat split. left. repeat split; [discriminate|]. right. repeat split.
      * cbn. repeat split. left. repeat split; [assumption|]. right. repeat split.
  - destruct ev as [i|]; cbn [step].
    + unfold emitCloseIfDrained. cbn.
      destruct (List.filter _ so) as [|s rest]; cbn; repeat split; right; repeat split.
    + cbn. repeat split. right. repeat split.
Qed.

Lemma run_shape closeAll conns evs : forall t,
  stopping_shape closeAll conns t -> stopping_shape closeAll conns (run evs t).
Proof.
  induction evs as [|ev evs IH]; intros t H; [exact H|].
  cbn [run fold_left]. apply IH, step_shape, H.
Qed.



Lemma sockets_run_callback cb t : sockets (run_callback cb t) = sockets t.
Proof. destruct cb as [[|] [|]]; cbn; unfold settle; destruct (promise t); reflexivity. Qed.

Lemma sockets_callbacks cbs : forall t,
  sockets (fold_left (fun acc cb => run_callback cb acc) cbs t) = sockets t.
Proof.
  induction cbs as [|cb cbs IH]; intros t; [reflexivity|].
  cbn [fold_left]. rewrite IH. apply sockets_run_callback.
Qed.

Lemma sockets_emit t : sockets (emitCloseIfDrained t) = sockets t.
Proof.
  unfold emitCloseIfDrained. destruct (listening t || _); [reflexivity|].
  rewrite sockets_callbacks. reflexivity.
Qed.

Lemma sockets_step ev t s :
  In s (sockets (step ev t)) -> In s (sockets t) /\ ev <> SocketClosed s.
Proof.
  destruct ev as [i|]; cbn [step].
  - rewrite sockets_emit. cbn [sockets]. intros H.
    apply List.filter_In in H as [Hin Hne]. split; [exact Hin|].
    intros E. injection E as ->. rewrite Nat.eqb_refl in Hne. discriminate Hne.
  - destruct (forceShutdownTimer t); [|intros H; split; [exact H | discriminate]].
    unfold on_timeout, server_close. rewrite sockets_emit. cbn [sockets hasCloseAll].
    destruct (hasCloseAll t).
    + unfold closeAllConnections. rewrite sockets_emit. cbn. intros [].
    + cbn. intros H. split; [exact H | discriminate].
Qed.

Lemma sockets_run evs : forall t s,
  In s (sockets (run evs t)) -> In s (sockets t) /\ ~ In (SocketClosed s) evs.
Proof.
  induction evs as [|ev evs IH]; intros t s H; [split; [exact H | intros []]|].
  cbn [run fold_left] in H. apply IH in H as [H Hn].
  apply sockets_step in H as [H Hev]. split; [exact H|].
  intros [E|E]; [exact (Hev E) | exact (Hn E)].
Qed.

(** X24.  [stop] on a running transport has resolved as soon as every
    socket that was open has closed, on any runtime and whether or not the
    timer fired in between. *)
Theorem stop_resolves_when_sockets_close :
  forall (closeAll : bool) (socks conns : list nat) (evs : list Event),
    (forall s, In s socks -> In (SocketClosed s) evs) ->
    promise (run evs (stop (running closeAll socks conns))) = Resolved.
Proof.
  intros closeAll socks conns evs Hall.
  destruct (run_shape closeAll conns evs _ (stop_shape closeAll socks conns))
    as (_ & _ & [(_ & _ & _ & _ & Hso & _) | (Hp & _)]); [|exact Hp].
  exfalso. destruct (sockets (run evs _)) as [|s rest] eqn:E; [apply Hso; reflexivity|].
  assert (Hin : In s (sockets (run evs (stop (running closeAll socks conns)))))
    by (rewrite E; left; reflexivity).
  apply sockets_run in Hin as [Hin Hn]. apply Hn, Hall.
  unfold stop, running, server_close in Hin. cbn in Hin.
  rewrite sockets_emit in Hin. exact Hin.
Qed.

Lemma stop_resolves_when_sockets_close_witness :
  promise (run [TimerFired; SocketClosed 0] (stop (running false [0%nat] []))) = Resolved.
Proof.
  apply (stop_resolves_when_sockets_close false [0%nat] [] [TimerFired; SocketClosed 0]).
  intros s [<-|[]]. right. left. reflexivity.
Defined.

End StopShape.

(** ** Starting the HTTP transport *)

(** X25.  [start] marks the transport as running exactly when it already
    ran or the bind succeeded.  On a running transport it throws without
    touching the listener.  The port it binds is never 0: a port 0 or a
    missing port in the options falls back to the configured port and then
    to 3000, and a bind that fails because the address is in use is
    reported with that port in the message. *)
Theorem start_binds_a_real_port :
  forall (config : Config) (options : HttpStart.HttpTransportOptions)
         (listen : HttpStart.ListenOutcome),
    (forall running : bool,
        HttpStart.isRunning_after (HttpStart.start config options running listen) = true
        <-> running = true \/ listen = HttpStart.Bound) /\
    HttpStart.start config options true listen
    = HttpStart.mkStarted true None (Throw (Error "HTTP transport is already running")) /\
    truthy (HttpStart.chosen_port config options) = true /\
    (truthy (HttpStart.port options) = false ->
     HttpStart.chosen_port config options
     = if server_port config =? 0 then VNum 3000 else VNum (server_port config)) /\
    (forall e : JsError,
        listen = HttpStart.BindError "EADDRINUSE" e ->
        HttpStart.settled (HttpStart.start config options false listen)
        = Throw (Error ("Port " ++ Js.String (HttpStart.chosen_port config options)
                        ++ " is already in use"))).
Proof.
  intros config options listen. split; [|split; [|split; [|split]]].
  - intros [|]; cbn.
    + split; auto.
    + destruct listen as [|code e]; cbn.
      * split; auto.
      * destruct (String.eqb code "EADDRINUSE"); cbn;
          (split; [discriminate | intros [H|H]; discriminate H]).
  - reflexivity.
  - unfold HttpStart.chosen_port, Js.or.
    destruct (truthy (HttpStart.port options)) eqn:E; [rewrite E; exact E|].
    cbn [truthy]. destruct (server_port config =? 0) eqn:Ez; cbn [negb truthy];
      rewrite ?Ez; reflexivity.
  - intros E. unfold HttpStart.chosen_port, Js.or. rewrite E. cbn [truthy].
    destruct (server_port config =? 0) eqn:Ez; cbn [negb truthy]; rewrite ?Ez; reflexivity.
  - intros e ->. reflexivity.
Qed.

Lemma start_binds_a_real_port_witness :
  HttpStart.chosen_port sample_config (HttpStart.mkOptions (VNum 0) VUndefined) = VNum 3000 /\
  HttpStart.settled
    (HttpStart.start sample_config (HttpStart.mkOptions (VNum 0) VUndefined) false
       (HttpStart.BindError "EADDRINUSE" (Error "listen EADDRINUSE")))
  = Throw (Error "Port 3000 is already in use").
Proof.
  pose proof (start_binds_a_real_port sample_config
                (HttpStart.mkOptions (VNum 0) VUndefined)
                (HttpStart.BindError "EADDRINUSE" (Error "listen EADDRINUSE")))
    as (_ & _ & _ & Hport & Hbusy).
  split; [exact (Hport eq_refl) | exact (Hbusy _ eq_refl)].
Defined.

(** ** Creating a project in the writable handler *)

(** X26.  The writable [ProjectResource.create], given a title, posts the
    project with the caller's workspace when there is one, without any
    other request.  Without one it first reads the default project and
    posts the new project into the workspace of that project; when the
    default project cannot be read the project is still created, with
    [workspace_id: null]. *)
Theorem project_create_inherits_workspace :
  forall (config : Config) (depth : nat) (d : gmap string value) (w : World),
    truthy (get d "title") = true ->
    (truthy (get d "workspace_id") = true ->
     calls (ProjectResourceWritable.create config depth d w)
     = [project_create_request d (get d "workspace_id")]) /\
    (forall (l : list Request) (defaultProject : value),
        truthy (get d "workspace_id") = false ->
        project_defaultProjectId config <> "" ->
        ProjectResource.read config depth (default_project_uri config) w
        = (l, Ok defaultProject) ->
        calls (ProjectResourceWritable.create config depth d w)
        = (l ++ [project_create_request d
                   (if truthy defaultProject then prop_opt defaultProject "workspace_id"
                    else VNull)])%list).
Proof.
  intros config depth d w Ht. split.
  - intros Hws. unfold ProjectResourceWritable.create.
    rewrite run_try_catch, Ht. cbn [negb]. rewrite run_bind.
    unfold ProjectResourceWritable.inherited_workspace. rewrite Hws. cbn [negb].
    rewrite run_ret. cbn [fst snd]. cbv zeta.
    unfold Api.projects_create, Client.post. rewrite run_send.
    fold (project_payload d (get d "workspace_id")).
    fold (project_create_request d (get d "workspace_id")).
    destruct (Client.intercept _); reflexivity.
  - intros l defaultProject Hws Hid Hread. apply String.eqb_neq in Hid.
    assert (Hdef : ProjectResource.getDefaultProjectId config
                   = VStr (project_defaultProjectId config)).
    { unfold ProjectResource.getDefaultProjectId, Api.defaultProjectId, Js.or.
      cbn [truthy]. rewrite Hid. reflexivity. }
    assert (Hnull : Js.or (get d "workspace_id") VNull = VNull)
      by (unfold Js.or; rewrite Hws; reflexivity).
    unfold ProjectResourceWritable.create.
    rewrite run_try_catch, Ht. cbn [negb]. rewrite run_bind.
    unfold ProjectResourceWritable.inherited_workspace. rewrite Hws. cbn [negb].
    cbv zeta. rewrite Hdef. cbn [truthy]. rewrite Hid. cbn [negb Js.String].
    fold (default_project_uri config). rewrite run_bind, Hread. cbn [fst snd].
    destruct (truthy defaultProject); rewrite run_ret; cbn [fst snd];
      unfold Api.projects_create, Client.post; rewrite run_send;
      rewrite ?Hnull, ?app_nil_r.
    + fold (project_payload d (prop_opt defaultProject "workspace_id")).
      fold (project_create_request d (prop_opt defaultProject "workspace_id")).
      destruct (Client.intercept _); unfold calls, throw; cbn [fst snd];
        rewrite ?app_nil_r; reflexivity.
    + change (Js.obj _) with (project_payload d VNull).
      fold (project_create_request d VNull).
      destruct (Client.intercept _); unfold calls, throw; cbn [fst snd];
        rewrite ?app_nil_r; reflexivity.
Qed.

Lemma project_create_inherits_workspace_witness :
  calls (ProjectResourceWritable.create sample_config 1
           (Js.obj [("title", VStr "New"); ("workspace_id", VStr "ws_1")]) project_backend)
  = [project_create_request (Js.obj [("title", VStr "New"); ("workspace_id", VStr "ws_1")])
       (VStr "ws_1")] /\
  calls (ProjectResourceWritable.create sample_config 1
           (Js.obj [("title", VStr "New")]) project_backend)
  = [mkRequest GET "/api/projects/proj_1" VUndefined VUndefined;
     project_create_request (Js.obj [("title", VStr "New")]) (VStr "ws_9")].
Proof.
  split.
  - exact (proj1 (project_create_inherits_workspace sample_config 1
                    (Js.obj [("title", VStr "New"); ("workspace_id", VStr "ws_1")])
                    project_backend eq_refl) eq_refl).
  - refine (proj2 (project_create_inherits_workspace sample_config 1
                     (Js.obj [("title", VStr "New")]) project_backend eq_refl)
                  [mkRequest GET "/api/projects/proj_1" VUndefined VUndefined]
                  (VObj (Js.obj [("id", VStr "proj_1"); ("workspace_id", VStr "ws_9")]))
                  eq_refl _ eq_refl).
    discriminate.
Defined.

(** ** Searches and per-project queries *)

(** X27.  [DocumentResource.search] always searches within one project:
    it sends one [GET] to [/api/documents] with the query as [q] and with
    the given project, or the configured default project when none is
    given; it returns the documents of the answer, and the empty array
    when the request fails. *)
Theorem document_search_is_project_scoped :
  forall (config : Config) (query : string) (projectId : value) (w : World),
    calls (DocumentResource_search config query projectId w)
    = [search_request config query projectId] /\
    result (DocumentResource_search config query projectId w)
    = match Client.intercept (backend w (search_request config query projectId)) with
      | Ok response => Ok (Js.or (prop_opt response "data") (VArr []))
      | Throw _ => Ok (VArr [])
      end.
Proof.
  intros config query projectId w.
  assert (Hreq : mkRequest GET "/api/documents"
                   (VObj (Api.with_default_project config
                            (Some (if truthy projectId
                                   then <["project_id" := projectId]> (Js.obj [("q", VStr query)])
                                   else Js.obj [("q", VStr query)]))))
                   VUndefined
                 = search_request config query projectId).
  { unfold search_request, Api.with_default_project, get_opt, get.
    destruct (truthy projectId) eqn:E; unfold Js.or.
    - rewrite lookup_insert_eq.
      change (default VUndefined (Some projectId)) with projectId.
      rewrite E. reflexivity.
    - reflexivity. }
  unfold DocumentResource_search. rewrite run_try_catch. cbv zeta. rewrite run_bind.
  unfold Api.documents_list, Client.get. rewrite run_send, Hreq.
  destruct (Client.intercept _); split; reflexivity.
Qed.

(** X28.  [ProjectResource.getTasks] queries the tasks of the project it
    is given: the [project_id] of the caller's filters is replaced by it,
    the other filters go out unchanged, and an empty project id falls back
    to the configured default project. *)
Theorem project_tasks_query :
  forall (config : Config) (projectId : value) (p : option (gmap string value)) (w : World),
    calls (ProjectResource_getTasks config projectId p w)
    = [project_tasks_request config projectId p] /\
    sent_project (project_tasks_request config projectId p)
    = Some (if truthy projectId then projectId
            else VStr (project_defaultProjectId config)) /\
    forall k : string,
      k <> "project_id" ->
      match params (project_tasks_request config projectId p) with
      | VObj query => query !! k = p ≫= (fun o => o !! k)
      | _ => False
      end.
Proof.
  intros config projectId p w. split; [|split].
  - unfold ProjectResource_getTasks, Api.tasks_list, Client.get, project_tasks_request.
    rewrite run_send. unfold Api.with_default_project, get_opt, get.
    rewrite lookup_insert_eq. change (default VUndefined (Some projectId)) with projectId.
    cbn [spread default from_option]. unfold id. rewrite insert_insert_eq.
    unfold Js.or, Api.defaultProjectId. reflexivity.
  - unfold sent_project, project_tasks_request. cbn [params]. apply lookup_insert_eq.
  - intros k Hk. unfold project_tasks_request. cbn [params].
    rewrite lookup_insert_ne by congruence. destruct p; reflexivity.
Qed.

Lemma project_tasks_query_witness :
  calls (ProjectResource_getTasks sample_config (VStr "proj_2")
           (Some (Js.obj [("status", VStr "todo"); ("project_id", VStr "proj_3")]))
           empty_backend)
  = [mkRequest GET "/api/tasks"
       (VObj (Js.obj [("status", VStr "todo"); ("project_id", VStr "proj_2")])) VUndefined] /\
  match params (project_tasks_request sample_config (VStr "proj_2")
                  (Some (Js.obj [("status", VStr "todo"); ("project_id", VStr "proj_3")]))) with
  | VObj query => query !! "status" = Some (VStr "todo")
  | _ => False
  end.
Proof.
  pose proof (project_tasks_query sample_config (VStr "proj_2")
                (Some (Js.obj [("status", VStr "todo"); ("project_id", VStr "proj_3")]))
                empty_backend) as (Hc & _ & Hk).
  split; [exact Hc|]. apply (Hk "status"). discriminate.
Defined.

(** ** The Backend Client on every outcome *)

(** X29.  The Backend Client hands its caller the body of a fulfilled
    response and nothing else; a rejection never comes back as a value.
    When the rejection carries a response, the error is an [ApiError] with
    the status and the raw body of that response, whose message is the
    body's [message] converted to a string when the body is an object that
    has one, and the message of the transport error otherwise. *)
Theorem client_outcomes :
  forall (w : World) (r : Request),
    (forall resp : AxiosResponse,
        backend w r = Fulfilled resp -> Client.send r w = ([r], Ok (data resp))) /\
    (forall e : AxiosFailure,
        backend w r = Rejected e ->
        exists err : JsError, Client.send r w = ([r], Throw err)) /\
    (forall (e : AxiosFailure) (resp : AxiosResponse),
        backend w r = Rejected e ->
        response e = Some resp ->
        exists msg : string,
          Client.send r w = ([r], Throw (ApiError msg (status resp) (data resp))) /\
          (forall (o : gmap string value) (m : value),
              data resp = VObj o -> o !! "message" = Some m -> msg = Js.String m) /\
          ((forall o : gmap string value, data resp = VObj o -> o !! "message" = None) ->
           msg = message e)).
Proof.
  intros w r. split; [|split].
  - intros resp H. rewrite run_send, H. reflexivity.
  - intros e H. rewrite run_send, H. cbn. unfold Client.onRejected.
    destruct (response e); [eauto|]. destruct (request e); eauto.
  - intros e resp H Hr. rewrite run_send, H. cbn. unfold Client.onRejected. rewrite Hr.
    eexists. split; [reflexivity|]. split.
    + intros o m Hd Hm. rewrite Hd, Hm. reflexivity.
    + intros Hno. destruct (data resp) as [| | | | | |o]; try reflexivity.
      rewrite (Hno o eq_refl). reflexivity.
Qed.

Lemma client_outcomes_witness :
  Client.send (mkRequest GET "/api/tasks/1" VUndefined VUndefined) three_tasks_backend
  = ([mkRequest GET "/api/tasks/1" VUndefined VUndefined], Ok three_tasks) /\
  exists msg : string,
    Client.send (mkRequest GET "/api/tasks/1" VUndefined VUndefined)
      (failing_backend not_found_X)
    = ([mkRequest GET "/api/tasks/1" VUndefined VUndefined],
       Throw (ApiError msg 404 (VObj (Js.obj [("message", VStr "X")])))).
Proof.
  split.
  - exact (proj1 (client_outcomes three_tasks_backend
                    (mkRequest GET "/api/tasks/1" VUndefined VUndefined))
                 (mkResponse 200 three_tasks) eq_refl).
  - destruct (proj2 (proj2 (client_outcomes (failing_backend not_found_X)
                      (mkRequest GET "/api/tasks/1" VUndefined VUndefined)))
                    not_found_X
                    (mkResponse 404 (VObj (Js.obj [("message", VStr "X")])))
                    eq_refl eq_refl) as (msg & H & _).
    exists msg. exact H.
Defined.

(** ** Open errors *)

(** X30.  [ErrorResource.getOpenErrors] asks the backend for errors with
    status [open], within the given project when one is given and across
    all projects otherwise, and, unlike [list], lets a failed request
    surface as an exception. *)
Theorem open_errors_query :
  forall (projectId : value) (w : World),
    calls (ErrorResource_getOpenErrors projectId w) = [open_errors_request projectId] /\
    (down w -> exists err, result (ErrorResource_getOpenErrors projectId w) = Throw err) /\
    (down w -> result (ErrorResource.list (Some (Js.obj [("status", VStr "open")])) w)
               = Ok (VArr [])).
Proof.
  intros projectId w.
  assert (Hreq : mkRequest GET "/api/errors"
                   (of_params (Some (if truthy projectId
                                     then <["project_id" := projectId]>
                                            (Js.obj [("status", VStr "open")])
                                     else Js.obj [("status", VStr "open")])))
                   VUndefined
                 = open_errors_request projectId).
  { unfold open_errors_request. destruct (truthy projectId); reflexivity. }
  unfold ErrorResource_getOpenErrors. cbv zeta. split; [|split].
  - rewrite run_bind. unfold Api.errors_list, Client.get. rewrite run_send, Hreq.
    destruct (Client.intercept _) as [resp|e]; [|reflexivity].
    rewrite run_lift. cbn. rewrite ?app_nil_r. reflexivity.
  - intros Hw.
    assert (H : fails (Api.errors_list
                         (Some (if truthy projectId
                                then <["project_id" := projectId]>
                                       (Js.obj [("status", VStr "open")])
                                else Js.obj [("status", VStr "open")]))
                       ≫= (fun response => lift (prop response "data"))) w)
      by fails_auto.
    destruct H as (l & e & ->). eauto.
  - intros Hw. unfold ErrorResource.list. apply caught. fails_auto.
Qed.

Lemma open_errors_query_witness :
  exists err,
    result (ErrorResource_getOpenErrors (VStr "proj_1") (failing_backend no_response))
    = Throw err.
Proof.
  exact (proj1 (proj2 (open_errors_query (VStr "proj_1") (failing_backend no_response)))
               (failing_backend_down no_response)).
Defined.
